(** * Sentiment and emotion aggregation: a shallow embedding

    The development follows [src/analysis/sentiment.py] and
    [src/analysis/emotion.py].  Python values are embedded as follows.

    - [str] is [string]; a character is a code point below 256.
    - A [dict] keeps its insertion order, so it is an association list
      with distinct keys ([PyDict]); [d[k] = v] replaces in place or
      appends.
    - [float] is an abstract type [F] with the operations the code uses
      ([PyFloat]); nothing is assumed about them unless a theorem names
      the law it needs.
    - The classifier is an external object: a function on an abstract
      state, returning [None] when the call (or the decoding of its
      answer inside the [try] block) raises.

    The last part of the definitions follows
    [src/ingestion/news_ingestor.py] and the loading and saving
    functions of the two analysis modules.  There the clock is a
    counter of readings, and a function that writes returns what it
    asks of the file system. *)

From Stdlib Require Import ZArith QArith Qcanon Ascii String.
From stdpp Require Import base option list strings gmap.

Local Open Scope Z_scope.
Local Open Scope string_scope.
Local Open Scope list_scope.

(** ** Python strings *)

Module PyStr.

(** [str.isspace] on one character, for code points below 256. *)
Definition isspace (c : ascii) : bool :=
  let n := nat_of_ascii c in
  ((9 <=? n) && (n <=? 13))%nat || ((28 <=? n) && (n <=? 32))%nat
  || (n =? 133)%nat || (n =? 160)%nat.

Fixpoint lstrip (s : string) : string :=
  match s with
  | String c s' => if isspace c then lstrip s' else s
  | EmptyString => EmptyString
  end.

Definition rstrip (s : string) : string :=
  String.rev (lstrip (String.rev s)).

(** [s.strip()] *)
Definition strip (s : string) : string := rstrip (lstrip s).

(** [s[:n]] *)
Fixpoint slice_to (n : nat) (s : string) : string :=
  match n, s with
  | S n', String c s' => String c (slice_to n' s')
  | _, _ => EmptyString
  end.

Arguments slice_to : simpl never.

(** [bool(s)] *)
Definition truthy (s : string) : bool :=
  match s with EmptyString => false | _ => true end.

(** Every character is whitespace (this includes the empty string). *)
Fixpoint all_space (s : string) : bool :=
  match s with
  | String c s' => isspace c && all_space s'
  | EmptyString => true
  end.

End PyStr.

(** ** Python dictionaries with string keys *)

Module PyDict.

Definition dict (V : Type) : Type := list (string * V).

Section Ops.
Context {V : Type}.

(** [d.get(k)] *)
Fixpoint dget (k : string) (d : dict V) : option V :=
  match d with
  | [] => None
  | (k', v) :: d' => if decide (k = k') then Some v else dget k d'
  end.

(** [k in d] *)
Definition dmem (k : string) (d : dict V) : bool :=
  match dget k d with Some _ => true | None => false end.

(** [d[k] = v]: an existing key keeps its position. *)
Fixpoint dset (k : string) (v : V) (d : dict V) : dict V :=
  match d with
  | [] => [(k, v)]
  | (k', v') :: d' =>
      if decide (k = k') then (k, v) :: d' else (k', v') :: dset k v d'
  end.

(** [del d[k]] when the key is there, nothing otherwise. *)
Definition ddel (k : string) (d : dict V) : dict V :=
  filter (fun kv => kv.1 <> k) (d : list (string * V)).

(** [{k: v for (k, v) in items}] *)
Definition dict_of (items : list (string * V)) : dict V :=
  foldl (fun d kv => dset kv.1 kv.2 d) [] items.

(** [list(d.keys())], [list(d.values())] *)
Definition dkeys (d : dict V) : list string := d.*1.
Definition dvalues (d : dict V) : list V := d.*2.

(** [bool(d)] *)
Definition dtruthy (d : dict V) : bool :=
  match d with [] => false | _ => true end.

End Ops.

End PyDict.

Import PyDict.

(** ** Python floats *)

(** The float operations used by the analyzers.  [fsum] is the builtin
    [sum] over a list of floats, [round_nd n] is [round(x, n)], [flt] is
    [<], and [of_int] the conversion of an [int] operand. *)
Class PyFloat (F : Type) : Type := {
  of_int : Z -> F;
  fsum : list F -> F;
  fdiv : F -> F -> F;
  fmul : F -> F -> F;
  round_nd : nat -> F -> F;
  flt : F -> F -> bool
}.

(** [0.0] *)
Definition fzero {F} `{PyFloat F} : F := of_int 0.

(** [sum(xs) / len(xs)] *)
Definition mean {F} `{PyFloat F} (xs : list F) : F :=
  fdiv (fsum xs) (of_int (Z.of_nat (length xs))).

(** Comparison laws: [<] is a strict weak order (no NaN among the
    scores). *)
Class FloatOrder (F : Type) `{PyFloat F} : Prop := {
  flt_irrefl : forall x, flt x x = false;
  flt_trans : forall x y z, flt x y = true -> flt y z = true -> flt x z = true;
  flt_cotrans : forall x y z, flt x z = true -> flt x y = true \/ flt y z = true
}.

(** The exact cases of the percentage computation:
    [n / n * 100 = 100.0] and [0 / n * 100 = 0.0], and [round] keeps
    both. *)
Class FloatExact (F : Type) `{PyFloat F} : Prop := {
  fdiv_same : forall n, 0 < n -> fdiv (of_int n) (of_int n) = of_int 1;
  fdiv_zero : forall n, 0 < n -> fdiv (of_int 0) (of_int n) = of_int 0;
  fmul_one_100 : fmul (of_int 1) (of_int 100) = of_int 100;
  fmul_zero_100 : fmul (of_int 0) (of_int 100) = of_int 0;
  round2_100 : round_nd 2 (of_int 100) = of_int 100;
  round2_zero : round_nd 2 (of_int 0) = of_int 0
}.

(** ** Exceptions *)

Inductive exn : Type := AttributeError | ValueError.

Inductive result (A : Type) : Type :=
| Ok (a : A)
| Raise (e : exn).
Arguments Ok {A} a.
Arguments Raise {A} e.

Definition rbind {A B} (r : result A) (k : A -> result B) : result B :=
  match r with Ok a => k a | Raise e => Raise e end.

(** ** Records *)

(** A field of an input record holds text or JSON [null]. *)
Inductive value : Type :=
| VNone
| VStr (s : string).

(** [bool(v)] for a field value. *)
Definition vtruthy (v : value) : bool :=
  match v with VNone => false | VStr s => PyStr.truthy s end.

(** [text and text.strip()], as a condition. *)
Definition has_text (v : value) : bool :=
  match v with
  | VNone => false
  | VStr s => PyStr.truthy s && PyStr.truthy (PyStr.strip s)
  end.

(** Empty, whitespace-only or absent. *)
Definition is_blank (v : value) : bool :=
  match v with VNone => true | VStr s => PyStr.all_space s end.

Definition record : Type := dict value.

(** A field of an annotated record: an original value, or the analysis
    sub-map stored by an analyzer. *)
Inductive avalue (A : Type) : Type :=
| Orig (v : value)
| Ann (a : A).
Arguments Orig {A} v.
Arguments Ann {A} a.

Definition annotated (A : Type) : Type := dict (avalue A).

(** [article.copy()]: the same items in a new dictionary. *)
Definition copy {A} (article : record) : annotated A :=
  (fun kv => (kv.1, Orig kv.2)) <$> article.

(** ** Builtins *)

(** [max(xs, key=f)]: the first element whose key is not exceeded;
    [None] stands for the [ValueError] on an empty argument. *)
Fixpoint max_from {A K} (lt : K -> K -> bool) (f : A -> K)
    (best : A) (xs : list A) : A :=
  match xs with
  | [] => best
  | x :: xs' => max_from lt f (if lt (f best) (f x) then x else best) xs'
  end.

Definition py_max {A K} (lt : K -> K -> bool) (f : A -> K)
    (xs : list A) : option A :=
  match xs with
  | [] => None
  | x :: xs' => Some (max_from lt f x xs')
  end.

(** [xs.count(x)] on a list of strings. *)
Definition count (x : string) (xs : list string) : nat :=
  length (filter (fun y => y = x) xs).

(** [sorted(items, key=lambda x: x[1], reverse=True)]: descending, and
    items with equal keys keep their order. *)
Fixpoint insert_desc {A} (x : A * Z) (xs : list (A * Z)) : list (A * Z) :=
  match xs with
  | [] => [x]
  | y :: xs' => if (y.2 <? x.2)%Z then x :: y :: xs' else y :: insert_desc x xs'
  end.

Definition sorted_desc {A} (xs : list (A * Z)) : list (A * Z) :=
  foldl (fun acc x => insert_desc x acc) [] xs.

(** [range(0, stop, step)] for [0 <= stop]. *)
Definition range0 (stop step : Z) : result (list Z) :=
  if decide (step = 0) then Raise ValueError
  else if decide (step < 0) then Ok []
  else Ok ((fun k => Z.of_nat k * step) <$> seq 0 (Z.to_nat ((stop + step - 1) / step))).

(** [xs[i:i+n]] for [0 <= i] and [0 < n]. *)
Definition slice {A} (i n : Z) (xs : list A) : list A :=
  take (Z.to_nat n) (drop (Z.to_nat i) xs).

(** * sentiment.py *)

Module Sentiment.

(** A result dictionary [{"label": ..., "score": ...}]. *)
Record sentiment (F : Type) : Type := mk_sentiment {
  label : string;
  score : F
}.
Arguments mk_sentiment {F} label score.
Arguments label {F} s.
Arguments score {F} s.

(** The dictionary returned by [get_sentiment_statistics]. *)
Record statistics (F : Type) : Type := mk_statistics {
  total_analyzed : Z;
  positive : Z;
  negative : Z;
  neutral : Z;
  positive_percent : F;
  negative_percent : F;
  neutral_percent : F;
  average_confidence : F
}.
Arguments mk_statistics {F}.
Arguments total_analyzed {F} s.
Arguments positive {F} s.
Arguments negative {F} s.
Arguments neutral {F} s.
Arguments positive_percent {F} s.
Arguments negative_percent {F} s.
Arguments neutral_percent {F} s.
Arguments average_confidence {F} s.

Definition KEY : string := "sentiment_analysis".

Section Analyzer.
Context {F : Type} `{PyFloat F} {St : Type}.

(** [self.model(text)[0]], read as its ["label"] and ["score"]. *)
Variable model : string -> St -> option (string * F) * St.
(** [self.model(cleaned_batch)], one entry per returned result. *)
Variable model_batch : list string -> St -> option (list (string * F)) * St.
(** The iteration order of [set(labels)]. *)
Variable set_iter : list string -> list string.

Definition NEUTRAL : sentiment F := mk_sentiment "NEUTRAL" fzero.
Definition ERROR : sentiment F := mk_sentiment "ERROR" fzero.

Definition analyze_text (text : value) (st : St) : sentiment F * St :=
  match text with
  | VNone => (NEUTRAL, st)
  | VStr s =>
      if negb (PyStr.truthy s) || negb (PyStr.truthy (PyStr.strip s))
      then (NEUTRAL, st)
      else
        let text := PyStr.slice_to 512 s in
        match model text st with
        | (Some (l, x), st') => (mk_sentiment l (round_nd 4 x), st')
        | (None, st') => (ERROR, st')
        end
  end.

(** The text handed to the model for one element of a batch. *)
Definition clean (text : value) : string :=
  match text with
  | VStr s => if has_text text then PyStr.slice_to 512 s else ""
  | VNone => ""
  end.

(** One iteration of the loop over batch offsets. *)
Definition analyze_chunk (texts : list value) (batch_size : Z) (i : Z)
    (results : list (sentiment F)) (st : St) : list (sentiment F) * St :=
  let batch := slice i batch_size texts in
  let cleaned_batch := clean <$> batch in
  match model_batch cleaned_batch st with
  | (Some batch_results, st') =>
      (results ++ ((fun r => mk_sentiment r.1 (round_nd 4 r.2)) <$> batch_results), st')
  | (None, st') =>
      (results ++ ((fun _ => ERROR) <$> batch), st')
  end.

Fixpoint analyze_chunks (texts : list value) (batch_size : Z) (offsets : list Z)
    (results : list (sentiment F)) (st : St) : list (sentiment F) * St :=
  match offsets with
  | [] => (results, st)
  | i :: offsets' =>
      let '(results', st') := analyze_chunk texts batch_size i results st in
      analyze_chunks texts batch_size offsets' results' st'
  end.

Definition analyze_batch (texts : list value) (batch_size : Z) (st : St)
    : result (list (sentiment F)) * St :=
  match range0 (Z.of_nat (length texts)) batch_size with
  | Raise e => (Raise e, st)
  | Ok offsets =>
      let '(results, st') := analyze_chunks texts batch_size offsets [] st in
      (Ok results, st')
  end.

(** One iteration of the loop over [fields]; [d] is
    [article_copy["sentiment_analysis"]]. *)
Definition analyze_field (article : record) (field : string)
    (d : dict (sentiment F)) (st : St) : dict (sentiment F) * St :=
  let text := default (VStr "") (dget field article) in
  if has_text text then
    let '(sentiment, st') := analyze_text text st in
    (dset field sentiment d, st')
  else (d, st).

Fixpoint analyze_fields (article : record) (fields : list string)
    (d : dict (sentiment F)) (st : St) : dict (sentiment F) * St :=
  match fields with
  | [] => (d, st)
  | field :: fields' =>
      let '(d', st') := analyze_field article field d st in
      analyze_fields article fields' d' st'
  end.

(** [max(set(labels), key=labels.count)]; the set of a non-empty
    list is not empty, so the [ValueError] branch is never taken
    when [set_iter] lists the elements of its argument. *)
Definition most_common (labels : list string) : string :=
  default "" (py_max Nat.ltb (fun l => count l labels) (set_iter labels)).

(** The overall entry computed from the per-field results. *)
Definition overall (sentiments : list (sentiment F)) : sentiment F :=
  let labels := label <$> sentiments in
  let avg_score := mean (score <$> sentiments) in
  mk_sentiment (most_common labels) (round_nd 4 avg_score).

Definition add_overall (d : dict (sentiment F)) : dict (sentiment F) :=
  let sentiments := dvalues d in
  match sentiments with
  | [] => d
  | _ => dset "overall" (overall sentiments) d
  end.

(** The body of the loop over [articles]. *)
Definition analyze_article (article : record) (fields : list string)
    (st : St) : annotated (dict (sentiment F)) * St :=
  let article_copy := dset KEY (Ann []) (copy article) in
  let '(d, st') := analyze_fields article fields [] st in
  (dset KEY (Ann (add_overall d)) article_copy, st').

(** The default of [fields]. *)
Definition DEFAULT_FIELDS : list string := ["title"; "description"].

(** [fields] is the list of field names once the default has been
    applied: [DEFAULT_FIELDS] when the caller gives none. *)
Fixpoint analyze_articles (articles : list record) (fields : list string)
    (st : St) : list (annotated (dict (sentiment F))) * St :=
  match articles with
  | [] => ([], st)
  | article :: articles' =>
      let '(article_copy, st') := analyze_article article fields st in
      let '(analyzed, st'') := analyze_articles articles' fields st' in
      (article_copy :: analyzed, st'')
  end.

(** [article.get("sentiment_analysis", {}).get("overall")] *)
Definition get_overall (article : annotated (dict (sentiment F)))
    : result (option (sentiment F)) :=
  match dget KEY article with
  | None => Ok None
  | Some (Ann a) => Ok (dget "overall" a)
  | Some (Orig _) => Raise AttributeError
  end.

(** The loop collecting [sentiments]. *)
Fixpoint collect (analyzed_articles : list (annotated (dict (sentiment F))))
    : result (list (sentiment F)) :=
  match analyzed_articles with
  | [] => Ok []
  | article :: rest =>
      rbind (get_overall article) (fun overall =>
      rbind (collect rest) (fun sentiments =>
      Ok (match overall with
          | Some o => o :: sentiments
          | None => sentiments
          end)))
  end.

(** [round(k / n * 100, 2)] *)
Definition percent (k n : Z) : F :=
  round_nd 2 (fmul (fdiv (of_int k) (of_int n)) (of_int 100)).

Definition count_label (l : string) (sentiments : list (sentiment F)) : Z :=
  Z.of_nat (length (filter (fun s => label s = l) sentiments)).

(** [None] is the empty dictionary [{}]. *)
Definition get_sentiment_statistics
    (analyzed_articles : list (annotated (dict (sentiment F))))
    : result (option (statistics F)) :=
  match analyzed_articles with
  | [] => Ok None
  | _ =>
      rbind (collect analyzed_articles) (fun sentiments =>
      match sentiments with
      | [] => Ok None
      | _ =>
          let n := Z.of_nat (length sentiments) in
          let positive := count_label "POSITIVE" sentiments in
          let negative := count_label "NEGATIVE" sentiments in
          let neutral := n - positive - negative in
          let avg_score := mean (score <$> sentiments) in
          Ok (Some (mk_statistics n positive negative neutral
                      (percent positive n) (percent negative n)
                      (percent neutral n) (round_nd 4 avg_score)))
      end)
  end.

End Analyzer.

End Sentiment.

(** * emotion.py *)

Module Emotion.

Definition EMOTIONS : list string :=
  ["anger"; "disgust"; "fear"; "joy"; "neutral"; "sadness"; "surprise"].

Definition KEY : string := "emotion_analysis".

(** The overall dictionary of a record: the category keys with their
    averaged scores, and the keys ["dominant_emotion"] and
    ["dominant_score"], which are set together. *)
Record overall_emotions (F : Type) : Type := mk_overall {
  scores : dict F;
  dominant : option (string * F)
}.
Arguments mk_overall {F} scores dominant.
Arguments scores {F} o.
Arguments dominant {F} o.

(** The sub-map [article_copy["emotion_analysis"]]: the per-field
    dictionaries by field name, and the entry under ["overall"] once it
    is assigned.  The assignment replaces a per-field entry of that
    name, so [per_field] then has no key ["overall"]. *)
Record analysis (F : Type) : Type := mk_analysis {
  per_field : dict (dict F);
  overall : option (overall_emotions F)
}.
Arguments mk_analysis {F} per_field overall.
Arguments per_field {F} a.
Arguments overall {F} a.

(** The dictionary returned by [get_emotion_statistics]. *)
Record statistics (F : Type) : Type := mk_statistics {
  total_analyzed : Z;
  average_emotions : dict F;
  dominant_emotion_counts : dict Z;
  most_common_emotion : option string;
  emotion_distribution : dict F
}.
Arguments mk_statistics {F}.
Arguments total_analyzed {F} s.
Arguments average_emotions {F} s.
Arguments dominant_emotion_counts {F} s.
Arguments most_common_emotion {F} s.
Arguments emotion_distribution {F} s.

Section Analyzer.
Context {F : Type} `{PyFloat F} {St : Type}.

(** [self.model(text)[0]]: the list of label and score results. *)
Variable model : string -> St -> option (list (string * F)) * St.
(** The iteration order of [set(dominant_emotions)]. *)
Variable set_iter : list string -> list string.

(** [{emotion: 0.0 for emotion in self.EMOTIONS}] *)
Definition ZEROS : dict F := dict_of ((fun emotion => (emotion, fzero)) <$> EMOTIONS).

Definition analyze_text (text : value) (st : St) : dict F * St :=
  match text with
  | VNone => (ZEROS, st)
  | VStr s =>
      if negb (PyStr.truthy s) || negb (PyStr.truthy (PyStr.strip s))
      then (ZEROS, st)
      else
        let text := PyStr.slice_to 512 s in
        match model text st with
        | (Some results, st') =>
            (dict_of ((fun r => (r.1, round_nd 4 r.2)) <$> results), st')
        | (None, st') => (ZEROS, st')
        end
  end.

(** One iteration of the loop over [fields]; [d] is
    [article_copy["emotion_analysis"]]. *)
Definition analyze_field (article : record) (field : string)
    (d : dict (dict F)) (st : St) : dict (dict F) * St :=
  let text := default (VStr "") (dget field article) in
  if has_text text then
    let '(emotions, st') := analyze_text text st in
    (dset field emotions d, st')
  else (d, st).

Fixpoint analyze_fields (article : record) (fields : list string)
    (d : dict (dict F)) (st : St) : dict (dict F) * St :=
  match fields with
  | [] => (d, st)
  | field :: fields' =>
      let '(d', st') := analyze_field article field d st in
      analyze_fields article fields' d' st'
  end.

(** The scores of one category over the per-field dictionaries that
    have it. *)
Definition category_scores (emotion : string) (d : dict (dict F)) : list F :=
  omap (dget emotion) (dvalues d).

(** One iteration of the loop over [self.EMOTIONS]. *)
Definition add_category (d : dict (dict F)) (overall_emotions : dict F)
    (emotion : string) : dict F :=
  let scores := category_scores emotion d in
  match scores with
  | [] => overall_emotions
  | _ => dset emotion (round_nd 4 (mean scores)) overall_emotions
  end.

Definition overall_scores (d : dict (dict F)) : dict F :=
  foldl (add_category d) [] EMOTIONS.

(** [max(overall_emotions.items(), key=lambda x: x[1])], when the
    dictionary is not empty. *)
Definition find_dominant (overall_emotions : dict F) : option (string * F) :=
  py_max flt snd overall_emotions.

Definition compute_overall (d : dict (dict F)) : overall_emotions F :=
  let overall_emotions := overall_scores d in
  mk_overall overall_emotions (find_dominant overall_emotions).

(** The sub-map once the loop over the fields is done. *)
Definition finish (d : dict (dict F)) : analysis F :=
  match d with
  | [] => mk_analysis [] None
  | _ => mk_analysis (ddel "overall" d) (Some (compute_overall d))
  end.

(** The body of the loop over [articles]. *)
Definition analyze_article (article : record) (fields : list string)
    (st : St) : annotated (analysis F) * St :=
  let article_copy := dset KEY (Ann (mk_analysis [] None)) (copy article) in
  let '(d, st') := analyze_fields article fields [] st in
  (dset KEY (Ann (finish d)) article_copy, st').

(** The default of [fields]. *)
Definition DEFAULT_FIELDS : list string := ["title"; "description"].

(** [fields] is the list of field names once the default has been
    applied: [DEFAULT_FIELDS] when the caller gives none. *)
Fixpoint analyze_articles (articles : list record) (fields : list string)
    (st : St) : list (annotated (analysis F)) * St :=
  match articles with
  | [] => ([], st)
  | article :: articles' =>
      let '(article_copy, st') := analyze_article article fields st in
      let '(analyzed, st'') := analyze_articles articles' fields st' in
      (article_copy :: analyzed, st'')
  end.

(** [article.get("emotion_analysis", {}).get("overall", {})] *)
Definition get_overall (article : annotated (analysis F))
    : result (overall_emotions F) :=
  match dget KEY article with
  | None => Ok (mk_overall [] None)
  | Some (Ann a) => Ok (default (mk_overall [] None) (overall a))
  | Some (Orig _) => Raise AttributeError
  end.

(** [bool(overall)] *)
Definition otruthy (o : overall_emotions F) : bool :=
  dtruthy (scores o) || bool_decide (is_Some (dominant o)).

(** [emotion_totals[emotion].append(overall[emotion])] for the
    categories that [overall] has. *)
Definition add_scores (o : overall_emotions F) (emotion_totals : dict (list F))
    : dict (list F) :=
  foldl (fun totals emotion =>
           match dget emotion (scores o) with
           | Some x => dset emotion (default [] (dget emotion totals) ++ [x]) totals
           | None => totals
           end) emotion_totals EMOTIONS.

Definition add_dominant (o : overall_emotions F) (dominant_emotions : list string)
    : list string :=
  match dominant o with
  | Some (emotion, _) => dominant_emotions ++ [emotion]
  | None => dominant_emotions
  end.

(** The loop over the analyzed articles. *)
Fixpoint collect (analyzed_articles : list (annotated (analysis F)))
    (emotion_totals : dict (list F)) (dominant_emotions : list string)
    : result (dict (list F) * list string) :=
  match analyzed_articles with
  | [] => Ok (emotion_totals, dominant_emotions)
  | article :: rest =>
      rbind (get_overall article) (fun o =>
      if otruthy o
      then collect rest (add_scores o emotion_totals) (add_dominant o dominant_emotions)
      else collect rest emotion_totals dominant_emotions)
  end.

Definition average (scores : list F) : F :=
  match scores with
  | [] => fzero
  | _ => round_nd 4 (mean scores)
  end.

(** [round(count / n * 100, 2)] *)
Definition percent (k n : Z) : F :=
  round_nd 2 (fmul (fdiv (of_int k) (of_int n)) (of_int 100)).

(** [None] is the empty dictionary [{}]. *)
Definition get_emotion_statistics
    (analyzed_articles : list (annotated (analysis F)))
    : result (option (statistics F)) :=
  match analyzed_articles with
  | [] => Ok None
  | _ =>
      let emotion_totals := dict_of ((fun emotion => (emotion, [])) <$> EMOTIONS) in
      rbind (collect analyzed_articles emotion_totals []) (fun '(emotion_totals, dominant_emotions) =>
      let emotion_averages :=
        (fun kv => (kv.1, average kv.2)) <$> emotion_totals in
      let dominant_counts :=
        dict_of ((fun emotion => (emotion, Z.of_nat (count emotion dominant_emotions)))
                   <$> set_iter dominant_emotions) in
      let dominant_sorted := sorted_desc dominant_counts in
      Ok (Some (mk_statistics
            (Z.of_nat (length analyzed_articles))
            emotion_averages
            (dict_of dominant_sorted)
            (match dominant_sorted with
             | x :: _ => Some x.1
             | [] => None
             end)
            (match dominant_emotions with
             | [] => []
             | _ => (fun kv => (kv.1, percent kv.2 (Z.of_nat (length dominant_emotions))))
                      <$> dominant_counts
             end))))
  end.

End Analyzer.

End Emotion.

(** * The analyzers on a store of objects

    [analyze_articles] receives references to the caller's
    dictionaries.  Here the dictionaries live in a store: the caller's
    records, the copies made by [article.copy()], and the analysis
    sub-maps, which are updated in place. *)

Module Store.

Abbreviation loc := positive (only parsing).

(** An item of a copy: an original value, or a reference to the
    analysis sub-map. *)
Inductive hvalue : Type :=
| HVal (v : value)
| HRef (l : loc).

(** The dictionaries of the store: a record of the caller, a copy
    made by [analyze_articles], an analysis sub-map. *)
Inductive object (A : Type) : Type :=
| OInput (r : record)
| OCopy (d : dict hvalue)
| OAnalysis (a : A).
Arguments OInput {A} r.
Arguments OCopy {A} d.
Arguments OAnalysis {A} a.

Abbreviation heap A := (gmap positive (object A)) (only parsing).

(** Store and classifier state, with failure on a reference that does
    not hold the expected kind of object. *)
Definition M (A St X : Type) : Type :=
  heap A * St -> option (X * (heap A * St)).

Definition ret {A St X} (x : X) : M A St X := fun s => Some (x, s).

Definition bind {A St X Y} (m : M A St X) (k : X -> M A St Y) : M A St Y :=
  fun s => match m s with
           | Some (x, s') => k x s'
           | None => None
           end.

Notation "'do' x <- m ; k" := (bind m (fun x => k))
  (at level 10, x name, m at level 100, k at level 200).

Section Ops.
Context {A St : Type}.

(** A new object at an unused location. *)
Definition alloc (o : object A) : M A St loc :=
  fun '(h, st) => let l := fresh (dom h) in Some (l, (<[l := o]> h, st)).

Definition read_input (l : loc) : M A St record :=
  fun '(h, st) => match h !! l with
                  | Some (OInput r) => Some (r, (h, st))
                  | _ => None
                  end.

Definition read_analysis (l : loc) : M A St A :=
  fun '(h, st) => match h !! l with
                  | Some (OAnalysis a) => Some (a, (h, st))
                  | _ => None
                  end.

Definition write_analysis (l : loc) (a : A) : M A St unit :=
  fun '(h, st) => match h !! l with
                  | Some (OAnalysis _) => Some (tt, (<[l := OAnalysis a]> h, st))
                  | _ => None
                  end.

(** [copy[k] = v] on the copy at [l]. *)
Definition set_item (l : loc) (k : string) (v : hvalue) : M A St unit :=
  fun '(h, st) => match h !! l with
                  | Some (OCopy d) => Some (tt, (<[l := OCopy (dset k v d)]> h, st))
                  | _ => None
                  end.

(** A computation on the classifier state only. *)
Definition lift {X} (f : St -> X * St) : M A St X :=
  fun '(h, st) => let '(x, st') := f st in Some (x, (h, st')).

Variable KEY : string.
(** The empty sub-map, the assignment of one field's result to it,
    and the assignment of the overall entry. *)
Variable empty : A.
Variable field_step : record -> string -> A -> St -> A * St.
Variable finish : A -> A.

(** The sub-map and classifier state after the loop over [fields], as
    a function of the record. *)
Fixpoint fields_result (r : record) (fields : list string) (a : A) (st : St) : A * St :=
  match fields with
  | [] => (a, st)
  | field :: fields' =>
      let '(a', st') := field_step r field a st in
      fields_result r fields' a' st'
  end.

(** The items of [article.copy()]. *)
Definition copy_items (r : record) : dict hvalue :=
  (fun kv => (kv.1, HVal kv.2)) <$> r.

Fixpoint analyze_fields (article sub : loc) (fields : list string) : M A St unit :=
  match fields with
  | [] => ret tt
  | field :: fields' =>
      do r <- read_input article ;
      do a <- read_analysis sub ;
      do a' <- lift (field_step r field a) ;
      do _ <- write_analysis sub a' ;
      analyze_fields article sub fields'
  end.

(** The body of the loop over [articles]. *)
Definition analyze_article (article : loc) (fields : list string) : M A St loc :=
  do r <- read_input article ;
  do article_copy <- alloc (OCopy (copy_items r)) ;
  do sub <- alloc (OAnalysis empty) ;
  do _ <- set_item article_copy KEY (HRef sub) ;
  do _ <- analyze_fields article sub fields ;
  do a <- read_analysis sub ;
  do _ <- write_analysis sub (finish a) ;
  ret article_copy.

Fixpoint analyze_articles (articles : list loc) (fields : list string)
    : M A St (list loc) :=
  match articles with
  | [] => ret []
  | article :: articles' =>
      do article_copy <- analyze_article article fields ;
      do analyzed <- analyze_articles articles' fields ;
      ret (article_copy :: analyzed)
  end.

(** The annotated record a copy stands for. *)
Definition read_item (h : heap A) (v : hvalue) : option (avalue A) :=
  match v with
  | HVal v => Some (Orig v)
  | HRef l => match h !! l with
              | Some (OAnalysis a) => Some (Ann a)
              | _ => None
              end
  end.

Definition read_entry (h : heap A) (kv : string * hvalue)
    : option (string * avalue A) :=
  pair kv.1 <$> read_item h kv.2.

Definition read_copy (h : heap A) (l : loc) : option (annotated A) :=
  match h !! l with
  | Some (OCopy d) => mapM (read_entry h) d
  | _ => None
  end.

End Ops.

(** The two analyzers. *)
Section Instances.
Context {F : Type} `{PyFloat F} {St : Type}.

Definition sentiment_articles
    (model : string -> St -> option (string * F) * St)
    (set_iter : list string -> list string)
    : list loc -> list string -> M (dict (Sentiment.sentiment F)) St (list loc) :=
  analyze_articles Sentiment.KEY []
    (Sentiment.analyze_field model)
    (Sentiment.add_overall set_iter).

Definition emotion_step (model : string -> St -> option (list (string * F)) * St)
    (article : record) (field : string) (a : Emotion.analysis F) (st : St)
    : Emotion.analysis F * St :=
  let '(d, st') := Emotion.analyze_field model article field (Emotion.per_field a) st in
  (Emotion.mk_analysis d (Emotion.overall a), st').

Definition emotion_articles
    (model : string -> St -> option (list (string * F)) * St)
    : list loc -> list string -> M (Emotion.analysis F) St (list loc) :=
  analyze_articles Emotion.KEY (Emotion.mk_analysis [] None)
    (emotion_step model)
    (fun a => Emotion.finish (Emotion.per_field a)).

End Instances.

End Store.

(** * An instance: exact rational scores and counting classifiers *)

Module Exact.

(** The integer nearest to a rational, halves going to the even
    neighbour. *)
Definition round_half_even (q : Q) : Z :=
  let n := Qnum q in
  let d := Z.pos (Qden q) in
  let fl := n / d in
  match 2 * (n - fl * d) ?= d with
  | Lt => fl
  | Gt => fl + 1
  | Eq => if Z.even fl then fl else fl + 1
  end.

Definition round_q (k : nat) (x : Qc) : Qc :=
  let p := 10 ^ Z.of_nat k in
  Q2Qc (Qmake (round_half_even (this x * inject_Z p)) (Z.to_pos p)).

Definition lt_q (x y : Qc) : bool :=
  match (x ?= y)%Qc with Lt => true | _ => false end.

#[global] Instance float : PyFloat Qc := {|
  of_int z := Q2Qc (inject_Z z);
  fsum xs := foldl Qcplus (Q2Qc 0) xs;
  fdiv := Qcdiv;
  fmul := Qcmult;
  round_nd := round_q;
  flt := lt_q
|}.

(** The elements of a list in order of first occurrence. *)
Definition set_iter (xs : list string) : list string := remove_dups xs.

(** Classifiers that count their calls. *)
Definition positive_model (text : string) (calls : nat)
    : option (string * Qc) * nat :=
  (Some ("POSITIVE", Q2Qc (19 # 20)), S calls).

Definition failing_model {R : Type} (text : string) (calls : nat)
    : option R * nat :=
  (None, S calls).

Definition failing_batch {R : Type} (texts : list string) (calls : nat)
    : option R * nat :=
  (None, S calls).

Definition fear_model (text : string) (calls : nat)
    : option (list (string * Qc)) * nat :=
  (Some [("fear", Q2Qc (9 # 10)); ("joy", Q2Qc (1 # 10))], S calls).

(** Fear at 0.9 for the text ["A"], joy at 0.8 for any other text. *)
Definition scenario_model (text : string) (calls : nat)
    : option (list (string * Qc)) * nat :=
  if decide (text = "A")
  then (Some [("fear", Q2Qc (9 # 10)); ("joy", Q2Qc (1 # 20))], S calls)
  else (Some [("fear", Q2Qc (1 # 20)); ("joy", Q2Qc (8 # 10))], S calls).

(** The score of an entry as a plain rational. *)
Definition score_q (kv : string * Qc) : string * Q := (kv.1, this kv.2).

End Exact.

(** * Vocabulary of the statements *)

(** [set(xs)] iterates over the elements of [xs], in some order. *)
Definition set_order (set_iter : list string -> list string) : Prop :=
  forall xs x, x ∈ set_iter xs <-> x ∈ xs.

(** [l] is one of the labels that occur most often in [labels]. *)
Definition most_frequent (l : string) (labels : list string) : Prop :=
  l ∈ labels /\ forall l', (count l' labels <= count l labels)%nat.

(** [x] is the first item of [items] with the greatest score. *)
Definition first_greatest {F} `{PyFloat F} (x : string * F)
    (items : list (string * F)) : Prop :=
  exists before after,
    items = before ++ x :: after
    /\ (forall y, y ∈ before -> flt y.2 x.2 = true)
    /\ (forall y, y ∈ after -> flt x.2 y.2 = false).

(** The averaged score of one category: the mean, rounded to 4
    decimals, over the per-field dictionaries that have the category;
    nothing when none has it. *)
Definition category_mean {F} `{PyFloat F} (emotion : string) (d : dict (dict F))
    : option F :=
  match omap (dget emotion) (dvalues d) with
  | [] => None
  | xs => Some (round_nd 4 (fdiv (fsum xs) (of_int (Z.of_nat (length xs)))))
  end.

(** The offsets of the chunks [k0], ..., [k0 + m - 1]. *)
Definition chunk_offsets (batch_size : Z) (k0 m : nat) : list Z :=
  (fun k => Z.of_nat k * batch_size) <$> seq k0 m.

(** The number of chunks of [n] texts: [n / batch_size] rounded up for
    a positive batch size, none otherwise. *)
Definition chunk_count (n : nat) (batch_size : Z) : nat :=
  if decide (0 < batch_size)
  then Z.to_nat ((Z.of_nat n + batch_size - 1) / batch_size)
  else 0%nat.

(** The texts of chunk [k]: those at the positions from
    [k * batch_size] up to [(k + 1) * batch_size]. *)
Definition chunk (texts : list value) (batch_size : Z) (k : nat) : list value :=
  take (Z.to_nat batch_size) (drop (k * Z.to_nat batch_size) texts).

(** The state of the classifier when chunk [k] is handed to it: the
    initial state for the first chunk, and then the state in which the
    call on the chunk before has left it, whether that call failed or
    not. *)
Fixpoint chunk_state {R St} (model_batch : list string -> St -> option R * St)
    (texts : list value) (batch_size : Z) (st : St) (k : nat) : St :=
  match k with
  | O => st
  | S k' =>
      (model_batch (Sentiment.clean <$> chunk texts batch_size k')
         (chunk_state model_batch texts batch_size st k')).2
  end.

(** The answer of the classifier to chunk [k] in that state; [None] is
    a failure. *)
Definition chunk_answer {R St} (model_batch : list string -> St -> option R * St)
    (texts : list value) (batch_size : Z) (st : St) (k : nat) : option R :=
  (model_batch (Sentiment.clean <$> chunk texts batch_size k)
     (chunk_state model_batch texts batch_size st k)).1.

(** What chunk [k] contributes to the results: one ERROR sentinel for
    each of its texts when the call fails, the results of the classifier
    with rounded scores otherwise. *)
Definition chunk_results {F} `{PyFloat F} {St}
    (model_batch : list string -> St -> option (list (string * F)) * St)
    (texts : list value) (batch_size : Z) (st : St) (k : nat)
    : list (Sentiment.sentiment F) :=
  match chunk_answer model_batch texts batch_size st k with
  | None =>
      replicate (length (chunk texts batch_size k))
        (Sentiment.mk_sentiment "ERROR" (of_int 0))
  | Some batch_results =>
      (fun r => Sentiment.mk_sentiment r.1 (round_nd 4 r.2)) <$> batch_results
  end.

(** The overall sentiment of an annotated record, when it has one. *)
Definition sentiment_overall {F} (article : annotated (dict (Sentiment.sentiment F)))
    : option (Sentiment.sentiment F) :=
  match dget Sentiment.KEY article with
  | Some (Ann a) => dget "overall" a
  | _ => None
  end.

(** The record has no sentiment analysis, or one without overall
    entry. *)
Definition lacks_sentiment_overall {F}
    (article : annotated (dict (Sentiment.sentiment F))) : bool :=
  match dget Sentiment.KEY article with
  | None => true
  | Some (Ann a) => negb (dmem "overall" a)
  | Some (Orig _) => false
  end.

(** The record has no emotion analysis, or one without overall entry,
    or one whose overall entry is empty. *)
Definition lacks_emotion_overall {F}
    (article : annotated (Emotion.analysis F)) : bool :=
  match dget Emotion.KEY article with
  | None => true
  | Some (Ann a) =>
      match Emotion.overall a with
      | None => true
      | Some o => negb (Emotion.otruthy o)
      end
  | Some (Orig _) => false
  end.

(** [run] works on copies: started on a store [h] in which the
    references [articles] are records of the caller, it returns as many
    references, all new and distinct, and changes no object of [h]; the
    [i]-th copy has the items of the [i]-th record under every key but
    [KEY], and a new sub-map under [KEY]; read back from the store it is
    the annotated record [body] computes. *)
Definition works_on_copies {A St} (KEY : string)
    (run : list positive -> list string -> Store.M A St (list positive))
    (body : record -> list string -> St -> annotated A * St) : Prop :=
  forall (articles : list positive) (fields : list string)
         (h : gmap positive (Store.object A)) (st : St),
    (forall l, l ∈ articles -> exists r, h !! l = Some (Store.OInput r)) ->
    exists out h' st',
      run articles fields (h, st) = Some (out, (h', st'))
      /\ (forall l, l ∈ dom h -> h' !! l = h !! l)
      /\ length out = length articles
      /\ NoDup out
      /\ (forall c, c ∈ out -> c ∉ dom h)
      /\ (forall i l r, articles !! i = Some l -> h !! l = Some (Store.OInput r) ->
          exists c d sub st_i,
            out !! i = Some c
            /\ h' !! c = Some (Store.OCopy d)
            /\ (forall k, k <> KEY -> dget k d = Store.HVal <$> dget k r)
            /\ dget KEY d = Some (Store.HRef sub)
            /\ (sub ∉ dom h)
            /\ Store.read_copy h' c = Some (body r fields st_i).1).

(** Every requested field of the record is absent, empty or made of
    whitespace. *)
Definition no_text (article : record) (fields : list string) : bool :=
  forallb (fun field => is_blank (default (VStr "") (dget field article))) fields.

(** * Observing the calls of the classifier *)

(** A classifier that answers with [g] and keeps the list of the texts
    it was called with. *)
Definition logged {R : Type} (g : string -> option R)
    (text : string) (calls : list string) : option R * list string :=
  (g text, calls ++ [text]).

(** A batch classifier that answers with [g] and keeps the list of the
    batches it was called with. *)
Definition logged_batch {R : Type} (g : list string -> option (list R))
    (texts : list string) (calls : list (list string))
    : option (list R) * list (list string) :=
  (g texts, calls ++ [texts]).

(** The text of a requested field as the classifier is to receive it:
    the first 512 characters, when the field has text. *)
Definition model_input (article : record) (field : string) : option string :=
  match default (VStr "") (dget field article) with
  | VStr s => if has_text (VStr s) then Some (PyStr.slice_to 512 s) else None
  | VNone => None
  end.


(** * Sample classifiers *)

Module Samples.

(** POSITIVE for a text that starts with ["+"], NEGATIVE otherwise. *)
Definition sign_answer (text : string) : string * Qc :=
  match text with
  | String "+" _ => ("POSITIVE", Q2Qc (9 # 10))
  | _ => ("NEGATIVE", Q2Qc (8 # 10))
  end.

(** A batch model without state that answers each text with
    [sign_answer]. *)
Definition sign_batch (texts : list string) (st : unit)
    : option (list (string * Qc)) * unit :=
  (Some (sign_answer <$> texts), st).

(** An emotion classifier that reports joy twice. *)
Definition joy_twice (text : string) (st : unit)
    : option (list (string * Qc)) * unit :=
  (Some [("joy", Q2Qc (1 # 10)); ("fear", Q2Qc (2 # 10)); ("joy", Q2Qc (7 # 10))], st).

End Samples.


(** Classifiers that fail at their call number [bad], counted from 0,
    and answer at every other call. *)
Module Flaky.

Definition sentiment_model (bad : nat) (text : string) (calls : nat)
    : option (string * Qc) * nat :=
  (if decide (calls = bad) then None else Some ("POSITIVE", Q2Qc (19 # 20)), S calls).

Definition emotion_model (bad : nat) (text : string) (calls : nat)
    : option (list (string * Qc)) * nat :=
  (if decide (calls = bad) then None
   else Some [("fear", Q2Qc (9 # 10)); ("joy", Q2Qc (1 # 10))], S calls).

Definition model_batch (bad : nat) (texts : list string) (calls : nat)
    : option (list (string * Qc)) * nat :=
  (if decide (calls = bad) then None
   else Some ((fun _ => ("POSITIVE", Q2Qc (19 # 20))) <$> texts), S calls).

End Flaky.

(** * Vocabulary of the statistics *)

(** No record holds a text or [null] under [KEY]: the key is absent or
    holds an analysis sub-map. *)
Definition well_annotated {A} (KEY : string) (articles : list (annotated A)) : bool :=
  forallb (fun article =>
             match dget KEY article with
             | Some (Orig _) => false
             | _ => true
             end) articles.

(** The overall emotions of a record that the statistics count: the
    entry under ["overall"], when it is there and not empty. *)
Definition counted_overall {F} (article : annotated (Emotion.analysis F))
    : option (Emotion.overall_emotions F) :=
  match dget Emotion.KEY article with
  | Some (Ann a) =>
      match Emotion.overall a with
      | Some o => if Emotion.otruthy o then Some o else None
      | None => None
      end
  | _ => None
  end.

(** The dominant emotions of the counted records, in order. *)
Definition dominant_emotions_of {F} (articles : list (annotated (Emotion.analysis F)))
    : list string :=
  omap (fun article =>
          match counted_overall article with
          | Some o => fst <$> Emotion.dominant o
          | None => None
          end) articles.

(** The overall scores of one category over the counted records that
    have it, in order. *)
Definition category_scores_of {F} (emotion : string)
    (articles : list (annotated (Emotion.analysis F))) : list F :=
  omap (fun article =>
          match counted_overall article with
          | Some o => dget emotion (Emotion.scores o)
          | None => None
          end) articles.

(** Counts in descending order. *)
Definition descending {K} (items : list (K * Z)) : Prop :=
  forall i j x y, (i < j)%nat -> items !! i = Some x -> items !! j = Some y -> y.2 <= x.2.


(** * news_ingestor.py and the JSON files of the pipeline *)

(** ** More of Python *)

(** The exceptions of the ingestion and file functions: those of the
    analyzers and three more. *)
Inductive exception : Type :=
| Builtin (e : exn)
| TypeError
| FileNotFoundError
| JSONDecodeError.

Inductive outcome (A : Type) : Type :=
| Return (a : A)
| Throw (e : exception).
Arguments Return {A} a.
Arguments Throw {A} e.

Definition obind {A B} (r : outcome A) (k : A -> outcome B) : outcome B :=
  match r with Return a => k a | Throw e => Throw e end.

(** [d.get(k, v)] *)
Definition dget_default {V} (k : string) (v : V) (d : dict V) : V :=
  default v (dget k d).

(** A dictionary whose keys are of any hashable type, in insertion
    order. *)
Module PyMap.

Section Ops.
Context {K V : Type} `{EqDecision K}.

(** [d.get(k)] *)
Fixpoint mget (k : K) (d : list (K * V)) : option V :=
  match d with
  | [] => None
  | (k', v) :: d' => if decide (k = k') then Some v else mget k d'
  end.

(** [d[k] = v] *)
Fixpoint mset (k : K) (v : V) (d : list (K * V)) : list (K * V) :=
  match d with
  | [] => [(k, v)]
  | (k', v') :: d' =>
      if decide (k = k') then (k, v) :: d' else (k', v') :: mset k v d'
  end.

(** [dict(items)] *)
Definition map_of (items : list (K * V)) : list (K * V) :=
  foldl (fun d kv => mset kv.1 kv.2 d) [] items.

End Ops.

End PyMap.

Import PyMap.

(** A JSON value as [json.load] returns it and [json.dump] takes it;
    an object is a [dict] with string keys. *)
#[local] Unset Elimination Schemes.
Inductive json (F : Type) : Type :=
| JNull
| JBool (b : bool)
| JInt (n : Z)
| JFloat (x : F)
| JStr (s : string)
| JList (items : list (json F))
| JDict (d : list (string * json F)).
Arguments JNull {F}.
Arguments JBool {F} b.
Arguments JInt {F} n.
Arguments JFloat {F} x.
Arguments JStr {F} s.
Arguments JList {F} items.
Arguments JDict {F} d.
#[local] Set Elimination Schemes.

(** What a path names when it is opened for reading: a file that holds
    a JSON document, or a file that [json.load] rejects; no file is
    [None]. *)
Inductive content (F : Type) : Type :=
| Invalid
| Document (data : json F).
Arguments Invalid {F}.
Arguments Document {F} data.

(** What a function asks of the file system:
    [path.mkdir(parents=True, exist_ok=True)], and [json.dump(data, f)]
    on the file opened for writing at [path]. *)
Inductive effect (F : Type) : Type :=
| Mkdir (path : string)
| Dump (path : string) (data : json F).
Arguments Mkdir {F} path.
Arguments Dump {F} path data.

(** [==] on field values, as used for dictionary keys. *)
#[global] Instance value_eq_dec : EqDecision value.
Proof. solve_decision. Defined.

(** ** The ingestor *)

Module Ingestor.

(** A field of an article as NewsAPI sends it: text, [null], or an
    object with text fields (the ["source"]). *)
Inductive raw : Type :=
| RNull
| RStr (s : string)
| RObj (d : dict value).

(** [bool(v)] *)
Definition rtruthy (v : raw) : bool :=
  match v with
  | RNull => false
  | RStr s => PyStr.truthy s
  | RObj d => dtruthy d
  end.

(** A text or [null] as a field. *)
Definition of_value (v : value) : raw :=
  match v with VNone => RNull | VStr s => RStr s end.




(** [article.get("source", {}).get("name", "Unknown")]: only a
    dictionary has [get]. *)
Definition source_name (article : dict raw) : outcome value :=
  match dget_default "source" (RObj []) article with
  | RObj d => Return (dget_default "name" (VStr "Unknown") d)
  | _ => Throw (Builtin AttributeError)
  end.

(** [a < b]: defined between two strings only. *)
Definition raw_lt (a b : raw) : outcome bool :=
  match a, b with
  | RStr s1, RStr s2 => Return (String.ltb s1 s2)
  | _, _ => Throw TypeError
  end.

(** [min(xs)]: the first of the least elements. *)
Fixpoint min_from (best : raw) (xs : list raw) : outcome raw :=
  match xs with
  | [] => Return best
  | x :: xs' =>
      obind (raw_lt x best) (fun b => min_from (if b then x else best) xs')
  end.

Definition py_min (xs : list raw) : outcome raw :=
  match xs with
  | [] => Throw (Builtin ValueError)
  | x :: xs' => min_from x xs'
  end.

(** [max(xs)]: the first of the greatest elements; [x > best] is
    [best < x]. *)
Fixpoint max_from (best : raw) (xs : list raw) : outcome raw :=
  match xs with
  | [] => Return best
  | x :: xs' =>
      obind (raw_lt best x) (fun b => max_from (if b then x else best) xs')
  end.

Definition py_max (xs : list raw) : outcome raw :=
  match xs with
  | [] => Throw (Builtin ValueError)
  | x :: xs' => max_from x xs'
  end.

(** The statistics dictionary: [{"total": 0}], or the four entries. *)
Record summary : Type := mk_summary {
  total : Z;
  sources : Z;
  top_sources : list (value * Z);
  earliest : raw;
  latest : raw
}.

Inductive statistics : Type :=
| Nothing
| Summary (s : summary).

(** The loop over the articles that counts the source names. *)
Fixpoint count_sources (articles : list (dict raw)) (sources : list (value * Z))
    : outcome (list (value * Z)) :=
  match articles with
  | [] => Return sources
  | article :: rest =>
      obind (source_name article) (fun source =>
      count_sources rest (mset source (default 0 (mget source sources) + 1) sources))
  end.

(** [a.get("publishedAt", "") for a in articles if a.get("publishedAt")] *)
Definition published (articles : list (dict raw)) : list raw :=
  dget_default "publishedAt" (RStr "") <$>
    filter (fun a => rtruthy (default RNull (dget "publishedAt" a)) = true) articles.

Definition get_statistics (articles : list (dict raw)) : outcome statistics :=
  match articles with
  | [] => Return Nothing
  | _ =>
      obind (count_sources articles []) (fun sources =>
      let top := map_of (take 5 (sorted_desc sources)) in
      obind (py_min (published articles)) (fun earliest =>
      obind (py_max (published articles)) (fun latest =>
      Return (Summary {| total := Z.of_nat (length articles);
                         sources := Z.of_nat (length sources);
                         top_sources := top;
                         earliest := earliest;
                         latest := latest |}))))
  end.

Section Clock.

(** The clock: [isoformat t] and [strftime t] are
    [datetime.now().isoformat()] and
    [datetime.now().strftime("%Y%m%d_%H%M%S")] at the [t]-th reading;
    [join] is [/] on paths, as a string. *)
Variable isoformat : nat -> string.
Variable strftime : nat -> string.
Variable join : string -> string -> string.

Definition clean_article (article : dict raw) (t : nat) : outcome (dict raw) * nat :=
  match source_name article with
  | Throw e => (Throw e, t)
  | Return source =>
      (Return [("title", dget_default "title" (RStr "") article);
               ("description", dget_default "description" (RStr "") article);
               ("content", dget_default "content" (RStr "") article);
               ("url", dget_default "url" (RStr "") article);
               ("source", of_value source);
               ("author", dget_default "author" (RStr "Unknown") article);
               ("published_at", dget_default "publishedAt" (RStr "") article);
               ("fetched_at", RStr (isoformat t));
               ("url_to_image", dget_default "urlToImage" (RStr "") article)],
       S t)
  end.

(** [[self.clean_article(article) for article in articles]] *)
Fixpoint clean_articles (articles : list (dict raw)) (t : nat)
    : outcome (list (dict raw)) * nat :=
  match articles with
  | [] => (Return [], t)
  | article :: rest =>
      match clean_article article t with
      | (Throw e, t') => (Throw e, t')
      | (Return c, t') =>
          match clean_articles rest t' with
          | (Throw e, t'') => (Throw e, t'')
          | (Return cs, t'') => (Return (c :: cs), t'')
          end
      end
  end.


End Clock.

End Ingestor.

(** ** Loading and saving in sentiment.py and emotion.py *)

Module SentimentFiles.

(** [fs filepath] is what [filepath] names when it is opened. *)
Definition load_articles_from_json {F} (fs : string -> option (content F))
    (filepath : string) : outcome (json F) :=
  match fs filepath with
  | None => Throw FileNotFoundError
  | Some Invalid => Throw JSONDecodeError
  | Some (Document data) =>
      Return match data with
             | JDict d =>
                 match dget "articles" d with
                 | Some articles => articles
                 | None => JList []
                 end
             | JList items => JList items
             | _ => JList []
             end
  end.

Section Save.

(** [parent] is [Path(p).parent] and [module_dir] is
    [str(Path(__file__).parent)]. *)
Variable parent : string -> string.
Variable module_dir : string.

Definition save_analyzed_articles {F} (articles : list (json F)) (output_path : string)
    : list (effect F) :=
  [Mkdir (parent output_path);
   Dump output_path
     (JDict [("analyzed_at", JStr module_dir);
             ("total_articles", JInt (Z.of_nat (length articles)));
             ("articles", JList articles)])].

End Save.

End SentimentFiles.

Module EmotionFiles.

Definition load_articles_from_json {F} (fs : string -> option (content F))
    (filepath : string) : outcome (json F) :=
  match fs filepath with
  | None => Throw FileNotFoundError
  | Some Invalid => Throw JSONDecodeError
  | Some (Document data) =>
      Return match data with
             | JDict d =>
                 match dget "articles" d with
                 | Some articles => articles
                 | None => JList []
                 end
             | JList items => JList items
             | _ => JList []
             end
  end.

Section Save.

Variable parent : string -> string.

Definition save_analyzed_articles {F} (articles : list (json F)) (output_path : string)
    : list (effect F) :=
  [Mkdir (parent output_path);
   Dump output_path
     (JDict [("total_articles", JInt (Z.of_nat (length articles)));
             ("articles", JList articles)])].

End Save.

End EmotionFiles.

(** ** Vocabulary of the ingestion and file properties *)

(** The file system after the writes of [effects]: a written path names
    the dumped document, the other paths name what they named. *)
Definition after {F} (effects : list (effect F)) (fs : string -> option (content F))
    : string -> option (content F) :=
  foldl (fun fs e =>
           match e with
           | Mkdir _ => fs
           | Dump path data =>
               fun p => if decide (p = path) then Some (Document data) else fs p
           end) fs effects.

(** The source is absent or an object. *)
Definition source_ok (article : dict Ingestor.raw) : bool :=
  match dget "source" article with
  | None | Some (Ingestor.RObj _) => true
  | Some _ => false
  end.

(** The source name of an article whose source is absent or an
    object. *)
Definition name_of (article : dict Ingestor.raw) : value :=
  match dget "source" article with
  | Some (Ingestor.RObj d) => dget_default "name" (VStr "Unknown") d
  | _ => VStr "Unknown"
  end.

Definition is_text (v : Ingestor.raw) : bool :=
  match v with Ingestor.RStr _ => true | _ => false end.


(** The fields that [clean_article] copies: the key in the raw article,
    the key in the cleaned article, and the default. *)
Definition copied_fields : list (string * string * string) :=
  [("title", "title", ""); ("description", "description", "");
   ("content", "content", ""); ("url", "url", "");
   ("author", "author", "Unknown"); ("publishedAt", "published_at", "");
   ("urlToImage", "url_to_image", "")].

(** No copied field of the raw article holds an object. *)
Definition flat_fields (article : dict Ingestor.raw) : bool :=
  forallb (fun f => match dget f.1.1 article with
                    | Some (Ingestor.RObj _) => false
                    | _ => true
                    end) copied_fields.

(** A record of texts and nulls, as a dictionary of JSON fields. *)
Definition of_record (r : record) : dict Ingestor.raw :=
  (fun kv => (kv.1, Ingestor.of_value kv.2)) <$> r.

(** Sample articles: two from one source, with publication dates, and
    one with a title only; a clock that shows its reading number. *)
Module Feed.

Definition articles : list (dict Ingestor.raw) :=
  [[("source", Ingestor.RObj [("id", VNone); ("name", VStr "BBC")]);
    ("author", Ingestor.RNull);
    ("title", Ingestor.RStr "Talks resume");
    ("publishedAt", Ingestor.RStr "2024-05-02T10:00:00Z")];
   [("title", Ingestor.RStr "Untitled")];
   [("source", Ingestor.RObj [("id", VNone); ("name", VStr "BBC")]);
    ("title", Ingestor.RStr "Border tension");
    ("publishedAt", Ingestor.RStr "2024-05-01T08:30:00Z")]].

Definition isoformat (t : nat) : string :=
  String.app "2024-05-03T00:00:0" (String (ascii_of_nat (48 + t)) "").

End Feed.


(** * Properties *)

(** ** Strings *)

Section StrFacts.
Import PyStr.

Lemma lstrip_all_space s : all_space s = true -> lstrip s = "".
Proof.
  induction s as [|c s IH]; simpl; [done|].
  intros [Hc Hs]%andb_true_iff. rewrite Hc. auto.
Qed.

Lemma lstrip_empty s : lstrip s = "" -> all_space s = true.
Proof.
  induction s as [|c s IH]; simpl; [done|].
  destruct (isspace c); simpl; [auto | discriminate].
Qed.

Lemma all_space_lstrip s : all_space (lstrip s) = all_space s.
Proof.
  induction s as [|c s IH]; simpl; [done|].
  destruct (isspace c) eqn:Hc; simpl; [done | by rewrite Hc].
Qed.

Lemma all_space_rev_app s t :
  all_space (String.rev_app s t) = all_space s && all_space t.
Proof.
  revert t. induction s as [|c s IH]; intros t; simpl; [done|].
  rewrite IH. simpl. destruct (isspace c), (all_space s), (all_space t); done.
Qed.

Lemma all_space_rev s : all_space (String.rev s) = all_space s.
Proof.
  unfold String.rev. rewrite all_space_rev_app. simpl. by rewrite andb_true_r.
Qed.

Lemma all_space_strip s : all_space (strip s) = all_space s.
Proof.
  unfold strip, rstrip.
  by rewrite all_space_rev, all_space_lstrip, all_space_rev, all_space_lstrip.
Qed.

(** [s.strip()] is empty exactly when [s] has only whitespace. *)
Lemma truthy_strip s : truthy (strip s) = negb (all_space s).
Proof.
  destruct (all_space s) eqn:Hs; simpl.
  - unfold strip, rstrip. rewrite (lstrip_all_space s Hs). done.
  - destruct (strip s) eqn:Hstrip; [|done].
    rewrite <- all_space_strip, Hstrip in Hs. done.
Qed.

Lemma has_text_blank v : has_text v = negb (is_blank v).
Proof.
  destruct v as [|s]; simpl; [done|].
  rewrite truthy_strip. destruct s; simpl; [done|].
  done.
Qed.

End StrFacts.

(** ** Dictionaries *)

Section DictFacts.
Context {V : Type}.
Implicit Types (d : dict V) (k : string) (v : V).

Lemma dget_dset_eq k v d : dget k (dset k v d) = Some v.
Proof.
  induction d as [|[k' v'] d IH]; simpl.
  - by rewrite decide_True.
  - destruct (decide (k = k')) as [->|Hne]; simpl.
    + by rewrite decide_True.
    + by rewrite decide_False.
Qed.

Lemma dget_dset_ne k k' v d : k <> k' -> dget k' (dset k v d) = dget k' d.
Proof.
  intros Hne. induction d as [|[k0 v0] d IH]; simpl.
  - by rewrite decide_False.
  - destruct (decide (k = k0)) as [->|Hne0]; simpl.
    + by rewrite !decide_False.
    + by rewrite IH.
Qed.

Lemma dset_not_nil k v d : dset k v d <> [].
Proof. destruct d as [|[k' v'] d]; simpl; [done|]. by destruct (decide (k = k')). Qed.

Lemma dget_nil k : dget k ([] : dict V) = None.
Proof. done. Qed.

Lemma dget_elem_of k v d : dget k d = Some v -> (k, v) ∈ d.
Proof.
  induction d as [|[k' v'] d IH]; simpl; [done|].
  destruct (decide (k = k')) as [->|Hne].
  - intros [= ->]. by left.
  - intros Hd. right. auto.
Qed.

Lemma dget_None_keys k d : dget k d = None <-> k ∉ dkeys d.
Proof.
  unfold dkeys. induction d as [|[k' v'] d IH]; simpl.
  - split; [intros _; apply not_elem_of_nil | done].
  - rewrite not_elem_of_cons. destruct (decide (k = k')) as [->|Hne].
    + split; [done | intros [? _]; done].
    + rewrite IH. tauto.
Qed.

Lemma dkeys_dset_old k v d : dget k d <> None -> dkeys (dset k v d) = dkeys d.
Proof.
  unfold dkeys. induction d as [|[k' v'] d IH]; simpl; [done|].
  destruct (decide (k = k')) as [->|Hne]; simpl; [done|].
  intros Hd. f_equal. by apply IH.
Qed.

Lemma dkeys_dset_new k v d : dget k d = None -> dkeys (dset k v d) = dkeys d ++ [k].
Proof.
  unfold dkeys. induction d as [|[k' v'] d IH]; simpl; [done|].
  destruct (decide (k = k')) as [->|Hne]; simpl; [done|].
  intros Hd. f_equal. by apply IH.
Qed.

Lemma dget_ddel_eq k d : dget k (ddel k d) = None.
Proof.
  unfold ddel. induction d as [|[k' v'] d IH]; [done|].
  rewrite filter_cons. simpl. destruct (decide (k' <> k)) as [Hne|Heq]; simpl.
  - by rewrite decide_False.
  - done.
Qed.

Lemma dget_ddel_ne k k' d : k <> k' -> dget k' (ddel k d) = dget k' d.
Proof.
  intros Hne. unfold ddel. induction d as [|[k0 v0] d IH]; [done|].
  rewrite filter_cons. simpl. destruct (decide (k0 <> k)) as [Hne0|Heq]; simpl.
  - by rewrite IH.
  - apply dec_stable in Heq as ->. by rewrite decide_False.
Qed.

Lemma dset_fresh k v d : dget k d = None -> dset k v d = d ++ [(k, v)].
Proof.
  induction d as [|[k' v'] d IH]; simpl; [done|].
  destruct (decide (k = k')); [done|]. intros Hd. by rewrite IH.
Qed.

Lemma dget_app k d1 d2 :
  dget k (d1 ++ d2) = match dget k d1 with Some v => Some v | None => dget k d2 end.
Proof.
  induction d1 as [|[k' v'] d1 IH]; simpl; [done|].
  by destruct (decide (k = k')).
Qed.

End DictFacts.

Lemma dget_copy {A} k (article : record) :
  dget k (copy (A:=A) article) = Orig <$> dget k article.
Proof.
  unfold copy. induction article as [|[k' v'] d IH]; simpl; [done|].
  by destruct (decide (k = k')).
Qed.

(** ** Empty, whitespace-only and absent texts *)

(** C5: on a text that is absent, empty or made of whitespace only,
    both [analyze_text] functions return their placeholder (NEUTRAL with
    score 0.0; the seven categories at 0.0) and leave the classifier
    state as it was: the classifier is not called. *)
Theorem analyze_text_blank {F} `{PyFloat F} {St}
    (sentiment_model : string -> St -> option (string * F) * St)
    (emotion_model : string -> St -> option (list (string * F)) * St)
    (text : value) (st : St) :
  is_blank text = true ->
  Sentiment.analyze_text sentiment_model text st
    = (Sentiment.mk_sentiment "NEUTRAL" (of_int 0), st)
  /\ Emotion.analyze_text emotion_model text st
    = ([("anger", of_int 0); ("disgust", of_int 0); ("fear", of_int 0);
        ("joy", of_int 0); ("neutral", of_int 0); ("sadness", of_int 0);
        ("surprise", of_int 0)], st).
Proof.
  intros Hblank.
  assert (Htext : has_text text = false) by (by rewrite has_text_blank, Hblank).
  destruct text as [|s]; [done|].
  unfold Sentiment.analyze_text, Emotion.analyze_text.
  simpl in Htext. rewrite <- negb_andb, Htext. done.
Qed.

(** A whitespace-only title, with classifiers that count their calls. *)
Lemma analyze_text_blank_witness :
  Sentiment.analyze_text Exact.positive_model (VStr "   ") 0%nat
    = (Sentiment.mk_sentiment "NEUTRAL" (of_int 0), 0%nat)
  /\ Emotion.analyze_text Exact.fear_model (VStr "   ") 0%nat
    = ([("anger", of_int 0); ("disgust", of_int 0); ("fear", of_int 0);
        ("joy", of_int 0); ("neutral", of_int 0); ("sadness", of_int 0);
        ("surprise", of_int 0)], 0%nat).
Proof. apply analyze_text_blank. reflexivity. Defined.

(** ** The builtin [max] *)

Section MaxFacts.
Context {A K : Type} (lt : K -> K -> bool) (f : A -> K).
Hypothesis lt_trans : forall x y z, lt x y = true -> lt y z = true -> lt x z = true.
Hypothesis lt_cotrans : forall x y z, lt x z = true -> lt x y = true \/ lt y z = true.

(** [best] is the first greatest element of what has been scanned,
    [before ++ best :: mid]; the scan of [xs] keeps that. *)
Lemma max_from_scan xs : forall before best mid,
  (forall y, y ∈ before -> lt (f y) (f best) = true) ->
  (forall y, y ∈ mid -> lt (f best) (f y) = false) ->
  exists before' after,
    before ++ best :: mid ++ xs = before' ++ max_from lt f best xs :: after
    /\ (forall y, y ∈ before' -> lt (f y) (f (max_from lt f best xs)) = true)
    /\ (forall y, y ∈ after -> lt (f (max_from lt f best xs)) (f y) = false).
Proof.
  induction xs as [|x xs IH]; intros before best mid Hbefore Hmid; simpl.
  - exists before, mid. by rewrite app_nil_r.
  - destruct (lt (f best) (f x)) eqn:Hlt.
    + destruct (IH (before ++ best :: mid) x []) as (b & a & Heq & Hb & Ha).
      * intros y [Hy|Hy]%elem_of_app.
        { eauto. }
        apply elem_of_cons in Hy as [->|Hy]; [done|].
        destruct (lt_cotrans _ (f y) _ Hlt) as [Hby|Hyx]; [|done].
        by rewrite (Hmid y Hy) in Hby.
      * intros y Hy. by apply elem_of_nil in Hy.
      * exists b, a. split; [|done]. rewrite <- Heq. simpl.
        by rewrite <- !app_assoc.
    + destruct (IH before best (mid ++ [x])) as (b & a & Heq & Hb & Ha); [done| |].
      * intros y [Hy|Hy]%elem_of_app; [eauto|].
        by apply list_elem_of_singleton in Hy as ->.
      * exists b, a. split; [|done]. rewrite <- Heq.
        by rewrite <- !app_assoc.
Qed.

Lemma py_max_first xs m :
  py_max lt f xs = Some m ->
  exists before after,
    xs = before ++ m :: after
    /\ (forall y, y ∈ before -> lt (f y) (f m) = true)
    /\ (forall y, y ∈ after -> lt (f m) (f y) = false).
Proof.
  destruct xs as [|x xs]; simpl; [done|]. intros [= <-].
  destruct (max_from_scan xs [] x []) as (b & a & Heq & Hb & Ha).
  - intros y Hy. by apply elem_of_nil in Hy.
  - intros y Hy. by apply elem_of_nil in Hy.
  - exists b, a. done.
Qed.

Lemma py_max_nonempty xs : xs <> [] -> is_Some (py_max lt f xs).
Proof. destruct xs; [done|]. intros _. by eexists. Qed.

End MaxFacts.

Lemma count_not_elem_of x (xs : list string) : x ∉ xs -> count x xs = 0%nat.
Proof.
  unfold count. induction xs as [|y xs IH]; [done|].
  intros [Hne Hin]%not_elem_of_cons.
  rewrite filter_cons_False by (intros ->; done). auto.
Qed.

(** The most frequent element of a non-empty list, through
    [max(set(xs), key=xs.count)]. *)
Lemma most_common_spec set_iter (labels : list string) :
  set_order set_iter -> labels <> [] ->
  most_frequent (Sentiment.most_common set_iter labels) labels.
Proof.
  intros Hset Hne. unfold Sentiment.most_common.
  assert (Hne' : set_iter labels <> []).
  { destruct labels as [|l labels]; [done|].
    intros Hnil. assert (Hl : l ∈ set_iter (l :: labels)) by (apply Hset; by left).
    rewrite Hnil in Hl. by apply elem_of_nil in Hl. }
  destruct (py_max_nonempty Nat.ltb (fun l => count l labels) _ Hne') as [m Hm].
  rewrite Hm. simpl.
  apply py_max_first in Hm as (b & a & Heq & Hb & Ha).
  - split.
    + apply Hset. rewrite Heq. apply elem_of_app. right. by left.
    + intros l'. destruct (decide (l' ∈ labels)) as [Hin|Hnin].
      * apply Hset in Hin. rewrite Heq in Hin.
        apply elem_of_app in Hin as [Hin|Hin].
        { apply Hb in Hin. apply Nat.ltb_lt in Hin. lia. }
        apply elem_of_cons in Hin as [->|Hin]; [done|].
        apply Ha in Hin. apply Nat.ltb_ge in Hin. lia.
      * rewrite (count_not_elem_of l' labels Hnin). lia.
  - intros x y z ?%Nat.ltb_lt ?%Nat.ltb_lt. apply Nat.ltb_lt. lia.
  - intros x y z ?%Nat.ltb_lt. destruct (Nat.ltb_spec x y); [by left|].
    right. apply Nat.ltb_lt. lia.
Qed.

(** ** The loops of [analyze_articles] *)

Section SentimentFacts.
Context {F : Type} `{PyFloat F} {St : Type}.
Variable model : string -> St -> option (string * F) * St.
Variable set_iter : list string -> list string.

Lemma sentiment_fields_no_text article fields d st :
  no_text article fields = true ->
  Sentiment.analyze_fields model article fields d st = (d, st).
Proof.
  induction fields as [|field fields IH]; simpl; [done|].
  intros [Hfield Hno]%andb_true_iff.
  unfold Sentiment.analyze_field.
  rewrite has_text_blank, Hfield. simpl. by apply IH.
Qed.

Lemma sentiment_fields_not_nil article fields d st :
  d <> [] \/ no_text article fields = false ->
  (Sentiment.analyze_fields model article fields d st).1 <> [].
Proof.
  revert d st. induction fields as [|field fields IH]; intros d st; simpl.
  - intros [Hd|Hno]; done.
  - intros Hor. unfold Sentiment.analyze_field.
    rewrite has_text_blank.
    destruct (is_blank (default (VStr "") (dget field article))) eqn:Hb; simpl.
    + apply IH. destruct Hor as [Hd|Hno]; [by left | by right].
    + destruct (Sentiment.analyze_text model _ st) as [s st'].
      apply IH. left. apply dset_not_nil.
Qed.

Lemma sentiment_article_key article fields st :
  dget Sentiment.KEY (Sentiment.analyze_article model set_iter article fields st).1
  = Some (Ann (Sentiment.add_overall set_iter
                 (Sentiment.analyze_fields model article fields [] st).1)).
Proof.
  unfold Sentiment.analyze_article.
  destruct (Sentiment.analyze_fields model article fields [] st) as [d st'].
  simpl. apply dget_dset_eq.
Qed.

Lemma sentiment_article_other article fields st k :
  k <> Sentiment.KEY ->
  dget k (Sentiment.analyze_article model set_iter article fields st).1
  = Orig <$> dget k article.
Proof.
  intros Hk. unfold Sentiment.analyze_article.
  destruct (Sentiment.analyze_fields model article fields [] st) as [d st'].
  simpl. rewrite !dget_dset_ne by done. apply dget_copy.
Qed.

Lemma sentiment_articles_length articles fields st :
  length (Sentiment.analyze_articles model set_iter articles fields st).1
  = length articles.
Proof.
  revert st. induction articles as [|article articles IH]; intros st; simpl; [done|].
  destruct (Sentiment.analyze_article model set_iter article fields st) as [c st'].
  specialize (IH st').
  destruct (Sentiment.analyze_articles model set_iter articles fields st') as [out st''].
  simpl in *. by rewrite IH.
Qed.

(** The [i]-th output is the loop body run on the [i]-th input, in the
    classifier state reached by then. *)
Lemma sentiment_articles_lookup articles fields st i article :
  articles !! i = Some article ->
  exists st_i,
    (Sentiment.analyze_articles model set_iter articles fields st).1 !! i
    = Some (Sentiment.analyze_article model set_iter article fields st_i).1.
Proof.
  revert st i. induction articles as [|a articles IH]; intros st i Hi; [done|].
  simpl.
  destruct (Sentiment.analyze_article model set_iter a fields st) as [c st'] eqn:Hc.
  destruct i as [|i]; simpl in Hi.
  - injection Hi as ->. exists st.
    destruct (Sentiment.analyze_articles model set_iter articles fields st').
    simpl. by rewrite Hc.
  - destruct (IH st' i Hi) as [st_i Hst].
    exists st_i.
    destruct (Sentiment.analyze_articles model set_iter articles fields st').
    simpl in *. done.
Qed.

Lemma sentiment_add_overall_other d k :
  k <> "overall" -> dget k (Sentiment.add_overall set_iter d) = dget k d.
Proof.
  intros Hk. unfold Sentiment.add_overall.
  destruct (dvalues d); [done|]. by rewrite dget_dset_ne.
Qed.

Lemma sentiment_add_overall_some d :
  d <> [] ->
  dget "overall" (Sentiment.add_overall set_iter d)
  = Some (Sentiment.overall set_iter (dvalues d)).
Proof.
  intros Hd. unfold Sentiment.add_overall.
  destruct d as [|[k v] d]; [done|].
  change (dvalues ((k, v) :: d)) with (v :: dvalues d).
  cbv iota. apply dget_dset_eq.
Qed.

End SentimentFacts.

Section EmotionFacts.
Context {F : Type} `{PyFloat F} {St : Type}.
Variable model : string -> St -> option (list (string * F)) * St.

Lemma emotion_fields_no_text article fields d st :
  no_text article fields = true ->
  Emotion.analyze_fields model article fields d st = (d, st).
Proof.
  induction fields as [|field fields IH]; simpl; [done|].
  intros [Hfield Hno]%andb_true_iff.
  unfold Emotion.analyze_field.
  rewrite has_text_blank, Hfield. simpl. by apply IH.
Qed.

Lemma emotion_fields_not_nil article fields d st :
  d <> [] \/ no_text article fields = false ->
  (Emotion.analyze_fields model article fields d st).1 <> [].
Proof.
  revert d st. induction fields as [|field fields IH]; intros d st; simpl.
  - intros [Hd|Hno]; done.
  - intros Hor. unfold Emotion.analyze_field.
    rewrite has_text_blank.
    destruct (is_blank (default (VStr "") (dget field article))) eqn:Hb; simpl.
    + apply IH. destruct Hor as [Hd|Hno]; [by left | by right].
    + destruct (Emotion.analyze_text model _ st) as [s st'].
      apply IH. left. apply dset_not_nil.
Qed.

Lemma emotion_article_key article fields st :
  dget Emotion.KEY (Emotion.analyze_article model article fields st).1
  = Some (Ann (Emotion.finish (Emotion.analyze_fields model article fields [] st).1)).
Proof.
  unfold Emotion.analyze_article.
  destruct (Emotion.analyze_fields model article fields [] st) as [d st'].
  simpl. apply dget_dset_eq.
Qed.

Lemma emotion_article_other article fields st k :
  k <> Emotion.KEY ->
  dget k (Emotion.analyze_article model article fields st).1
  = Orig <$> dget k article.
Proof.
  intros Hk. unfold Emotion.analyze_article.
  destruct (Emotion.analyze_fields model article fields [] st) as [d st'].
  simpl. rewrite !dget_dset_ne by done. apply dget_copy.
Qed.

Lemma emotion_articles_length articles fields st :
  length (Emotion.analyze_articles model articles fields st).1 = length articles.
Proof.
  revert st. induction articles as [|article articles IH]; intros st; simpl; [done|].
  destruct (Emotion.analyze_article model article fields st) as [c st'].
  specialize (IH st').
  destruct (Emotion.analyze_articles model articles fields st') as [out st''].
  simpl in *. by rewrite IH.
Qed.

Lemma emotion_articles_lookup articles fields st i article :
  articles !! i = Some article ->
  exists st_i,
    (Emotion.analyze_articles model articles fields st).1 !! i
    = Some (Emotion.analyze_article model article fields st_i).1.
Proof.
  revert st i. induction articles as [|a articles IH]; intros st i Hi; [done|].
  simpl.
  destruct (Emotion.analyze_article model a fields st) as [c st'] eqn:Hc.
  destruct i as [|i]; simpl in Hi.
  - injection Hi as ->. exists st.
    destruct (Emotion.analyze_articles model articles fields st').
    simpl. by rewrite Hc.
  - destruct (IH st' i Hi) as [st_i Hst].
    exists st_i.
    destruct (Emotion.analyze_articles model articles fields st').
    simpl in *. done.
Qed.

Lemma emotion_finish_some (d : dict (dict F)) :
  d <> [] ->
  Emotion.overall (Emotion.finish d) = Some (Emotion.compute_overall d)
  /\ Emotion.per_field (Emotion.finish d) = ddel "overall" d.
Proof. by destruct d. Qed.

End EmotionFacts.

(** ** Records without text *)

(** C7: a record in which no requested field has text gets no overall
    entry from either analyzer: the sub-map stored under the analysis
    key has no ["overall"] key. *)
Theorem no_text_no_overall {F} `{PyFloat F} {St}
    (sentiment_model : string -> St -> option (string * F) * St)
    (emotion_model : string -> St -> option (list (string * F)) * St)
    (set_iter : list string -> list string)
    (articles : list record) (fields : list string) (st : St)
    (i : nat) (article : record) :
  articles !! i = Some article ->
  no_text article fields = true ->
  (exists out sub,
      (Sentiment.analyze_articles sentiment_model set_iter articles fields st).1 !! i
        = Some out
      /\ dget Sentiment.KEY out = Some (Ann sub)
      /\ dget "overall" sub = None)
  /\ (exists out sub,
      (Emotion.analyze_articles emotion_model articles fields st).1 !! i = Some out
      /\ dget Emotion.KEY out = Some (Ann sub)
      /\ Emotion.overall sub = None
      /\ dget "overall" (Emotion.per_field sub) = None).
Proof.
  intros Hi Hno. split.
  - destruct (sentiment_articles_lookup sentiment_model set_iter _ fields st _ _ Hi)
      as [st_i Hout].
    eexists _, _. split; [exact Hout|]. split; [apply sentiment_article_key|].
    by rewrite sentiment_fields_no_text.
  - destruct (emotion_articles_lookup emotion_model _ fields st _ _ Hi)
      as [st_i Hout].
    eexists _, _. split; [exact Hout|]. split; [apply emotion_article_key|].
    by rewrite emotion_fields_no_text.
Qed.

(** A record with an empty title and a null description. *)
Lemma no_text_no_overall_witness :
  (exists out sub,
      (Sentiment.analyze_articles Exact.positive_model Exact.set_iter
         [[("title", VStr ""); ("description", VNone); ("url", VStr "u")]]
         Sentiment.DEFAULT_FIELDS 0%nat).1 !! 0%nat = Some out
      /\ dget Sentiment.KEY out = Some (Ann sub)
      /\ dget "overall" sub = None)
  /\ (exists out sub,
      (Emotion.analyze_articles Exact.fear_model
         [[("title", VStr ""); ("description", VNone); ("url", VStr "u")]]
         Emotion.DEFAULT_FIELDS 0%nat).1 !! 0%nat = Some out
      /\ dget Emotion.KEY out = Some (Ann sub)
      /\ Emotion.overall sub = None
      /\ dget "overall" (Emotion.per_field sub) = None).
Proof.
  apply (no_text_no_overall Exact.positive_model Exact.fear_model Exact.set_iter
           [[("title", VStr ""); ("description", VNone); ("url", VStr "u")]]
           ["title"; "description"] 0%nat 0%nat
           [("title", VStr ""); ("description", VNone); ("url", VStr "u")]).
  - reflexivity.
  - reflexivity.
Defined.

(** ** Shape of the output of [analyze_articles] *)

(** C10: the output list has the length of the input list; its [i]-th
    record carries the fields of the [i]-th input record and, under the
    analysis key, a sub-map, which is empty when no requested field of
    that record has text. *)
Theorem analyze_articles_shape {F} `{PyFloat F} {St}
    (sentiment_model : string -> St -> option (string * F) * St)
    (emotion_model : string -> St -> option (list (string * F)) * St)
    (set_iter : list string -> list string)
    (articles : list record) (fields : list string) (st : St) :
  (length (Sentiment.analyze_articles sentiment_model set_iter articles fields st).1
     = length articles
   /\ forall i article, articles !! i = Some article ->
      exists out sub,
        (Sentiment.analyze_articles sentiment_model set_iter articles fields st).1 !! i
          = Some out
        /\ dget Sentiment.KEY out = Some (Ann sub)
        /\ (forall k, k <> Sentiment.KEY -> dget k out = Orig <$> dget k article)
        /\ (no_text article fields = true -> sub = []))
  /\ (length (Emotion.analyze_articles emotion_model articles fields st).1
        = length articles
      /\ forall i article, articles !! i = Some article ->
         exists out sub,
           (Emotion.analyze_articles emotion_model articles fields st).1 !! i = Some out
           /\ dget Emotion.KEY out = Some (Ann sub)
           /\ (forall k, k <> Emotion.KEY -> dget k out = Orig <$> dget k article)
           /\ (no_text article fields = true -> sub = Emotion.mk_analysis [] None)).
Proof.
  split; (split; [auto using sentiment_articles_length, emotion_articles_length|]).
  - intros i article Hi.
    destruct (sentiment_articles_lookup sentiment_model set_iter _ fields st _ _ Hi)
      as [st_i Hout].
    eexists _, _. split; [exact Hout|]. split; [apply sentiment_article_key|].
    split; [intros k Hk; by apply sentiment_article_other|].
    intros Hno. by rewrite sentiment_fields_no_text.
  - intros i article Hi.
    destruct (emotion_articles_lookup emotion_model _ fields st _ _ Hi)
      as [st_i Hout].
    eexists _, _. split; [exact Hout|]. split; [apply emotion_article_key|].
    split; [intros k Hk; by apply emotion_article_other|].
    intros Hno. by rewrite emotion_fields_no_text.
Qed.

(** Two records, the second one without text. *)
Lemma analyze_articles_shape_witness :
  exists out sub,
    (Sentiment.analyze_articles Exact.positive_model Exact.set_iter
       [[("title", VStr "Talks resume")]; [("title", VStr " "); ("url", VStr "u")]]
       Sentiment.DEFAULT_FIELDS 0%nat).1 !! 1%nat = Some out
    /\ dget Sentiment.KEY out = Some (Ann sub)
    /\ (forall k, k <> Sentiment.KEY ->
        dget k out = Orig <$> dget k [("title", VStr " "); ("url", VStr "u")])
    /\ sub = [].
Proof.
  destruct (analyze_articles_shape Exact.positive_model Exact.fear_model Exact.set_iter
              [[("title", VStr "Talks resume")]; [("title", VStr " "); ("url", VStr "u")]]
              ["title"; "description"] 0%nat) as [[_ Hs] _].
  destruct (Hs 1%nat [("title", VStr " "); ("url", VStr "u")] eq_refl)
    as (out & sub & Hout & Hkey & Hother & Hsub).
  exists out, sub. repeat split; [exact Hout | exact Hkey | exact Hother |].
  apply Hsub. reflexivity.
Defined.

(** ** The overall sentiment of a record *)

(** C2: when at least one requested field of a record has text, the
    entry under ["overall"] has a label that occurs most often among the
    per-field labels and, as score, the mean of the per-field scores
    rounded to 4 decimals.  [d] is the dictionary of the per-field
    results; the other entries of the sub-map are those of [d]. *)
Theorem overall_sentiment {F} `{PyFloat F} {St}
    (model : string -> St -> option (string * F) * St)
    (set_iter : list string -> list string)
    (articles : list record) (fields : list string) (st : St)
    (i : nat) (article : record) :
  set_order set_iter ->
  articles !! i = Some article ->
  no_text article fields = false ->
  exists st_i out sub o,
    (Sentiment.analyze_articles model set_iter articles fields st).1 !! i = Some out
    /\ dget Sentiment.KEY out = Some (Ann sub)
    /\ dget "overall" sub = Some o
    /\ let d := (Sentiment.analyze_fields model article fields [] st_i).1 in
       d <> []
       /\ (forall k, k <> "overall" -> dget k sub = dget k d)
       /\ most_frequent (Sentiment.label o) (Sentiment.label <$> dvalues d)
       /\ Sentiment.score o
          = round_nd 4 (fdiv (fsum (Sentiment.score <$> dvalues d))
                             (of_int (Z.of_nat (length d)))).
Proof.
  intros Hset Hi Htext.
  destruct (sentiment_articles_lookup model set_iter _ fields st _ _ Hi) as [st_i Hout].
  assert (Hd : (Sentiment.analyze_fields model article fields [] st_i).1 <> []).
  { apply sentiment_fields_not_nil. by right. }
  exists st_i. eexists _, _, _. split; [exact Hout|].
  split; [apply sentiment_article_key|].
  split; [by apply sentiment_add_overall_some|].
  intros d. split; [done|]. split.
  - intros k Hk. by apply sentiment_add_overall_other.
  - split.
    + apply most_common_spec; [done|].
      subst d. destruct (Sentiment.analyze_fields model article fields [] st_i).1
        as [|[k v] d']; done.
    + simpl. unfold mean, dvalues. by rewrite !length_fmap.
Qed.

Lemma exact_set_order : set_order Exact.set_iter.
Proof. intros xs x. apply elem_of_remove_dups. Qed.

(** The first end-to-end scenario: a title and an empty description. *)
Lemma overall_sentiment_witness :
  exists st_i out sub o,
    (Sentiment.analyze_articles Exact.positive_model Exact.set_iter
       [[("title", VStr "Great news for peace talks"); ("description", VStr "")]]
       Sentiment.DEFAULT_FIELDS 0%nat).1 !! 0%nat = Some out
    /\ dget Sentiment.KEY out = Some (Ann sub)
    /\ dget "overall" sub = Some o
    /\ let d := (Sentiment.analyze_fields Exact.positive_model
                   [("title", VStr "Great news for peace talks"); ("description", VStr "")]
                   Sentiment.DEFAULT_FIELDS [] st_i).1 in
       d <> []
       /\ (forall k, k <> "overall" -> dget k sub = dget k d)
       /\ most_frequent (Sentiment.label o) (Sentiment.label <$> dvalues d)
       /\ Sentiment.score o
          = round_nd 4 (fdiv (fsum (Sentiment.score <$> dvalues d))
                             (of_int (Z.of_nat (length d)))).
Proof.
  apply (overall_sentiment Exact.positive_model Exact.set_iter
           [[("title", VStr "Great news for peace talks"); ("description", VStr "")]]
           ["title"; "description"] 0%nat 0%nat
           [("title", VStr "Great news for peace talks"); ("description", VStr "")]).
  - exact exact_set_order.
  - reflexivity.
  - reflexivity.
Defined.

(** ** The overall emotions of a record *)

Section OverallEmotion.
Context {F : Type} `{PyFloat F}.

Lemma add_category_spec (d : dict (dict F)) acc emotion :
  dget emotion acc = None ->
  Emotion.add_category d acc emotion
  = acc ++ option_list (pair emotion <$> category_mean emotion d).
Proof.
  intros Hacc. unfold Emotion.add_category, category_mean, Emotion.category_scores, mean.
  destruct (omap (dget emotion) (dvalues d)) as [|x xs]; simpl.
  - by rewrite app_nil_r.
  - by apply dset_fresh.
Qed.

Lemma foldl_add_category (d : dict (dict F)) emotions : forall acc,
  NoDup emotions ->
  (forall e, e ∈ emotions -> dget e acc = None) ->
  foldl (Emotion.add_category d) acc emotions
  = acc ++ omap (fun emotion => pair emotion <$> category_mean emotion d) emotions.
Proof.
  induction emotions as [|e emotions IH]; intros acc Hnd Hacc; simpl.
  - by rewrite app_nil_r.
  - apply NoDup_cons in Hnd as [Hnin Hnd].
    rewrite add_category_spec by (apply Hacc; by left).
    rewrite IH; [| done |].
    + rewrite <- app_assoc. f_equal.
      by destruct (category_mean e d).
    + intros e' He'. rewrite dget_app, Hacc by (by right).
      destruct (category_mean e d); simpl; [|done].
      rewrite decide_False; [done|]. intros ->. done.
Qed.

Lemma EMOTIONS_NoDup : NoDup Emotion.EMOTIONS.
Proof. apply (bool_decide_unpack (NoDup Emotion.EMOTIONS)). reflexivity. Qed.

(** The averaged scores, category by category in the order of
    [EMOTIONS]. *)
Lemma overall_scores_spec (d : dict (dict F)) :
  Emotion.overall_scores d
  = omap (fun emotion => pair emotion <$> category_mean emotion d) Emotion.EMOTIONS.
Proof.
  unfold Emotion.overall_scores.
  rewrite foldl_add_category; [done | apply EMOTIONS_NoDup | done].
Qed.

Lemma find_dominant_spec `{!FloatOrder F} (items : dict F) :
  match Emotion.find_dominant items with
  | Some x => first_greatest x items
  | None => items = []
  end.
Proof.
  unfold Emotion.find_dominant.
  destruct (py_max flt snd items) as [x|] eqn:Hmax.
  - apply py_max_first in Hmax; [done | apply flt_trans | apply flt_cotrans].
  - by destruct items.
Qed.

End OverallEmotion.

(** C3: when at least one requested field of a record has text, the
    overall entry of the emotion analysis gives, for each category of
    [EMOTIONS] in that order, the mean (rounded to 4 decimals) of the
    category's score over the per-field dictionaries that have it, and
    leaves out a category that none has; the dominant emotion is the
    first category with the greatest averaged score, and the dominant
    score is that averaged score. *)
Theorem overall_emotion {F} `{PyFloat F} `{!FloatOrder F} {St}
    (model : string -> St -> option (list (string * F)) * St)
    (articles : list record) (fields : list string) (st : St)
    (i : nat) (article : record) :
  articles !! i = Some article ->
  no_text article fields = false ->
  exists st_i out sub o,
    (Emotion.analyze_articles model articles fields st).1 !! i = Some out
    /\ dget Emotion.KEY out = Some (Ann sub)
    /\ Emotion.overall sub = Some o
    /\ let d := (Emotion.analyze_fields model article fields [] st_i).1 in
       d <> []
       /\ (forall k, k <> "overall" -> dget k (Emotion.per_field sub) = dget k d)
       /\ Emotion.scores o
          = omap (fun emotion => pair emotion <$> category_mean emotion d)
              ["anger"; "disgust"; "fear"; "joy"; "neutral"; "sadness"; "surprise"]
       /\ match Emotion.dominant o with
          | Some dominant => first_greatest dominant (Emotion.scores o)
          | None => Emotion.scores o = []
          end.
Proof.
  intros Hi Htext.
  destruct (emotion_articles_lookup model _ fields st _ _ Hi) as [st_i Hout].
  assert (Hd : (Emotion.analyze_fields model article fields [] st_i).1 <> []).
  { apply emotion_fields_not_nil. by right. }
  destruct (emotion_finish_some _ Hd) as [Hoverall Hper].
  exists st_i. eexists _, _, _. split; [exact Hout|].
  split; [apply emotion_article_key|].
  split; [exact Hoverall|]. cbn zeta. split; [done|]. split.
  - intros k Hk. rewrite Hper. by apply dget_ddel_ne.
  - split; [apply overall_scores_spec|]. apply find_dominant_spec.
Qed.

(** ** The laws hold for exact rational scores *)

Lemma lt_q_iff (x y : Qc) : Exact.lt_q x y = true <-> (x < y)%Qc.
Proof.
  unfold Exact.lt_q. rewrite Qclt_alt.
  destruct (x ?= y)%Qc; split; congruence.
Qed.

#[global] Instance exact_order : FloatOrder Qc.
Proof.
  split; simpl.
  - intros x. destruct (Exact.lt_q x x) eqn:Hlt; [|done].
    apply lt_q_iff in Hlt. by apply Qclt_not_eq in Hlt.
  - intros x y z Hxy%lt_q_iff Hyz%lt_q_iff. apply lt_q_iff.
    by apply Qclt_trans with y.
  - intros x y z Hxz%lt_q_iff.
    destruct (Qclt_le_dec x y) as [Hxy|Hyx].
    + left. by apply lt_q_iff.
    + right. apply lt_q_iff. by apply Qcle_lt_trans with x.
Qed.

Lemma of_int_nonzero (n : Z) : 0 < n -> Q2Qc (inject_Z n) <> Q2Qc 0.
Proof.
  intros Hn Heq. apply Q2Qc_eq_iff in Heq.
  unfold Qeq in Heq. simpl in Heq. lia.
Qed.

#[global] Instance exact_exact : FloatExact Qc.
Proof.
  split; simpl.
  - intros n Hn. unfold Qcdiv. apply Qcmult_inv_r. by apply of_int_nonzero.
  - intros n Hn. unfold Qcdiv. apply Qcmult_0_l.
  - apply Qcmult_1_l.
  - apply Qcmult_0_l.
  - apply Qc_is_canon. reflexivity.
  - apply Qc_is_canon. reflexivity.
Qed.

(** A title with fear at 0.9 and joy at 0.1. *)
Lemma overall_emotion_witness :
  exists st_i out sub o,
    (Emotion.analyze_articles Exact.fear_model
       [[("title", VStr "Border tension rises")]]
       Emotion.DEFAULT_FIELDS 0%nat).1 !! 0%nat = Some out
    /\ dget Emotion.KEY out = Some (Ann sub)
    /\ Emotion.overall sub = Some o
    /\ let d := (Emotion.analyze_fields Exact.fear_model
                   [("title", VStr "Border tension rises")]
                   Emotion.DEFAULT_FIELDS [] st_i).1 in
       d <> []
       /\ (forall k, k <> "overall" -> dget k (Emotion.per_field sub) = dget k d)
       /\ Emotion.scores o
          = omap (fun emotion => pair emotion <$> category_mean emotion d)
              ["anger"; "disgust"; "fear"; "joy"; "neutral"; "sadness"; "surprise"]
       /\ match Emotion.dominant o with
          | Some dominant => first_greatest dominant (Emotion.scores o)
          | None => Emotion.scores o = []
          end.
Proof.
  apply (overall_emotion Exact.fear_model
           [[("title", VStr "Border tension rises")]]
           ["title"; "description"] 0%nat 0%nat
           [("title", VStr "Border tension rises")]).
  - reflexivity.
  - reflexivity.
Defined.

(** ** Offsets and slices *)

Section BatchFacts.
Context {F : Type} `{PyFloat F} {St : Type}.
Variable model : string -> St -> option (string * F) * St.
Variable model_batch : list string -> St -> option (list (string * F)) * St.
Variable texts : list value.
Variable batch_size : Z.
Hypothesis batch_size_pos : 0 < batch_size.

Let b : nat := Z.to_nat batch_size.
Let n : nat := length texts.

Lemma slice_offset k0 :
  slice (Z.of_nat k0 * batch_size) batch_size texts = take b (drop (k0 * b) texts).
Proof.
  unfold slice, b. f_equal. f_equal. rewrite Z2Nat.inj_mul by lia.
  by rewrite Nat2Z.id.
Qed.

Lemma length_slice_offset k0 :
  length (slice (Z.of_nat k0 * batch_size) batch_size texts) = (b `min` (n - k0 * b))%nat.
Proof. rewrite slice_offset, length_take, length_drop. done. Qed.

End BatchFacts.

(** ** Corpus statistics *)

(** C9: on the empty list of records both statistics functions return
    the empty dictionary. *)
Theorem statistics_empty {F} `{PyFloat F} (set_iter : list string -> list string) :
  Sentiment.get_sentiment_statistics (F:=F) [] = Ok None
  /\ Emotion.get_emotion_statistics (F:=F) set_iter [] = Ok None.
Proof. split; reflexivity. Qed.

Section SentimentStatistics.
Context {F : Type} `{PyFloat F}.
Implicit Types (articles pre post : list (annotated (dict (Sentiment.sentiment F)))).
Implicit Types (article : annotated (dict (Sentiment.sentiment F))).

Lemma sentiment_get_overall_spec (article : annotated (dict (Sentiment.sentiment F))) o :
  Sentiment.get_overall article = Ok o -> sentiment_overall article = o.
Proof.
  unfold Sentiment.get_overall, sentiment_overall.
  destruct (dget Sentiment.KEY article) as [[v|a]|]; [done| |]; by intros [= <-].
Qed.

(** The collected list holds the overall entries, in order. *)
Lemma sentiment_collect_spec articles sentiments :
  Sentiment.collect articles = Ok sentiments ->
  sentiments = omap sentiment_overall articles.
Proof.
  revert sentiments. induction articles as [|article articles IH]; intros sentiments.
  - by intros [= <-].
  - change (omap sentiment_overall (article :: articles))
      with (match sentiment_overall article with
            | Some y => y :: omap sentiment_overall articles
            | None => omap sentiment_overall articles
            end).
    cbn [Sentiment.collect].
    destruct (Sentiment.get_overall article) as [o|] eqn:Ho; [|done].
    rewrite (sentiment_get_overall_spec _ _ Ho).
    destruct (Sentiment.collect articles) as [rest|]; [|done].
    rewrite <- (IH rest eq_refl).
    destruct o; by intros [= <-].
Qed.

Lemma sentiment_collect_skip pre article post :
  lacks_sentiment_overall article = true ->
  Sentiment.collect (pre ++ article :: post) = Sentiment.collect (pre ++ post).
Proof.
  intros Hlacks. induction pre as [|a pre IH]; simpl.
  - unfold lacks_sentiment_overall, dmem in Hlacks. unfold Sentiment.get_overall.
    destruct (dget Sentiment.KEY article) as [[v|sub]|]; simpl; [done| |].
    + destruct (dget "overall" sub); [done|]. simpl.
      by destruct (Sentiment.collect post).
    + by destruct (Sentiment.collect post).
  - by rewrite IH.
Qed.

Lemma sentiment_statistics_unfold articles :
  Sentiment.get_sentiment_statistics articles
  = rbind (Sentiment.collect articles) (fun sentiments =>
      match sentiments with
      | [] => Ok None
      | _ =>
          let n := Z.of_nat (length sentiments) in
          let positive := Sentiment.count_label "POSITIVE" sentiments in
          let negative := Sentiment.count_label "NEGATIVE" sentiments in
          let neutral := n - positive - negative in
          Ok (Some (Sentiment.mk_statistics n positive negative neutral
                      (Sentiment.percent positive n) (Sentiment.percent negative n)
                      (Sentiment.percent neutral n)
                      (round_nd 4 (mean (Sentiment.score <$> sentiments)))))
      end).
Proof. by destruct articles. Qed.

Lemma count_label_split (sentiments : list (Sentiment.sentiment F)) :
  Z.of_nat (length sentiments)
  = Sentiment.count_label "POSITIVE" sentiments
    + Sentiment.count_label "NEGATIVE" sentiments
    + Z.of_nat (length (filter (fun s => Sentiment.label s <> "POSITIVE"
                                         /\ Sentiment.label s <> "NEGATIVE") sentiments)).
Proof.
  unfold Sentiment.count_label.
  induction sentiments as [|s sentiments IH]; [done|].
  rewrite !filter_cons. simpl length.
  destruct (decide (Sentiment.label s = "POSITIVE")) as [Hp|Hp];
    destruct (decide (Sentiment.label s = "NEGATIVE")) as [Hn|Hn];
    try (rewrite Hp in Hn; discriminate).
  - rewrite decide_False by tauto. simpl length. lia.
  - rewrite decide_False by tauto. simpl length. lia.
  - rewrite decide_True by tauto. simpl length. lia.
Qed.

Lemma count_label_all l (sentiments : list (Sentiment.sentiment F)) :
  (forall s, s ∈ sentiments -> Sentiment.label s = l) ->
  Sentiment.count_label l sentiments = Z.of_nat (length sentiments).
Proof.
  intros Hall. unfold Sentiment.count_label. f_equal.
  induction sentiments as [|s sentiments IH]; [done|].
  rewrite filter_cons_True by (apply Hall; by left).
  simpl. f_equal. apply IH. intros s' Hs'. apply Hall. by right.
Qed.

Lemma count_label_none l l' (sentiments : list (Sentiment.sentiment F)) :
  l <> l' ->
  (forall s, s ∈ sentiments -> Sentiment.label s = l) ->
  Sentiment.count_label l' sentiments = 0.
Proof.
  intros Hne Hall. unfold Sentiment.count_label.
  induction sentiments as [|s sentiments IH]; [done|].
  rewrite filter_cons_False.
  - apply IH. intros s' Hs'. apply Hall. by right.
  - rewrite (Hall s) by (by left). done.
Qed.

Lemma sentiment_total_spec articles stats :
  Sentiment.get_sentiment_statistics articles = Ok (Some stats) ->
  Sentiment.total_analyzed stats = Z.of_nat (length (omap sentiment_overall articles)).
Proof.
  rewrite sentiment_statistics_unfold.
  destruct (Sentiment.collect articles) as [collected|] eqn:Hcollect; [|done].
  apply sentiment_collect_spec in Hcollect. subst collected.
  destruct (omap sentiment_overall articles) as [|s sents]; [done|].
  cbn [rbind]. by intros [= <-].
Qed.

End SentimentStatistics.

(** C4: in the sentiment statistics the neutral count is the total minus
    the positive and negative counts, which is the number of overall
    labels other than POSITIVE and NEGATIVE; each percentage is
    [round(count / total * 100, 2)] and the confidence is the mean score
    rounded to 4 decimals.  When every overall label is POSITIVE, the
    positive percentage is 100.0 and the negative and neutral counts
    and percentages are 0. *)
Theorem sentiment_statistics_spec {F} `{PyFloat F} `{!FloatExact F}
    (articles : list (annotated (dict (Sentiment.sentiment F))))
    (stats : Sentiment.statistics F) :
  Sentiment.get_sentiment_statistics articles = Ok (Some stats) ->
  let sentiments := omap sentiment_overall articles in
  let n := Z.of_nat (length sentiments) in
  0 < n
  /\ Sentiment.total_analyzed stats = n
  /\ Sentiment.positive stats
     = Z.of_nat (length (filter (fun s => Sentiment.label s = "POSITIVE") sentiments))
  /\ Sentiment.negative stats
     = Z.of_nat (length (filter (fun s => Sentiment.label s = "NEGATIVE") sentiments))
  /\ Sentiment.neutral stats = n - Sentiment.positive stats - Sentiment.negative stats
  /\ Sentiment.neutral stats
     = Z.of_nat (length (filter (fun s => Sentiment.label s <> "POSITIVE"
                                          /\ Sentiment.label s <> "NEGATIVE") sentiments))
  /\ Sentiment.positive_percent stats
     = round_nd 2 (fmul (fdiv (of_int (Sentiment.positive stats)) (of_int n)) (of_int 100))
  /\ Sentiment.negative_percent stats
     = round_nd 2 (fmul (fdiv (of_int (Sentiment.negative stats)) (of_int n)) (of_int 100))
  /\ Sentiment.neutral_percent stats
     = round_nd 2 (fmul (fdiv (of_int (Sentiment.neutral stats)) (of_int n)) (of_int 100))
  /\ Sentiment.average_confidence stats
     = round_nd 4 (fdiv (fsum (Sentiment.score <$> sentiments)) (of_int n))
  /\ ((forall s, s ∈ sentiments -> Sentiment.label s = "POSITIVE") ->
      Sentiment.positive_percent stats = of_int 100
      /\ Sentiment.negative stats = 0
      /\ Sentiment.neutral stats = 0
      /\ Sentiment.negative_percent stats = of_int 0
      /\ Sentiment.neutral_percent stats = of_int 0).
Proof.
  rewrite sentiment_statistics_unfold.
  destruct (Sentiment.collect articles) as [collected|] eqn:Hcollect; [|done].
  apply sentiment_collect_spec in Hcollect. subst collected.
  cbn zeta. generalize (omap sentiment_overall articles). intros sents Hstats.
  assert (Hn : 0 < Z.of_nat (length sents) /\ Sentiment.mk_statistics
             (Z.of_nat (length sents))
             (Sentiment.count_label "POSITIVE" sents)
             (Sentiment.count_label "NEGATIVE" sents)
             (Z.of_nat (length sents) - Sentiment.count_label "POSITIVE" sents
              - Sentiment.count_label "NEGATIVE" sents)
             (Sentiment.percent (Sentiment.count_label "POSITIVE" sents)
                (Z.of_nat (length sents)))
             (Sentiment.percent (Sentiment.count_label "NEGATIVE" sents)
                (Z.of_nat (length sents)))
             (Sentiment.percent (Z.of_nat (length sents)
                                 - Sentiment.count_label "POSITIVE" sents
                                 - Sentiment.count_label "NEGATIVE" sents)
                (Z.of_nat (length sents)))
             (round_nd 4 (mean (Sentiment.score <$> sents))) = stats).
  { destruct sents as [|s0 sents]; [done|]. simpl in Hstats.
    injection Hstats as <-. split; [simpl; lia | done]. }
  destruct Hn as [Hn <-]. simpl.
  pose proof (count_label_split sents) as Hsplit.
  unfold mean. rewrite length_fmap.
  unfold Sentiment.count_label, Sentiment.percent in *.
  repeat (split; [done || lia|]).
  intros Hall.
  pose proof (count_label_all "POSITIVE" sents Hall) as Hpos.
  pose proof (count_label_none "POSITIVE" "NEGATIVE" sents ltac:(done) Hall) as Hneg.
  unfold Sentiment.count_label in *.
  rewrite Hpos, Hneg.
  replace (Z.of_nat (length sents) - Z.of_nat (length sents) - 0) with 0 by lia.
  rewrite fdiv_same, fdiv_zero, fmul_one_100, fmul_zero_100, round2_100, round2_zero by done.
  done.
Qed.

(** Two records whose titles are both classified POSITIVE. *)
Lemma sentiment_statistics_spec_witness :
  exists stats,
    Sentiment.get_sentiment_statistics
      (Sentiment.analyze_articles Exact.positive_model Exact.set_iter
         [[("title", VStr "Peace talks")]; [("title", VStr "Trade deal")]]
         Sentiment.DEFAULT_FIELDS 0%nat).1 = Ok (Some stats)
    /\ Sentiment.total_analyzed stats = 2
    /\ Sentiment.positive_percent stats = of_int 100
    /\ Sentiment.negative stats = 0
    /\ Sentiment.neutral stats = 0
    /\ Sentiment.negative_percent stats = of_int 0
    /\ Sentiment.neutral_percent stats = of_int 0.
Proof.
  eexists. split; [reflexivity|].
  match goal with
  | |- Sentiment.total_analyzed ?stats = _ /\ _ =>
      destruct (sentiment_statistics_spec
                  (Sentiment.analyze_articles Exact.positive_model Exact.set_iter
                     [[("title", VStr "Peace talks")]; [("title", VStr "Trade deal")]]
                     Sentiment.DEFAULT_FIELDS 0%nat).1 stats eq_refl)
        as (_ & Htotal & _ & _ & _ & _ & _ & _ & _ & _ & Hall)
  end.
  split; [exact Htotal|].
  apply Hall. intros s Hs.
  apply list_elem_of_In in Hs.
  destruct Hs as [<-|[<-|[]]]; reflexivity.
Defined.

Section EmotionStatistics.
Context {F : Type} `{PyFloat F}.
Variable set_iter : list string -> list string.
Implicit Types (articles pre post : list (annotated (Emotion.analysis F))).
Implicit Types (article : annotated (Emotion.analysis F)).

Lemma emotion_collect_skip pre article post : forall totals dominants,
  lacks_emotion_overall article = true ->
  Emotion.collect (pre ++ article :: post) totals dominants
  = Emotion.collect (pre ++ post) totals dominants.
Proof.
  induction pre as [|a pre IH]; intros totals dominants Hlacks.
  - simpl. unfold lacks_emotion_overall in Hlacks. unfold Emotion.get_overall.
    destruct (dget Emotion.KEY article) as [[v|sub]|]; simpl; [done| |done].
    destruct (Emotion.overall sub) as [o|]; simpl; [|done].
    apply negb_true_iff in Hlacks. by rewrite Hlacks.
  - simpl. destruct (Emotion.get_overall a) as [o|]; simpl; [|done].
    destruct (Emotion.otruthy o); by apply IH.
Qed.

(** Apart from [total_analyzed], the statistics are a function of what
    the loop has collected. *)
Lemma emotion_statistics_collect articles articles' stats :
  articles <> [] -> articles' <> [] ->
  Emotion.collect articles (dict_of ((fun emotion => (emotion, [])) <$> Emotion.EMOTIONS)) []
  = Emotion.collect articles' (dict_of ((fun emotion => (emotion, [])) <$> Emotion.EMOTIONS)) [] ->
  Emotion.get_emotion_statistics set_iter articles = Ok (Some stats) ->
  exists stats',
    Emotion.get_emotion_statistics set_iter articles' = Ok (Some stats')
    /\ Emotion.average_emotions stats' = Emotion.average_emotions stats
    /\ Emotion.dominant_emotion_counts stats' = Emotion.dominant_emotion_counts stats
    /\ Emotion.most_common_emotion stats' = Emotion.most_common_emotion stats
    /\ Emotion.emotion_distribution stats' = Emotion.emotion_distribution stats.
Proof.
  intros Hne Hne' Hcollect.
  destruct articles as [|a articles]; [done|].
  destruct articles' as [|a' articles']; [done|].
  unfold Emotion.get_emotion_statistics. rewrite Hcollect.
  destruct (Emotion.collect (a' :: articles') _ _) as [[totals dominants]|]; [|done].
  cbn [rbind]. intros [= <-]. eexists. split; [reflexivity|]. done.
Qed.

Lemma emotion_statistics_total articles stats :
  Emotion.get_emotion_statistics set_iter articles = Ok (Some stats) ->
  Emotion.total_analyzed stats = Z.of_nat (length articles).
Proof.
  destruct articles as [|a articles]; [done|].
  unfold Emotion.get_emotion_statistics.
  destruct (Emotion.collect (a :: articles) _ _) as [[totals dominants]|]; [|done].
  cbn [rbind]. by intros [= <-].
Qed.

End EmotionStatistics.

(** X12: a record without overall entry changes nothing in the result
    of [get_sentiment_statistics], whose total is the number of records
    that have one.  When other records remain, it changes nothing in the
    averages, the counts of dominant emotions, the most common emotion
    and the distribution of [get_emotion_statistics], whose
    [total_analyzed] is the number of all the records it was given. *)
Theorem statistics_skip_records {F} `{PyFloat F} (set_iter : list string -> list string) :
  (forall (pre post : list (annotated (dict (Sentiment.sentiment F)))) article,
      lacks_sentiment_overall article = true ->
      Sentiment.get_sentiment_statistics (pre ++ article :: post)
      = Sentiment.get_sentiment_statistics (pre ++ post))
  /\ (forall (articles : list (annotated (dict (Sentiment.sentiment F)))) stats,
      Sentiment.get_sentiment_statistics articles = Ok (Some stats) ->
      Sentiment.total_analyzed stats
      = Z.of_nat (length (omap sentiment_overall articles)))
  /\ (forall (pre post : list (annotated (Emotion.analysis F))) article stats,
      lacks_emotion_overall article = true ->
      pre ++ post <> [] ->
      Emotion.get_emotion_statistics set_iter (pre ++ article :: post) = Ok (Some stats) ->
      exists stats',
        Emotion.get_emotion_statistics set_iter (pre ++ post) = Ok (Some stats')
        /\ Emotion.average_emotions stats' = Emotion.average_emotions stats
        /\ Emotion.dominant_emotion_counts stats' = Emotion.dominant_emotion_counts stats
        /\ Emotion.most_common_emotion stats' = Emotion.most_common_emotion stats
        /\ Emotion.emotion_distribution stats' = Emotion.emotion_distribution stats)
  /\ (forall (articles : list (annotated (Emotion.analysis F))) stats,
      Emotion.get_emotion_statistics set_iter articles = Ok (Some stats) ->
      Emotion.total_analyzed stats = Z.of_nat (length articles)).
Proof.
  split; [|split; [|split]].
  - intros pre post article Hlacks.
    rewrite !sentiment_statistics_unfold. by rewrite sentiment_collect_skip.
  - intros articles stats Hstats.
    by destruct (sentiment_total_spec articles stats Hstats).
  - intros pre post article stats Hlacks Hne Hstats.
    apply (emotion_statistics_collect set_iter (pre ++ article :: post)); [| done | | done].
    + by destruct pre.
    + by apply emotion_collect_skip.
  - intros articles stats. apply emotion_statistics_total.
Qed.

(** C1, at the failing input: a record with a title and a record with
    an empty title, analyzed for emotions.  The first has an overall
    entry, the second has none, and [get_emotion_statistics] reports 2
    as [total_analyzed], where the claim has the number of records with
    an overall entry, 1, which is what [get_sentiment_statistics]
    reports for the same two records. *)
Lemma emotion_total_counts_all_records :
  (exists stats,
    Emotion.get_emotion_statistics Exact.set_iter
      (Emotion.analyze_articles Exact.fear_model
         [[("title", VStr "Border tension")]; [("title", VStr "")]]
         Emotion.DEFAULT_FIELDS 0%nat).1 = Ok (Some stats)
    /\ Emotion.total_analyzed stats = 2
    /\ length (filter (fun article => lacks_emotion_overall article = false)
                 (Emotion.analyze_articles Exact.fear_model
                    [[("title", VStr "Border tension")]; [("title", VStr "")]]
                    Emotion.DEFAULT_FIELDS 0%nat).1) = 1%nat)
  /\ (exists stats,
    Sentiment.get_sentiment_statistics
      (Sentiment.analyze_articles Exact.positive_model Exact.set_iter
         [[("title", VStr "Border tension")]; [("title", VStr "")]]
         Sentiment.DEFAULT_FIELDS 0%nat).1 = Ok (Some stats)
    /\ Sentiment.total_analyzed stats = 1).
Proof.
  split.
  - eexists. split; [reflexivity|]. split; reflexivity.
  - eexists. split; [reflexivity|]. reflexivity.
Qed.

(** Dropping the record without text from that corpus changes the
    sentiment statistics in nothing, and the emotion statistics in
    [total_analyzed] only. *)
Lemma statistics_skip_records_witness :
  Sentiment.get_sentiment_statistics
    (Sentiment.analyze_articles Exact.positive_model Exact.set_iter
       [[("title", VStr "Border tension")]; [("title", VStr "")]]
       Sentiment.DEFAULT_FIELDS 0%nat).1
  = Sentiment.get_sentiment_statistics
      (Sentiment.analyze_articles Exact.positive_model Exact.set_iter
         [[("title", VStr "Border tension")]] Sentiment.DEFAULT_FIELDS 0%nat).1
  /\ exists stats stats',
      Emotion.get_emotion_statistics Exact.set_iter
        (Emotion.analyze_articles Exact.fear_model
           [[("title", VStr "Border tension")]; [("title", VStr "")]]
           Emotion.DEFAULT_FIELDS 0%nat).1 = Ok (Some stats)
      /\ Emotion.get_emotion_statistics Exact.set_iter
           (Emotion.analyze_articles Exact.fear_model
              [[("title", VStr "Border tension")]] Emotion.DEFAULT_FIELDS 0%nat).1
         = Ok (Some stats')
      /\ Emotion.average_emotions stats' = Emotion.average_emotions stats
      /\ Emotion.dominant_emotion_counts stats' = Emotion.dominant_emotion_counts stats
      /\ Emotion.most_common_emotion stats' = Emotion.most_common_emotion stats
      /\ Emotion.emotion_distribution stats' = Emotion.emotion_distribution stats
      /\ Emotion.total_analyzed stats = 2.
Proof.
  destruct (statistics_skip_records (F:=Qc) Exact.set_iter) as (Hs & _ & He & Ht).
  split.
  - apply (Hs (Sentiment.analyze_articles Exact.positive_model Exact.set_iter
                 [[("title", VStr "Border tension")]] Sentiment.DEFAULT_FIELDS 0%nat).1
              []
              (Sentiment.analyze_article Exact.positive_model Exact.set_iter
                 [("title", VStr "")] Sentiment.DEFAULT_FIELDS 1%nat).1).
    reflexivity.
  - destruct (He (Emotion.analyze_articles Exact.fear_model
                    [[("title", VStr "Border tension")]] Emotion.DEFAULT_FIELDS 0%nat).1
                 []
                 (Emotion.analyze_article Exact.fear_model
                    [("title", VStr "")] Emotion.DEFAULT_FIELDS 1%nat).1
                 _ eq_refl ltac:(discriminate) eq_refl)
      as (stats' & Hstats' & Ha & Hc & Hm & Hd).
    eexists _, stats'. split; [reflexivity|].
    split; [exact Hstats'|]. repeat (split; [eassumption|]).
    apply (Ht (Emotion.analyze_articles Exact.fear_model
                 [[("title", VStr "Border tension")]; [("title", VStr "")]]
                 Emotion.DEFAULT_FIELDS 0%nat).1 _ eq_refl).
Defined.

(** ** The caller's records are left alone *)

Section StoreFacts.
Import Store.
Context {A St : Type}.
Variable KEY : string.
Variable empty : A.
Variable field_step : record -> string -> A -> St -> A * St.
Variable finish : A -> A.
Implicit Types (h : heap A) (st : St) (r : record) (a : A).

Lemma dget_copy_items k r : dget k (copy_items r) = HVal <$> dget k r.
Proof.
  unfold copy_items. induction r as [|[k' v'] r IH]; simpl; [done|].
  by destruct (decide (k = k')).
Qed.

Lemma store_analyze_fields article sub r fields : forall a st h,
  h !! article = Some (OInput r) ->
  h !! sub = Some (OAnalysis a) ->
  analyze_fields field_step article sub fields (h, st)
  = Some (tt, (<[sub := OAnalysis (fields_result field_step r fields a st).1]> h,
               (fields_result field_step r fields a st).2)).
Proof.
  induction fields as [|field fields IH]; intros a st h Hart Hsub.
  - simpl. unfold ret. by rewrite insert_id.
  - assert (Hne : sub <> article) by (intros ->; congruence).
    cbn [analyze_fields fields_result]. unfold bind at 1. unfold read_input. rewrite Hart.
    unfold bind at 1. unfold read_analysis. rewrite Hsub.
    unfold bind at 1. unfold lift.
    destruct (field_step r field a st) as [a' st'].
    unfold bind at 1. unfold write_analysis. rewrite Hsub.
    rewrite (IH a' st' (<[sub := OAnalysis a']> h)).
    + by rewrite insert_insert_eq.
    + by rewrite lookup_insert_ne.
    + by rewrite lookup_insert_eq.
Qed.

(** The store after one iteration of the loop over [articles]. *)
Lemma store_analyze_article article r fields h st :
  h !! article = Some (OInput r) ->
  let article_copy := fresh (dom h) in
  let sub := fresh (dom (<[article_copy := OCopy (copy_items r)]> h)) in
  analyze_article KEY empty field_step finish article fields (h, st)
  = Some (article_copy,
          (<[sub := OAnalysis (finish (fields_result field_step r fields empty st).1)]>
             (<[article_copy := OCopy (dset KEY (HRef sub) (copy_items r))]> h),
           (fields_result field_step r fields empty st).2)).
Proof.
  intros Hart article_copy sub.
  assert (Hc : h !! article_copy = None).
  { apply not_elem_of_dom. apply is_fresh. }
  assert (Hs : <[article_copy := OCopy (copy_items r)]> h !! sub = None).
  { apply not_elem_of_dom. apply is_fresh. }
  assert (Hcs : article_copy <> sub).
  { intros Heq. rewrite <- Heq, lookup_insert_eq in Hs. done. }
  assert (Hac : article_copy <> article) by (intros Heq; congruence).
  assert (Hsa : sub <> article).
  { intros Heq. rewrite Heq, lookup_insert_ne, Hart in Hs by done. done. }
  unfold analyze_article.
  unfold bind at 1. unfold read_input. rewrite Hart.
  unfold bind at 1. unfold alloc. fold article_copy.
  unfold bind at 1. fold sub.
  unfold bind at 1. unfold set_item.
  rewrite lookup_insert_ne, lookup_insert_eq by done.
  unfold bind at 1.
  erewrite (store_analyze_fields article sub r fields empty st).
  - unfold bind at 1. unfold read_analysis. rewrite lookup_insert_eq.
    unfold bind at 1. unfold write_analysis. rewrite lookup_insert_eq.
    unfold ret. do 3 f_equal.
    apply map_eq. intros l.
    destruct (decide (l = sub)) as [->|Hl1]; [by rewrite !lookup_insert_eq|].
    rewrite !(lookup_insert_ne _ sub) by done.
    destruct (decide (l = article_copy)) as [->|Hl2]; [by rewrite !lookup_insert_eq|].
    rewrite !(lookup_insert_ne _ article_copy) by done.
    rewrite !(lookup_insert_ne _ sub) by done.
    by rewrite !(lookup_insert_ne _ article_copy) by done.
  - rewrite !lookup_insert_ne by done. done.
  - rewrite lookup_insert_ne, lookup_insert_eq by done. done.
Qed.

End StoreFacts.

Section StoreLoop.
Import Store.
Context {A St : Type}.
Variable KEY : string.
Variable empty : A.
Variable field_step : record -> string -> A -> St -> A * St.
Variable finish : A -> A.
Variable fields : list string.

(** The loop over [articles] on a store [h] in which every reference
    of [articles] is a record of the caller. *)
Lemma store_analyze_articles (articles : list positive) :
  forall (h : gmap positive (object A)) (st : St),
  (forall l, l ∈ articles -> exists r, h !! l = Some (OInput r)) ->
  exists out h' st',
    analyze_articles KEY empty field_step finish articles fields (h, st)
      = Some (out, (h', st'))
    /\ (forall l, l ∈ dom h -> h' !! l = h !! l)
    /\ length out = length articles
    /\ NoDup out
    /\ (forall c, c ∈ out -> c ∉ dom h)
    /\ (forall i l r, articles !! i = Some l -> h !! l = Some (OInput r) ->
        exists c sub st_i,
          out !! i = Some c
          /\ h' !! c = Some (OCopy (dset KEY (HRef sub) (copy_items r)))
          /\ (sub ∉ dom h)
          /\ h' !! sub
             = Some (OAnalysis (finish (fields_result field_step r fields empty st_i).1))).
Proof.
  induction articles as [|l0 articles IH]; intros h st Hvalid.
  - exists [], h, st. simpl. unfold ret.
    split; [done|]. split; [done|]. split; [done|]. split; [apply NoDup_nil_2|].
    split; [intros c Hc; by apply elem_of_nil in Hc|]. intros i l r Hi. done.
  - destruct (Hvalid l0) as [r0 Hr0]; [by left|].
    pose proof (store_analyze_article KEY empty field_step finish l0 r0 fields h st Hr0)
      as Hstep. cbv zeta in Hstep.
    set (c := fresh (dom h)) in *.
    set (sub := fresh (dom (<[c := OCopy (copy_items r0)]> h))) in *.
    set (h1 := <[sub := OAnalysis (finish (fields_result field_step r0 fields empty st).1)]>
                 (<[c := OCopy (dset KEY (HRef sub) (copy_items r0))]> h)) in *.
    set (st1 := (fields_result field_step r0 fields empty st).2) in *.
    assert (Hc : c ∉ dom h) by apply is_fresh.
    assert (Hsub' : sub ∉ dom (<[c := OCopy (copy_items r0)]> h)) by apply is_fresh.
    assert (Hsub : (sub ∉ dom h) /\ sub <> c).
    { rewrite dom_insert_L in Hsub'.
      apply not_elem_of_union in Hsub' as [Hne Hnin].
      split; [done|]. by apply not_elem_of_singleton in Hne. }
    destruct Hsub as [Hsub Hsc].
    assert (Hkeep1 : forall l, l ∈ dom h -> h1 !! l = h !! l).
    { intros l Hl. unfold h1.
      rewrite !lookup_insert_ne; [done | | ]; intros ->; done. }
    assert (Hdom1 : forall l, l ∈ dom h -> l ∈ dom h1).
    { intros l Hl. apply elem_of_dom. rewrite Hkeep1 by done. by apply elem_of_dom. }
    destruct (IH h1 st1) as (out & h' & st' & Hrun & Hkeep & Hlen & Hnd & Hfresh & Hidx).
    { intros l Hl. destruct (Hvalid l) as [r Hr]; [by right|].
      exists r. rewrite Hkeep1; [done|]. apply elem_of_dom. by eexists. }
    exists (c :: out), h', st'.
    split.
    { cbn [analyze_articles]. unfold bind at 1. rewrite Hstep.
      unfold bind at 1. rewrite Hrun. done. }
    assert (Hc1 : c ∈ dom h1).
    { apply elem_of_dom. unfold h1. rewrite lookup_insert_ne, lookup_insert_eq; done. }
    assert (Hs1 : sub ∈ dom h1).
    { apply elem_of_dom. unfold h1. by rewrite lookup_insert_eq. }
    split.
    { intros l Hl. rewrite Hkeep by (by apply Hdom1). by apply Hkeep1. }
    split; [simpl; by rewrite Hlen|].
    split.
    { apply NoDup_cons. split; [|done]. intros Hin. by apply Hfresh in Hin. }
    split.
    { intros c' [->|Hin]%elem_of_cons; [done|].
      intros Hd. apply (Hfresh c' Hin). by apply Hdom1. }
    intros i l r Hi Hl. destruct i as [|i]; simpl in Hi.
    + injection Hi as ->. rewrite Hr0 in Hl. injection Hl as ->.
      exists c, sub, st. split; [done|].
      split.
      { rewrite Hkeep by done. unfold h1.
        by rewrite lookup_insert_ne, lookup_insert_eq. }
      split; [done|].
      rewrite Hkeep by done. unfold h1. by rewrite lookup_insert_eq.
    + destruct (Hidx i l r Hi) as (c' & sub' & st_i & Hc' & Hcopy & Hsub1 & Han).
      { rewrite Hkeep1; [done|]. apply elem_of_dom. by eexists. }
      exists c', sub', st_i. split; [done|]. split; [done|].
      split; [|done]. intros Hd. apply Hsub1. by apply Hdom1.
Qed.

End StoreLoop.

Section StoreRead.
Import Store.
Context {A St : Type}.
Variable KEY : string.
Variable empty : A.
Variable field_step : record -> string -> A -> St -> A * St.
Variable finish : A -> A.
Implicit Types (h : gmap positive (object A)).

Lemma read_copy_items h (r : record) :
  mapM (read_entry h) (copy_items r) = Some (copy r).
Proof.
  unfold copy_items, copy. induction r as [|[k v] r IH]; [done|].
  rewrite !fmap_cons. cbn [mapM]. rewrite IH. done.
Qed.

Lemma read_entry_ref h k sub a :
  h !! sub = Some (OAnalysis a) -> read_entry h (k, HRef sub) = Some (k, Ann a).
Proof. intros Hsub. unfold read_entry. simpl. by rewrite Hsub. Qed.

Lemma read_dset h sub a (d : dict hvalue) : forall d',
  h !! sub = Some (OAnalysis a) ->
  mapM (read_entry h) d = Some d' ->
  mapM (read_entry h) (dset KEY (HRef sub) d) = Some (dset KEY (Ann a) d').
Proof.
  intros d' Hsub. revert d'.
  induction d as [|[k v] d IH]; intros d' Hd.
  - injection Hd as <-. cbn [dset mapM]. by rewrite (read_entry_ref h KEY sub a Hsub).
  - cbn [mapM] in Hd.
    destruct (read_entry h (k, v)) as [[k1 v1]|] eqn:Hkv; [|done].
    destruct (mapM (read_entry h) d) as [d1|] eqn:Hd1; [|done].
    cbn in Hd. injection Hd as <-.
    assert (Hk : k1 = k).
    { unfold read_entry in Hkv. simpl in Hkv.
      destruct (read_item h v); [|done]. by injection Hkv as <- _. }
    subst k1. cbn [dset].
    destruct (decide (KEY = k)) as [->|Hne].
    + cbn [mapM]. rewrite (read_entry_ref h k sub a Hsub). cbn [mbind option_bind].
      rewrite Hd1. done.
    + cbn [mapM]. rewrite Hkv. rewrite (IH d1 eq_refl). done.
Qed.

Lemma dset_dset k (v v' : avalue A) (d : annotated A) :
  dset k v (dset k v' d) = dset k v d.
Proof.
  induction d as [|[k0 v0] d IH]; cbn [dset].
  - by rewrite decide_True.
  - destruct (decide (k = k0)) as [->|Hne]; cbn [dset].
    + by rewrite decide_True.
    + rewrite decide_False by done. by rewrite IH.
Qed.

(** What a copy stands for. *)
Lemma read_copy_spec h c sub a (r : record) :
  h !! c = Some (OCopy (dset KEY (HRef sub) (copy_items r))) ->
  h !! sub = Some (OAnalysis a) ->
  read_copy h c = Some (dset KEY (Ann a) (copy r)).
Proof.
  intros Hc Hsub. unfold read_copy. rewrite Hc.
  apply (read_dset h sub a); [done|]. apply read_copy_items.
Qed.

(** The store version works on copies, for any analysis whose loop body
    [body] sets [KEY] on the copy to the finished sub-map. *)
Lemma store_works_on_copies (body : record -> list string -> St -> annotated A * St) :
  (forall r fields st,
      (body r fields st).1
      = dset KEY (Ann (finish (fields_result field_step r fields empty st).1)) (copy r)) ->
  works_on_copies KEY (analyze_articles KEY empty field_step finish) body.
Proof.
  intros Hbody articles fields h st Hvalid.
  destruct (store_analyze_articles KEY empty field_step finish fields articles h st Hvalid)
    as (out & h' & st' & Hrun & Hkeep & Hlen & Hnd & Hfresh & Hidx).
  exists out, h', st'. repeat (split; [done|]).
  intros i l r Hi Hl.
  destruct (Hidx i l r Hi Hl) as (c & sub & st_i & Hc & Hcopy & Hsub & Han).
  exists c, (dset KEY (HRef sub) (copy_items r)), sub, st_i.
  split; [done|]. split; [done|].
  split.
  { intros k Hk. rewrite dget_dset_ne by done. apply dget_copy_items. }
  split; [apply dget_dset_eq|]. split; [done|].
  rewrite Hbody. by apply (read_copy_spec h' c sub).
Qed.

End StoreRead.

Section StoreInstances.
Context {F : Type} `{PyFloat F} {St : Type}.
Variable sentiment_model : string -> St -> option (string * F) * St.
Variable emotion_model : string -> St -> option (list (string * F)) * St.
Variable set_iter : list string -> list string.

Lemma sentiment_fields_result r fields : forall d st,
  Store.fields_result (Sentiment.analyze_field sentiment_model) r fields d st
  = Sentiment.analyze_fields sentiment_model r fields d st.
Proof.
  induction fields as [|field fields IH]; intros d st; simpl; [done|].
  destruct (Sentiment.analyze_field sentiment_model r field d st) as [d' st'].
  apply IH.
Qed.

Lemma emotion_fields_result r fields : forall a st,
  Store.fields_result (Store.emotion_step emotion_model) r fields a st
  = (Emotion.mk_analysis
       (Emotion.analyze_fields emotion_model r fields (Emotion.per_field a) st).1
       (Emotion.overall a),
     (Emotion.analyze_fields emotion_model r fields (Emotion.per_field a) st).2).
Proof.
  induction fields as [|field fields IH]; intros a st; simpl.
  - by destruct a.
  - unfold Store.emotion_step at 1.
    destruct (Emotion.analyze_field emotion_model r field (Emotion.per_field a) st)
      as [d' st'].
    by rewrite IH.
Qed.

End StoreInstances.

(** C8, as the code has it: both [analyze_articles] work on copies.
    The objects of the caller's store are unchanged, the returned
    records are new and distinct, and each carries the items of its
    input record under every key other than the analysis key; under the
    analysis key it holds the new sub-map, which replaces whatever the
    input record had there. *)
Theorem analyze_articles_copy_on_write {F} `{PyFloat F} {St}
    (sentiment_model : string -> St -> option (string * F) * St)
    (emotion_model : string -> St -> option (list (string * F)) * St)
    (set_iter : list string -> list string) :
  works_on_copies Sentiment.KEY
    (Store.sentiment_articles sentiment_model set_iter)
    (Sentiment.analyze_article sentiment_model set_iter)
  /\ works_on_copies Emotion.KEY
       (Store.emotion_articles emotion_model)
       (Emotion.analyze_article emotion_model).
Proof.
  split.
  - apply store_works_on_copies. intros r fields st.
    rewrite sentiment_fields_result. unfold Sentiment.analyze_article.
    destruct (Sentiment.analyze_fields sentiment_model r fields [] st) as [d st'].
    simpl. apply dset_dset.
  - apply store_works_on_copies. intros r fields st.
    rewrite emotion_fields_result. unfold Emotion.analyze_article.
    destruct (Emotion.analyze_fields emotion_model r fields _ st) as [d st'].
    simpl. apply dset_dset.
Qed.

(** A record that already has a ["sentiment_analysis"] field: the output
    record has the sub-map there, not the text of the input. *)
Lemma annotation_key_overwritten :
  dget "sentiment_analysis"
    [("title", VStr "Talks resume"); ("sentiment_analysis", VStr "reviewed")]
  = Some (VStr "reviewed")
  /\ exists out sub,
      (Sentiment.analyze_articles Exact.positive_model Exact.set_iter
         [[("title", VStr "Talks resume"); ("sentiment_analysis", VStr "reviewed")]]
         Sentiment.DEFAULT_FIELDS 0%nat).1 !! 0%nat = Some out
      /\ dget "sentiment_analysis" out = Some (Ann sub)
      /\ dget "sentiment_analysis" out
         <> Orig <$> dget "sentiment_analysis"
                   [("title", VStr "Talks resume"); ("sentiment_analysis", VStr "reviewed")].
Proof.
  split; [reflexivity|]. eexists _, _. split; [reflexivity|].
  split; [reflexivity|]. discriminate.
Qed.

(** One record of the caller at location 1. *)
Lemma analyze_articles_copy_on_write_witness :
  exists out h' st',
    Store.sentiment_articles Exact.positive_model Exact.set_iter [1%positive]
      Sentiment.DEFAULT_FIELDS
      ({[1%positive := Store.OInput [("title", VStr "Talks resume")]]}, 0%nat)
    = Some (out, (h', st'))
    /\ h' !! 1%positive = Some (Store.OInput [("title", VStr "Talks resume")])
    /\ length out = 1%nat
    /\ (forall c, c ∈ out -> c <> 1%positive).
Proof.
  destruct (analyze_articles_copy_on_write Exact.positive_model Exact.fear_model
              Exact.set_iter) as [Hs _].
  destruct (Hs [1%positive] Sentiment.DEFAULT_FIELDS
              {[1%positive := Store.OInput [("title", VStr "Talks resume")]]} 0%nat)
    as (out & h' & st' & Hrun & Hkeep & Hlen & _ & Hfresh & _).
  - intros l Hl. apply list_elem_of_singleton in Hl as ->.
    eexists. apply lookup_singleton_eq.
  - exists out, h', st'. split; [exact Hrun|].
    split.
    + rewrite Hkeep; [apply lookup_singleton_eq|].
      apply elem_of_dom. eexists. apply lookup_singleton_eq.
    + split; [exact Hlen|]. intros c Hc ->.
      apply (Hfresh _ Hc). apply elem_of_dom. eexists. apply lookup_singleton_eq.
Defined.

(** ** The end-to-end scenarios, computed *)

(** Scenario 1: a title classified POSITIVE at 0.95 and an empty
    description give the overall entry POSITIVE at 0.95, after one call
    of the classifier. *)
Example scenario_positive_title :
  let run := Sentiment.analyze_articles Exact.positive_model Exact.set_iter
               [[("title", VStr "Great news for peace talks"); ("description", VStr "")]]
               Sentiment.DEFAULT_FIELDS 0%nat in
  match run.1 with
  | [out] =>
      match dget "sentiment_analysis" out with
      | Some (Ann sub) =>
          dkeys sub = ["title"; "overall"]
          /\ Sentiment.label <$> dget "overall" sub = Some "POSITIVE"
          /\ (fun o => this (Sentiment.score o)) <$> dget "overall" sub = Some (19 # 20)
      | _ => False
      end
  | _ => False
  end
  /\ run.2 = 1%nat.
Proof. vm_compute. repeat split; reflexivity. Qed.

(** Scenario 2: fear dominates the first record and joy the second;
    each dominant emotion is counted once and has half of the
    distribution. *)
Example scenario_fear_and_joy :
  match Emotion.get_emotion_statistics Exact.set_iter
          (Emotion.analyze_articles Exact.scenario_model
             [[("title", VStr "A")]; [("title", VStr "B")]]
             Emotion.DEFAULT_FIELDS 0%nat).1 with
  | Ok (Some stats) =>
      Emotion.total_analyzed stats = 2
      /\ Emotion.dominant_emotion_counts stats = [("fear", 1); ("joy", 1)]
      /\ Exact.score_q <$> Emotion.emotion_distribution stats
         = [("fear", 50 # 1); ("joy", 50 # 1)]
      /\ Exact.score_q <$> Emotion.average_emotions stats
         = [("anger", 0 # 1); ("disgust", 0 # 1); ("fear", 19 # 40); ("joy", 17 # 40);
            ("neutral", 0 # 1); ("sadness", 0 # 1); ("surprise", 0 # 1)]
      /\ Emotion.most_common_emotion stats = Some "fear"
  | _ => False
  end.
Proof. vm_compute. repeat split; reflexivity. Qed.

(** A batch of three texts in chunks of two, with a model that fails:
    three sentinels, after two calls. *)
Example scenario_failed_batch :
  let run := Sentiment.analyze_batch (F:=Qc) Exact.failing_batch
               [VStr "a"; VStr "b"; VStr "c"] 2 0%nat in
  match run.1 with
  | Ok results => Sentiment.label <$> results = ["ERROR"; "ERROR"; "ERROR"]
  | Raise _ => False
  end
  /\ run.2 = 2%nat.
Proof. vm_compute. split; reflexivity. Qed.

(** * Further properties of the analyzers *)

(** ** The calls of the classifier *)

Lemma slice_to_length n s : String.length (PyStr.slice_to n s) = (n `min` String.length s)%nat.
Proof.
  revert s. induction n as [|n IH]; intros [|c s]; simpl; [done..|].
  unfold PyStr.slice_to. fold PyStr.slice_to. simpl. by rewrite IH.
Qed.

Lemma slice_to_prefix n s : exists rest, s = String.app (PyStr.slice_to n s) rest.
Proof.
  revert s. induction n as [|n IH]; intros s.
  - exists s. by destruct s.
  - destruct s as [|c s]; [by exists ""|].
    destruct (IH s) as [rest Hrest]. exists rest.
    unfold PyStr.slice_to. fold PyStr.slice_to.
    change (String.app (String c (PyStr.slice_to n s)) rest)
      with (String c (String.app (PyStr.slice_to n s) rest)).
    by rewrite <- Hrest.
Qed.

Section Calls.
Context {F : Type} `{PyFloat F}.
Variable sentiment_answer : string -> option (string * F).
Variable emotion_answer : string -> option (list (string * F)).
Variable set_iter : list string -> list string.

Lemma sentiment_field_calls article field d calls :
  (Sentiment.analyze_field (logged sentiment_answer) article field d calls).2
  = calls ++ option_list (model_input article field).
Proof.
  unfold Sentiment.analyze_field, model_input.
  destruct (default (VStr "") (dget field article)) as [|s] eqn:Hv.
  - simpl. by rewrite app_nil_r.
  - destruct (has_text (VStr s)) eqn:Htext; [|by rewrite app_nil_r].
    unfold Sentiment.analyze_text. simpl in Htext. rewrite <- negb_andb, Htext.
    cbn [negb]. unfold logged.
    by destruct (sentiment_answer (PyStr.slice_to 512 s)) as [[l x]|].
Qed.

Lemma sentiment_fields_calls article fields : forall d calls,
  (Sentiment.analyze_fields (logged sentiment_answer) article fields d calls).2
  = calls ++ omap (model_input article) fields.
Proof.
  induction fields as [|field fields IH]; intros d calls.
  - simpl. by rewrite app_nil_r.
  - cbn [Sentiment.analyze_fields].
    pose proof (sentiment_field_calls article field d calls) as Hfield.
    destruct (Sentiment.analyze_field (logged sentiment_answer) article field d calls)
      as [d' calls'].
    simpl in Hfield. subst calls'. rewrite IH, <- app_assoc. f_equal.
    change (omap (model_input article) (field :: fields))
      with (match model_input article field with
            | Some y => y :: omap (model_input article) fields
            | None => omap (model_input article) fields
            end).
    by destruct (model_input article field).
Qed.

Lemma emotion_field_calls article field d calls :
  (Emotion.analyze_field (logged emotion_answer) article field d calls).2
  = calls ++ option_list (model_input article field).
Proof.
  unfold Emotion.analyze_field, model_input.
  destruct (default (VStr "") (dget field article)) as [|s] eqn:Hv.
  - simpl. by rewrite app_nil_r.
  - destruct (has_text (VStr s)) eqn:Htext; [|by rewrite app_nil_r].
    unfold Emotion.analyze_text. simpl in Htext. rewrite <- negb_andb, Htext.
    cbn [negb]. unfold logged.
    by destruct (emotion_answer (PyStr.slice_to 512 s)) as [r|].
Qed.

Lemma emotion_fields_calls article fields : forall d calls,
  (Emotion.analyze_fields (logged emotion_answer) article fields d calls).2
  = calls ++ omap (model_input article) fields.
Proof.
  induction fields as [|field fields IH]; intros d calls.
  - simpl. by rewrite app_nil_r.
  - cbn [Emotion.analyze_fields].
    pose proof (emotion_field_calls article field d calls) as Hfield.
    destruct (Emotion.analyze_field (logged emotion_answer) article field d calls)
      as [d' calls'].
    simpl in Hfield. subst calls'. rewrite IH, <- app_assoc. f_equal.
    change (omap (model_input article) (field :: fields))
      with (match model_input article field with
            | Some y => y :: omap (model_input article) fields
            | None => omap (model_input article) fields
            end).
    by destruct (model_input article field).
Qed.

(** X1: the classifier is called once for each requested field with
    text, record after record and field after field, with the first 512
    characters of the field; it is called for nothing else. *)
Theorem analyze_articles_calls (articles : list record) (fields : list string)
    (calls : list string) :
  (Sentiment.analyze_articles (logged sentiment_answer) set_iter articles fields calls).2
  = calls ++ (articles ≫= fun article => omap (model_input article) fields)
  /\ (Emotion.analyze_articles (logged emotion_answer) articles fields calls).2
     = calls ++ (articles ≫= fun article => omap (model_input article) fields).
Proof.
  split.
  - revert calls. induction articles as [|article articles IH]; intros calls.
    + simpl. by rewrite app_nil_r.
    + cbn [Sentiment.analyze_articles]. unfold Sentiment.analyze_article.
      pose proof (sentiment_fields_calls article fields [] calls) as Hfields.
      destruct (Sentiment.analyze_fields (logged sentiment_answer) article fields [] calls)
        as [d calls'].
      simpl in Hfields. subst calls'. specialize (IH (calls ++ omap (model_input article) fields)).
      destruct (Sentiment.analyze_articles (logged sentiment_answer) set_iter articles fields _)
        as [out calls''].
      simpl in *. rewrite IH. by rewrite <- app_assoc.
  - revert calls. induction articles as [|article articles IH]; intros calls.
    + simpl. by rewrite app_nil_r.
    + cbn [Emotion.analyze_articles]. unfold Emotion.analyze_article.
      pose proof (emotion_fields_calls article fields [] calls) as Hfields.
      destruct (Emotion.analyze_fields (logged emotion_answer) article fields [] calls)
        as [d calls'].
      simpl in Hfields. subst calls'. specialize (IH (calls ++ omap (model_input article) fields)).
      destruct (Emotion.analyze_articles (logged emotion_answer) articles fields _)
        as [out calls''].
      simpl in *. rewrite IH. by rewrite <- app_assoc.
Qed.

(** What the classifier receives is a prefix of the field, of at most
    512 characters. *)
Lemma model_input_prefix article field text :
  model_input article field = Some text ->
  exists s rest,
    dget field article = Some (VStr s)
    /\ s = String.app text rest
    /\ String.length text = (512 `min` String.length s)%nat
    /\ is_blank (VStr s) = false.
Proof.
  unfold model_input.
  destruct (dget field article) as [[|s]|] eqn:Hget; simpl; [done| |done].
  destruct (PyStr.truthy s && PyStr.truthy (PyStr.strip s)) eqn:Htext; [|done].
  intros [= <-]. destruct (slice_to_prefix 512 s) as [rest Hrest].
  exists s, rest. split; [done|]. split; [done|]. split; [apply slice_to_length|].
  pose proof (has_text_blank (VStr s)) as Hb. simpl in Hb. rewrite Htext in Hb.
  by destruct (PyStr.all_space s).
Qed.

End Calls.

(** ** The keys of the output *)

Section KeyFacts.
Context {V : Type}.
Implicit Types (d : dict V) (k : string) (v : V).

Lemma dkeys_dset k v d :
  dkeys (dset k v d) = if dmem k d then dkeys d else dkeys d ++ [k].
Proof.
  unfold dmem. destruct (dget k d) as [x|] eqn:Hget.
  - apply dkeys_dset_old. by rewrite Hget.
  - by apply dkeys_dset_new.
Qed.

Lemma dmem_keys k d : dmem k d = true <-> k ∈ dkeys d.
Proof.
  unfold dmem. destruct (dget k d) as [x|] eqn:Hget.
  - split; [intros _|done]. destruct (decide (k ∈ dkeys d)) as [|Hnin]; [done|].
    apply dget_None_keys in Hnin. congruence.
  - split; [done|]. intros Hin. by apply dget_None_keys in Hget.
Qed.

Lemma dset_NoDup k v d : NoDup (dkeys d) -> NoDup (dkeys (dset k v d)).
Proof.
  intros Hnd. rewrite dkeys_dset. destruct (dmem k d) eqn:Hmem; [done|].
  apply NoDup_app. split; [done|]. split; [|apply NoDup_singleton].
  intros x Hx ->%list_elem_of_singleton.
  apply dmem_keys in Hx. congruence.
Qed.

Lemma dset_keys_elem_of k k' v d : k' ∈ dkeys (dset k v d) <-> k' = k \/ k' ∈ dkeys d.
Proof.
  rewrite dkeys_dset. destruct (dmem k d) eqn:Hmem.
  - split; [by right|]. intros [->|Hin]; [by apply dmem_keys|done].
  - rewrite elem_of_app, list_elem_of_singleton. tauto.
Qed.

Lemma ddel_NoDup k d : NoDup (dkeys d) -> NoDup (dkeys (ddel k d)).
Proof.
  unfold dkeys, ddel. induction d as [|[k0 v0] d IH]; [done|].
  rewrite fmap_cons. intros [Hnin Hnd]%NoDup_cons. rewrite filter_cons.
  destruct (decide ((k0, v0).1 <> k)) as [Hne|Heq]; [|by apply IH].
  rewrite fmap_cons. apply NoDup_cons. split; [|by apply IH].
  intros Hin. apply Hnin.
  apply list_elem_of_fmap in Hin as [[k1 v1] [Hk1 Hin]].
  apply list_elem_of_filter in Hin as [_ Hin].
  apply list_elem_of_fmap. by exists (k1, v1).
Qed.

End KeyFacts.

Lemma dkeys_copy {A} (article : record) : dkeys (copy (A:=A) article) = dkeys article.
Proof.
  unfold dkeys, copy. induction article as [|[k v] article IH]; [done|].
  rewrite !fmap_cons. simpl. by rewrite IH.
Qed.

Section Keys.
Context {F : Type} `{PyFloat F} {St : Type}.
Variable sentiment_model : string -> St -> option (string * F) * St.
Variable emotion_model : string -> St -> option (list (string * F)) * St.
Variable set_iter : list string -> list string.

Lemma sentiment_fields_keys article fields : forall d st,
  NoDup (dkeys d) ->
  NoDup (dkeys (Sentiment.analyze_fields sentiment_model article fields d st).1)
  /\ forall k, k ∈ dkeys (Sentiment.analyze_fields sentiment_model article fields d st).1
       <-> k ∈ dkeys d
           \/ (k ∈ fields /\ has_text (default (VStr "") (dget k article)) = true).
Proof.
  induction fields as [|field fields IH]; intros d st Hnd.
  - simpl. split; [done|]. intros k. split; [by left|].
    intros [Hk|[Hk _]]; [done|]. by apply elem_of_nil in Hk.
  - cbn [Sentiment.analyze_fields]. unfold Sentiment.analyze_field.
    destruct (has_text (default (VStr "") (dget field article))) eqn:Htext.
    + destruct (Sentiment.analyze_text sentiment_model _ st) as [r st'].
      destruct (IH (dset field r d) st') as [Hnd' Hkeys]; [by apply dset_NoDup|].
      split; [done|]. intros k. rewrite Hkeys, dset_keys_elem_of, elem_of_cons.
      split.
      * intros [[->|Hk]|[Hk Ht]]; [right; split; [by left|done] | by left | right; split; [by right|done]].
      * intros [Hk|[[->|Hk] Ht]]; [left; by right | left; by left | right; done].
    + destruct (IH d st) as [Hnd' Hkeys]; [done|].
      split; [done|]. intros k. rewrite Hkeys, elem_of_cons.
      split.
      * intros [Hk|[Hk Ht]]; [by left | right; split; [by right|done]].
      * intros [Hk|[[->|Hk] Ht]]; [by left | congruence | right; done].
Qed.

Lemma emotion_fields_keys article fields : forall d st,
  NoDup (dkeys d) ->
  NoDup (dkeys (Emotion.analyze_fields emotion_model article fields d st).1)
  /\ forall k, k ∈ dkeys (Emotion.analyze_fields emotion_model article fields d st).1
       <-> k ∈ dkeys d
           \/ (k ∈ fields /\ has_text (default (VStr "") (dget k article)) = true).
Proof.
  induction fields as [|field fields IH]; intros d st Hnd.
  - simpl. split; [done|]. intros k. split; [by left|].
    intros [Hk|[Hk _]]; [done|]. by apply elem_of_nil in Hk.
  - cbn [Emotion.analyze_fields]. unfold Emotion.analyze_field.
    destruct (has_text (default (VStr "") (dget field article))) eqn:Htext.
    + destruct (Emotion.analyze_text emotion_model _ st) as [r st'].
      destruct (IH (dset field r d) st') as [Hnd' Hkeys]; [by apply dset_NoDup|].
      split; [done|]. intros k. rewrite Hkeys, dset_keys_elem_of, elem_of_cons.
      split.
      * intros [[->|Hk]|[Hk Ht]]; [right; split; [by left|done] | by left | right; split; [by right|done]].
      * intros [Hk|[[->|Hk] Ht]]; [left; by right | left; by left | right; done].
    + destruct (IH d st) as [Hnd' Hkeys]; [done|].
      split; [done|]. intros k. rewrite Hkeys, elem_of_cons.
      split.
      * intros [Hk|[Hk Ht]]; [by left | right; split; [by right|done]].
      * intros [Hk|[[->|Hk] Ht]]; [by left | congruence | right; done].
Qed.

(** X2: in the sub-map stored by [analyze_articles], a key other than
    ["overall"] is present exactly when it is a requested field that has
    text in the record; no key occurs twice. *)
Theorem analysis_keys (article : record) (fields : list string) (st : St) :
  (exists sub,
      dget Sentiment.KEY (Sentiment.analyze_article sentiment_model set_iter article fields st).1
        = Some (Ann sub)
      /\ NoDup (dkeys sub)
      /\ forall k, k <> "overall" ->
           (k ∈ dkeys sub
            <-> k ∈ fields /\ has_text (default (VStr "") (dget k article)) = true))
  /\ (exists sub,
      dget Emotion.KEY (Emotion.analyze_article emotion_model article fields st).1
        = Some (Ann sub)
      /\ NoDup (dkeys (Emotion.per_field sub))
      /\ forall k, k <> "overall" ->
           (k ∈ dkeys (Emotion.per_field sub)
            <-> k ∈ fields /\ has_text (default (VStr "") (dget k article)) = true)).
Proof.
  split.
  - eexists. split; [apply sentiment_article_key|].
    destruct (sentiment_fields_keys article fields [] st) as [Hnd Hkeys];
      [apply NoDup_nil_2|].
    unfold Sentiment.add_overall.
    destruct (dvalues (Sentiment.analyze_fields sentiment_model article fields [] st).1)
      as [|s sents].
    + split; [done|]. intros k Hk. rewrite Hkeys. split; [|by right].
      intros [Hin|Hin]; [by apply elem_of_nil in Hin | done].
    + split; [by apply dset_NoDup|]. intros k Hk.
      rewrite dset_keys_elem_of, Hkeys. split; [|by right; right].
      intros [->|[Hin|Hin]]; [done | by apply elem_of_nil in Hin | done].
  - eexists. split; [apply emotion_article_key|].
    destruct (emotion_fields_keys article fields [] st) as [Hnd Hkeys];
      [apply NoDup_nil_2|].
    destruct (Emotion.analyze_fields emotion_model article fields [] st).1 as [|kv d] eqn:Hd.
    + simpl. split; [apply NoDup_nil_2|]. intros k Hk.
      split; [intros Hin; by apply elem_of_nil in Hin|].
      intros Hx. apply (proj2 (Hkeys k)). by right.
    + cbn [Emotion.finish Emotion.per_field].
      assert (Hddel : forall k, k <> "overall" ->
                (k ∈ dkeys (ddel "overall" (kv :: d)) <-> k ∈ dkeys (kv :: d))).
      { intros k Hk. rewrite <- !dmem_keys. unfold dmem.
        by rewrite dget_ddel_ne. }
      split.
      * by apply ddel_NoDup.
      * intros k Hk. rewrite (Hddel k Hk), Hkeys.
        split; [|by right]. intros [Hin|Hin]; [by apply elem_of_nil in Hin | done].
Qed.

(** X3: the output record has the keys of the input record, in the
    same order; the analysis key is added at the end when the input
    record does not have it, and keeps its place otherwise. *)
Theorem output_keys (article : record) (fields : list string) (st : St) :
  dkeys (Sentiment.analyze_article sentiment_model set_iter article fields st).1
    = (if dmem Sentiment.KEY article then dkeys article
       else dkeys article ++ [Sentiment.KEY])
  /\ dkeys (Emotion.analyze_article emotion_model article fields st).1
     = (if dmem Emotion.KEY article then dkeys article
        else dkeys article ++ [Emotion.KEY]).
Proof.
  assert (Hmem : forall A k, dmem k (copy (A:=A) article) = dmem k article).
  { intros A k. unfold dmem. rewrite dget_copy. by destruct (dget k article). }
  split.
  - unfold Sentiment.analyze_article.
    destruct (Sentiment.analyze_fields sentiment_model article fields [] st) as [d st'].
    simpl. rewrite dset_dset, dkeys_dset, Hmem, dkeys_copy. done.
  - unfold Emotion.analyze_article.
    destruct (Emotion.analyze_fields emotion_model article fields [] st) as [d st'].
    simpl. rewrite dset_dset, dkeys_dset, Hmem, dkeys_copy. done.
Qed.

End Keys.

(** ** The chunks of [analyze_batch] *)

Section Chunks.
Context {A B : Type} (f : A -> B).
Implicit Types (xs : list A) (b m : nat).

Lemma chunks_concat xs b m : forall k0 : nat,
  concat ((fun k => f <$> take b (drop (k * b) xs)) <$> seq k0 m)
  = f <$> take (m * b) (drop (k0 * b) xs).
Proof.
  induction m as [|m IH]; intros k0; [done|].
  cbn [seq fmap list_fmap concat]. rewrite IH.
  replace (S k0 * b)%nat with (k0 * b + b)%nat by lia.
  rewrite <- drop_drop, <- fmap_app, take_take_drop. done.
Qed.

End Chunks.

Section BatchCalls.
Context {F : Type} `{PyFloat F}.
Variable texts : list value.
Variable batch_size : Z.
Hypothesis batch_size_pos : 0 < batch_size.

Let b : nat := Z.to_nat batch_size.

Lemma chunk_count_bounds :
  let m := Z.to_nat ((Z.of_nat (length texts) + batch_size - 1) / batch_size) in
  (length texts <= m * b)%nat /\ (forall k, (k < m)%nat -> (k * b < length texts)%nat).
Proof.
  intros m. unfold m, b.
  pose proof (Z.div_mod (Z.of_nat (length texts) + batch_size - 1) batch_size) as Hdm.
  pose proof (Z.mod_pos_bound (Z.of_nat (length texts) + batch_size - 1) batch_size
                batch_size_pos) as Hmod.
  assert (Hq : 0 <= (Z.of_nat (length texts) + batch_size - 1) / batch_size)
    by (apply Z.div_pos; lia).
  split.
  - apply Nat2Z.inj_le. rewrite Nat2Z.inj_mul, !Z2Nat.id by lia. nia.
  - intros k Hk. apply Nat2Z.inj_lt. rewrite Nat2Z.inj_mul, Z2Nat.id by lia.
    apply Nat2Z.inj_lt in Hk. rewrite Z2Nat.id in Hk by lia. nia.
Qed.

Lemma logged_chunks_calls (answer : list string -> option (list (string * F))) m :
  forall k0 results calls,
  (Sentiment.analyze_chunks (logged_batch answer) texts batch_size
     (chunk_offsets batch_size k0 m) results calls).2
  = calls ++ ((fun k => Sentiment.clean <$> take b (drop (k * b) texts)) <$> seq k0 m).
Proof.
  induction m as [|m IH]; intros k0 results calls.
  - simpl. by rewrite app_nil_r.
  - unfold chunk_offsets. cbn [seq fmap list_fmap Sentiment.analyze_chunks].
    fold (chunk_offsets batch_size (S k0) m).
    unfold Sentiment.analyze_chunk. unfold logged_batch at 1.
    rewrite (slice_offset texts batch_size batch_size_pos k0). fold b.
    destruct (answer (Sentiment.clean <$> take b (drop (k0 * b) texts))) as [rs|];
      rewrite IH; by rewrite <- app_assoc.
Qed.

(** X5: with a positive batch size, the model is called on successive
    chunks of the cleaned texts: the chunks put end to end are the
    cleaned texts, no chunk is empty or longer than the batch size, and
    every chunk but the last has exactly the batch size. *)
Theorem analyze_batch_calls (answer : list string -> option (list (string * F)))
    (calls : list (list string)) :
  exists chunks,
    (Sentiment.analyze_batch (logged_batch answer) texts batch_size calls).2
      = calls ++ chunks
    /\ concat chunks = Sentiment.clean <$> texts
    /\ (forall c, c ∈ chunks -> (0 < length c <= Z.to_nat batch_size)%nat)
    /\ (forall i c, chunks !! i = Some c -> (S i < length chunks)%nat ->
        length c = Z.to_nat batch_size).
Proof.
  set (m := Z.to_nat ((Z.of_nat (length texts) + batch_size - 1) / batch_size)).
  destruct chunk_count_bounds as [Hcover Hstart]. fold m in Hcover, Hstart.
  exists ((fun k => Sentiment.clean <$> take b (drop (k * b) texts)) <$> seq 0 m).
  assert (Hb : (0 < b)%nat) by (unfold b; lia).
  split; [|split; [|split]].
  - unfold Sentiment.analyze_batch, range0.
    rewrite decide_False by lia. rewrite decide_False by lia. fold m.
    change ((fun k => Z.of_nat k * batch_size) <$> seq 0 m)
      with (chunk_offsets batch_size 0 m).
    pose proof (logged_chunks_calls answer m 0%nat [] calls) as Hcalls.
    destruct (Sentiment.analyze_chunks (logged_batch answer) texts batch_size
                (chunk_offsets batch_size 0 m) [] calls) as [results calls'].
    done.
  - rewrite (chunks_concat Sentiment.clean texts b m 0%nat).
    simpl. by rewrite take_ge.
  - intros c [k [-> Hk]]%list_elem_of_fmap.
    apply elem_of_seq in Hk. rewrite length_fmap, length_take, length_drop.
    fold b. specialize (Hstart k). lia.
  - intros i c Hi Hlen. rewrite length_fmap, length_seq in Hlen.
    rewrite list_lookup_fmap in Hi.
    rewrite lookup_seq_lt in Hi by lia. simpl in Hi. injection Hi as <-.
    rewrite length_fmap, length_take, length_drop. fold b.
    specialize (Hstart (S i)). lia.
Qed.


End BatchCalls.

(** X4: a batch size that is not positive analyzes nothing.  Zero makes
    [range] raise [ValueError]; with a negative size the loop is not
    entered and the result is the empty list, whatever the texts; the
    model is not called in either case. *)
Theorem analyze_batch_bad_size {F} `{PyFloat F} {St}
    (model_batch : list string -> St -> option (list (string * F)) * St)
    (texts : list value) (batch_size : Z) (st : St) :
  batch_size <= 0 ->
  Sentiment.analyze_batch model_batch texts batch_size st
  = (if decide (batch_size = 0) then Raise ValueError else Ok [], st).
Proof.
  intros Hsize. unfold Sentiment.analyze_batch, range0.
  destruct (decide (batch_size = 0)) as [->|Hne]; [done|].
  by rewrite decide_True by lia.
Qed.

(** Three texts in chunks of two: one chunk of two and one of one. *)
Lemma analyze_batch_calls_witness :
  exists chunks,
    (Sentiment.analyze_batch (F:=Qc) (logged_batch (fun _ => None))
       [VStr "a"; VStr " "; VStr "c"] 2 []).2 = [] ++ chunks
    /\ concat chunks = Sentiment.clean <$> [VStr "a"; VStr " "; VStr "c"]
    /\ (forall c, c ∈ chunks -> (0 < length c <= Z.to_nat 2)%nat)
    /\ (forall i c, chunks !! i = Some c -> (S i < length chunks)%nat ->
        length c = Z.to_nat 2).
Proof.
  apply (analyze_batch_calls (F:=Qc) [VStr "a"; VStr " "; VStr "c"] 2).
  reflexivity.
Defined.


(** A batch size of -1 on two texts. *)
Lemma analyze_batch_bad_size_witness :
  Sentiment.analyze_batch Samples.sign_batch [VStr "+a"; VStr "b"] (-1) tt = (Ok [], tt).
Proof.
  apply (analyze_batch_bad_size Samples.sign_batch [VStr "+a"; VStr "b"] (-1) tt).
  done.
Defined.

(** ** The dictionary built from the classifier's results *)

Section DictOf.
Context {V : Type}.
Implicit Types (d : dict V) (items : list (string * V)) (k : string).

Lemma dict_of_fold_lookup k items : forall d,
  dget k (foldl (fun d kv => dset kv.1 kv.2 d) d items)
  = match last (filter (fun kv => kv.1 = k) items) with
    | Some kv => Some kv.2
    | None => dget k d
    end.
Proof.
  induction items as [|[k0 v0] items IH]; intros d; [done|].
  cbn [foldl]. rewrite IH, filter_cons. cbn [fst snd].
  destruct (decide (k0 = k)) as [->|Hne].
  - rewrite last_cons.
    destruct (last (filter (fun kv => kv.1 = k) items)); [done|].
    by rewrite dget_dset_eq.
  - destruct (last (filter (fun kv => kv.1 = k) items)); [done|].
    by rewrite dget_dset_ne.
Qed.

Lemma dict_of_fold_NoDup items : forall d,
  NoDup (dkeys d) -> NoDup (dkeys (foldl (fun d kv => dset kv.1 kv.2 d) d items)).
Proof.
  induction items as [|kv items IH]; intros d Hd; [done|].
  cbn [foldl]. apply IH. by apply dset_NoDup.
Qed.

(** In [{k: v for (k, v) in items}] a key holds the value of its last
    item, and no key occurs twice. *)
Lemma dict_of_lookup k items :
  dget k (dict_of items) = snd <$> last (filter (fun kv => kv.1 = k) items).
Proof.
  unfold dict_of. rewrite dict_of_fold_lookup.
  by destruct (last (filter (fun kv => kv.1 = k) items)).
Qed.

Lemma dict_of_NoDup items : NoDup (dkeys (dict_of items)).
Proof. apply dict_of_fold_NoDup. apply NoDup_nil_2. Qed.

End DictOf.

(** X7: when the classifier answers, the emotion dictionary of a text
    holds, for each label of the answer, the score of the last result
    with that label, rounded to 4 decimals; it has no other key, and no
    key twice. *)
Theorem emotion_analyze_text_scores {F} `{PyFloat F} {St}
    (model : string -> St -> option (list (string * F)) * St)
    (s : string) (st : St) (results : list (string * F)) :
  has_text (VStr s) = true ->
  (model (PyStr.slice_to 512 s) st).1 = Some results ->
  NoDup (dkeys (Emotion.analyze_text model (VStr s) st).1)
  /\ forall label,
       dget label (Emotion.analyze_text model (VStr s) st).1
       = (fun r => round_nd 4 r.2) <$> last (filter (fun r => r.1 = label) results).
Proof.
  intros Htext Hmodel. unfold Emotion.analyze_text.
  simpl in Htext. rewrite <- negb_andb, Htext. cbn [negb].
  destruct (model (PyStr.slice_to 512 s) st) as [[rs|] st']; [|done].
  simpl in Hmodel. injection Hmodel as ->. cbn [fst].
  split; [apply dict_of_NoDup|].
  intros label. rewrite dict_of_lookup.
  induction results as [|[l x] results IH]; [done|].
  rewrite fmap_cons, !filter_cons. cbn [fst snd].
  destruct (decide (l = label)) as [->|Hne]; [|done].
  rewrite !last_cons.
  destruct (last (filter (fun kv => kv.1 = label)
                    ((fun r => (r.1, round_nd 4 r.2)) <$> results))) as [kv|];
    destruct (last (filter (fun r => r.1 = label) results)) as [r|]; simpl in *; congruence.
Qed.

(** A classifier that reports joy at 0.1 and again at 0.7. *)
Lemma emotion_analyze_text_scores_witness :
  dget "joy" (Emotion.analyze_text Samples.joy_twice (VStr "Good news") tt).1
  = Some (round_nd 4 (Q2Qc (7 # 10)))
  /\ dget "anger" (Emotion.analyze_text Samples.joy_twice (VStr "Good news") tt).1 = None.
Proof.
  destruct (emotion_analyze_text_scores Samples.joy_twice "Good news" tt
              [("joy", Q2Qc (1 # 10)); ("fear", Q2Qc (2 # 10)); ("joy", Q2Qc (7 # 10))]
              eq_refl eq_refl) as [_ Hget].
  split; [apply (Hget "joy") | apply (Hget "anger")].
Defined.

(** A title of two words. *)
Lemma model_input_prefix_witness :
  exists s rest,
    dget "title" [("title", VStr "Talks resume")] = Some (VStr s)
    /\ s = String.app "Talks resume" rest
    /\ String.length "Talks resume" = (512 `min` String.length s)%nat
    /\ is_blank (VStr s) = false.
Proof.
  apply (model_input_prefix [("title", VStr "Talks resume")] "title" "Talks resume").
  reflexivity.
Defined.

(** ** Sorting by count *)

Section Sorting.
Context {K : Type}.
Implicit Types (x y : K * Z) (xs : list (K * Z)).

Lemma insert_desc_perm x xs : insert_desc x xs ≡ₚ x :: xs.
Proof.
  induction xs as [|y xs IH]; simpl; [done|].
  destruct (y.2 <? x.2)%Z; [done|]. rewrite IH. apply Permutation_swap.
Qed.

Lemma sorted_desc_fold_perm xs : forall acc,
  foldl (fun acc x => insert_desc x acc) acc xs ≡ₚ acc ++ xs.
Proof.
  induction xs as [|x xs IH]; intros acc; simpl.
  - by rewrite app_nil_r.
  - rewrite IH, insert_desc_perm. simpl. apply Permutation_middle.
Qed.

Lemma sorted_desc_perm xs : sorted_desc xs ≡ₚ xs.
Proof. unfold sorted_desc. by rewrite sorted_desc_fold_perm. Qed.

Lemma descending_cons x xs :
  descending (x :: xs) <-> (forall y, y ∈ xs -> y.2 <= x.2) /\ descending xs.
Proof.
  split.
  - intros Hdesc. split.
    + intros y [j Hj]%list_elem_of_lookup. apply (Hdesc 0%nat (S j) x y); [lia|done..].
    + intros i j a c Hij Hi Hj. apply (Hdesc (S i) (S j) a c); [lia|done..].
  - intros [Hhead Hdesc] i j a c Hij Hi Hj.
    destruct j as [|j]; [lia|]. simpl in Hj. destruct i as [|i]; simpl in Hi.
    + injection Hi as <-. apply Hhead. by apply list_elem_of_lookup_2 in Hj.
    + apply (Hdesc i j a c); [lia|done..].
Qed.

Lemma descending_nil : descending ([] : list (K * Z)).
Proof. intros i j x y _ Hi. done. Qed.

Lemma insert_desc_descending x xs : descending xs -> descending (insert_desc x xs).
Proof.
  induction xs as [|y xs IH]; intros Hdesc; simpl.
  - apply descending_cons. split; [|apply descending_nil].
    intros z Hz. by apply elem_of_nil in Hz.
  - apply descending_cons in Hdesc as [Hhead Hdesc].
    destruct (Z.ltb_spec y.2 x.2) as [Hlt|Hge].
    + apply descending_cons. split.
      * intros z [->|Hz]%elem_of_cons; [lia|]. specialize (Hhead z Hz). lia.
      * apply descending_cons. done.
    + apply descending_cons. split; [|by apply IH].
      intros z Hz. rewrite insert_desc_perm in Hz.
      apply elem_of_cons in Hz as [->|Hz]; [lia|by apply Hhead].
Qed.

Lemma sorted_desc_fold_descending xs : forall acc,
  descending acc -> descending (foldl (fun acc x => insert_desc x acc) acc xs).
Proof.
  induction xs as [|x xs IH]; intros acc Hacc; simpl; [done|].
  apply IH. by apply insert_desc_descending.
Qed.

Lemma sorted_desc_descending xs : descending (sorted_desc xs).
Proof. apply sorted_desc_fold_descending, descending_nil. Qed.

End Sorting.

(** ** Dictionaries as lists *)

Section DictList.
Context {V : Type}.
Implicit Types (d : dict V) (items : list (string * V)) (k : string).

Lemma dget_Some_elem_of k (v : V) d : NoDup (dkeys d) -> (dget k d = Some v <-> (k, v) ∈ d).
Proof.
  intros Hnd. split; [apply dget_elem_of|].
  unfold dkeys in Hnd. induction d as [|[k0 v0] d IH]; [by intros ?%elem_of_nil|].
  rewrite fmap_cons in Hnd. apply NoDup_cons in Hnd as [Hnin Hnd].
  intros [[= -> ->]|Hin]%elem_of_cons; simpl.
  - by rewrite decide_True.
  - rewrite decide_False; [by apply IH|].
    intros ->. apply Hnin. apply list_elem_of_fmap. by exists (k0, v).
Qed.

Lemma dict_of_fold_app items : forall d,
  NoDup (dkeys d ++ items.*1) ->
  foldl (fun d kv => dset kv.1 kv.2 d) d items = d ++ items.
Proof.
  induction items as [|[k v] items IH]; intros d Hnd; simpl.
  - by rewrite app_nil_r.
  - rewrite fmap_cons in Hnd. cbn [fst] in Hnd.
    assert (Hk : dget k d = None).
    { apply dget_None_keys. apply NoDup_app in Hnd as (_ & Hdis & _).
      intros Hin. apply (Hdis k Hin). by left. }
    rewrite (dset_fresh k v d Hk), IH.
    + by rewrite <- app_assoc.
    + unfold dkeys in *. rewrite fmap_app, <- app_assoc. done.
Qed.

(** Items with distinct keys make the dictionary that lists them. *)
Lemma dict_of_distinct items : NoDup items.*1 -> dict_of items = items.
Proof. intros Hnd. unfold dict_of. by rewrite dict_of_fold_app. Qed.

End DictList.

(** ** What [get_emotion_statistics] collects *)

Section EmotionCollect.
Context {F : Type} `{PyFloat F}.
Implicit Types (articles : list (annotated (Emotion.analysis F))).
Implicit Types (article : annotated (Emotion.analysis F)).
Implicit Types (o : Emotion.overall_emotions F) (t : dict (list F)).

Lemma emotion_get_overall_counted article o :
  Emotion.get_overall article = Ok o ->
  counted_overall article = if Emotion.otruthy o then Some o else None.
Proof.
  unfold Emotion.get_overall, counted_overall.
  destruct (dget Emotion.KEY article) as [[v|a]|]; [done| |].
  - destruct (Emotion.overall a) as [o'|]; simpl; by intros [= <-].
  - by intros [= <-].
Qed.

Lemma emotion_get_overall_ok article :
  match dget Emotion.KEY article with
  | Some (Orig _) => Emotion.get_overall article = Raise AttributeError
  | _ => exists o, Emotion.get_overall article = Ok o
  end.
Proof.
  unfold Emotion.get_overall.
  destruct (dget Emotion.KEY article) as [[v|a]|]; [done|by eexists..].
Qed.

Lemma add_scores_fold o emotions : forall t,
  NoDup emotions ->
  (forall e, e ∈ emotions -> is_Some (dget e t)) ->
  let t' := foldl (fun totals emotion =>
                     match dget emotion (Emotion.scores o) with
                     | Some x => dset emotion (default [] (dget emotion totals) ++ [x]) totals
                     | None => totals
                     end) t emotions in
  dkeys t' = dkeys t
  /\ forall e, dget e t'
       = if decide (e ∈ emotions)
         then (fun l => l ++ option_list (dget e (Emotion.scores o))) <$> dget e t
         else dget e t.
Proof.
  induction emotions as [|e0 emotions IH]; intros t Hnd Hsome; cbn zeta.
  - split; [done|]. intros e. rewrite decide_False; [done|]. apply not_elem_of_nil.
  - apply NoDup_cons in Hnd as [Hnin Hnd]. cbn [foldl].
    destruct (Hsome e0) as [l0 Hl0]; [by left|].
    set (t1 := match dget e0 (Emotion.scores o) with
               | Some x => dset e0 (default [] (dget e0 t) ++ [x]) t
               | None => t
               end).
    assert (Hkeys1 : dkeys t1 = dkeys t).
    { unfold t1. destruct (dget e0 (Emotion.scores o)); [|done].
      apply dkeys_dset_old. by rewrite Hl0. }
    assert (Hget1 : forall e, dget e t1
              = if decide (e = e0)
                then Some (l0 ++ option_list (dget e0 (Emotion.scores o)))
                else dget e t).
    { intros e. unfold t1. destruct (dget e0 (Emotion.scores o)) as [x|]; simpl.
      - destruct (decide (e = e0)) as [->|Hne].
        + by rewrite dget_dset_eq, Hl0.
        + by rewrite dget_dset_ne.
      - destruct (decide (e = e0)) as [->|Hne]; [|done].
        by rewrite Hl0, app_nil_r. }
    destruct (IH t1 Hnd) as [Hkeys Hget].
    { intros e He. rewrite Hget1. destruct (decide (e = e0)); [by eexists|].
      apply Hsome. by right. }
    split; [by rewrite Hkeys|].
    intros e. rewrite Hget, Hget1.
    destruct (decide (e = e0)) as [->|Hne].
    + rewrite decide_False by done. rewrite decide_True by (by left).
      by rewrite Hl0.
    + destruct (decide (e ∈ emotions)) as [Hin|Hout].
      * by rewrite decide_True by (by right).
      * rewrite decide_False; [done|]. intros [->|Hin]%elem_of_cons; done.
Qed.

Lemma add_scores_spec o t :
  (forall e, e ∈ Emotion.EMOTIONS -> is_Some (dget e t)) ->
  dkeys (Emotion.add_scores o t) = dkeys t
  /\ forall e, dget e (Emotion.add_scores o t)
       = if decide (e ∈ Emotion.EMOTIONS)
         then (fun l => l ++ option_list (dget e (Emotion.scores o))) <$> dget e t
         else dget e t.
Proof. intros Hsome. by apply add_scores_fold; [apply EMOTIONS_NoDup|]. Qed.

(** The lists the loop has built when it ends without exception. *)
Lemma emotion_collect_spec articles : forall t dominants t' dominants',
  (forall e, e ∈ Emotion.EMOTIONS -> is_Some (dget e t)) ->
  Emotion.collect articles t dominants = Ok (t', dominants') ->
  dominants' = dominants ++ dominant_emotions_of articles
  /\ dkeys t' = dkeys t
  /\ forall e, dget e t'
       = if decide (e ∈ Emotion.EMOTIONS)
         then (fun l => l ++ category_scores_of e articles) <$> dget e t
         else dget e t.
Proof.
  induction articles as [|article articles IH]; intros t dominants t' dominants' Hsome.
  - intros [= <- <-]. split; [by rewrite app_nil_r|]. split; [done|].
    intros e. destruct (decide (e ∈ Emotion.EMOTIONS)); [|done].
    destruct (dget e t); simpl; [|done]. by rewrite app_nil_r.
  - cbn [Emotion.collect].
    destruct (Emotion.get_overall article) as [o|] eqn:Ho; [|done].
    cbn [rbind]. pose proof (emotion_get_overall_counted article o Ho) as Hcounted.
    change (dominant_emotions_of (article :: articles))
      with (match (match counted_overall article with
                   | Some o => fst <$> Emotion.dominant o
                   | None => None
                   end) with
            | Some y => y :: dominant_emotions_of articles
            | None => dominant_emotions_of articles
            end).
    assert (Hcat : forall e, category_scores_of e (article :: articles)
                   = match (match counted_overall article with
                            | Some o => dget e (Emotion.scores o)
                            | None => None
                            end) with
                     | Some y => y :: category_scores_of e articles
                     | None => category_scores_of e articles
                     end) by done.
    rewrite Hcounted.
    destruct (Emotion.otruthy o) eqn:Htruthy.
    + destruct (add_scores_spec o t Hsome) as [Hkeys1 Hget1].
      intros Hcollect. apply IH in Hcollect as (Hdom & Hkeys & Hget).
      * split.
        { rewrite Hdom. unfold Emotion.add_dominant.
          destruct (Emotion.dominant o) as [[emotion x]|]; simpl; [|done].
          by rewrite <- app_assoc. }
        split; [by rewrite Hkeys|].
        intros e. rewrite Hget, Hget1, Hcat, Hcounted.
        destruct (decide (e ∈ Emotion.EMOTIONS)); [|done].
        destruct (dget e t) as [l|]; simpl; [|done].
        destruct (dget e (Emotion.scores o)); simpl; [by rewrite <- app_assoc|].
        by rewrite app_nil_r.
      * intros e He. rewrite Hget1, decide_True by done.
        destruct (Hsome e He) as [l ->]. by eexists.
    + intros Hcollect. apply IH in Hcollect as (Hdom & Hkeys & Hget); [|done].
      split; [done|]. split; [done|].
      intros e. by rewrite Hget, Hcat, Hcounted.
Qed.

Lemma emotion_collect_total articles : forall t dominants,
  if well_annotated Emotion.KEY articles
  then exists r, Emotion.collect articles t dominants = Ok r
  else Emotion.collect articles t dominants = Raise AttributeError.
Proof.
  induction articles as [|article articles IH]; intros t dominants; [by eexists|].
  cbn [well_annotated forallb Emotion.collect].
  pose proof (emotion_get_overall_ok article) as Hok.
  destruct (dget Emotion.KEY article) as [[v|a]|] eqn:Hkey.
  - by rewrite Hok.
  - destruct Hok as [o ->]. cbn [rbind andb].
    destruct (Emotion.otruthy o); apply IH.
  - destruct Hok as [o ->]. cbn [rbind andb].
    destruct (Emotion.otruthy o); apply IH.
Qed.

Lemma initial_totals_lookup e :
  dget e (dict_of ((fun emotion => (emotion, ([] : list F))) <$> Emotion.EMOTIONS))
  = if decide (e ∈ Emotion.EMOTIONS) then Some [] else None.
Proof.
  rewrite dict_of_distinct.
  - destruct (decide (e ∈ Emotion.EMOTIONS)) as [Hin|Hout].
    + apply dget_Some_elem_of.
      * unfold dkeys. rewrite <- list_fmap_compose.
        replace (fst ∘ (fun emotion : string => (emotion, ([] : list F)))) with (@id string) by done.
        rewrite list_fmap_id. apply EMOTIONS_NoDup.
      * apply list_elem_of_fmap. by exists e.
    + apply dget_None_keys. unfold dkeys. rewrite <- list_fmap_compose.
      replace (fst ∘ (fun emotion : string => (emotion, ([] : list F)))) with (@id string) by done.
      by rewrite list_fmap_id.
  - rewrite <- list_fmap_compose.
    replace (fst ∘ (fun emotion : string => (emotion, ([] : list F)))) with (@id string) by done.
    rewrite list_fmap_id. apply EMOTIONS_NoDup.
Qed.

End EmotionCollect.

Section DictKeys.
Context {V : Type}.
Implicit Types (d : dict V) (k : string).

Lemma dict_from_keys d (g : string -> V) :
  NoDup (dkeys d) ->
  (forall k, k ∈ dkeys d -> dget k d = Some (g k)) ->
  d = (fun k => (k, g k)) <$> dkeys d.
Proof.
  unfold dkeys. induction d as [|[k0 v0] d IH]; [done|].
  rewrite !fmap_cons. cbn [fst]. intros [Hnin Hnd]%NoDup_cons Hget.
  f_equal.
  - specialize (Hget k0 ltac:(by left)). simpl in Hget.
    rewrite decide_True in Hget by done. by injection Hget as ->.
  - apply IH; [done|]. intros k Hk. specialize (Hget k ltac:(by right)).
    simpl in Hget. rewrite decide_False in Hget; [done|]. intros ->. done.
Qed.

Lemma dget_fmap_values {W} (f : V -> W) k d :
  dget k ((fun kv => (kv.1, f kv.2)) <$> d) = f <$> dget k d.
Proof.
  induction d as [|[k0 v0] d IH]; [done|].
  rewrite fmap_cons. simpl. by destruct (decide (k = k0)).
Qed.

Lemma dkeys_fmap_values {W} (f : string * V -> W) d :
  dkeys ((fun kv => (kv.1, f kv)) <$> d) = dkeys d.
Proof.
  unfold dkeys. rewrite <- list_fmap_compose. by apply list_fmap_ext.
Qed.

End DictKeys.

Section EmotionStatisticsMore.
Context {F : Type} `{PyFloat F}.
Variable set_iter : list string -> list string.
Implicit Types (articles : list (annotated (Emotion.analysis F))).

Lemma emotion_statistics_unfold articles :
  articles <> [] ->
  Emotion.get_emotion_statistics set_iter articles
  = rbind (Emotion.collect articles
             (dict_of ((fun emotion => (emotion, [])) <$> Emotion.EMOTIONS)) [])
      (fun '(emotion_totals, dominant_emotions) =>
         let dominant_counts :=
           dict_of ((fun emotion => (emotion, Z.of_nat (count emotion dominant_emotions)))
                      <$> set_iter dominant_emotions) in
         let dominant_sorted := sorted_desc dominant_counts in
         Ok (Some (Emotion.mk_statistics
               (Z.of_nat (length articles))
               ((fun kv => (kv.1, Emotion.average kv.2)) <$> emotion_totals)
               (dict_of dominant_sorted)
               (match dominant_sorted with
                | x :: _ => Some x.1
                | [] => None
                end)
               (match dominant_emotions with
                | [] => []
                | _ => (fun kv => (kv.1, Emotion.percent kv.2
                                           (Z.of_nat (length dominant_emotions))))
                         <$> dominant_counts
                end)))).
Proof. by destruct articles. Qed.

(** X8: on a non-empty list of records whose analysis key holds no text,
    [get_emotion_statistics] returns a statistics object, never the
    empty dictionary; [average_emotions] lists the seven categories in
    the order of [EMOTIONS], each with 0.0 when no counted record has
    a score for it and with the mean of these scores, rounded to 4
    decimals, otherwise. *)
Theorem emotion_statistics_averages articles :
  well_annotated Emotion.KEY articles = true ->
  articles <> [] ->
  exists stats,
    Emotion.get_emotion_statistics set_iter articles = Ok (Some stats)
    /\ Emotion.average_emotions stats
       = (fun emotion =>
            (emotion,
             match category_scores_of emotion articles with
             | [] => of_int 0
             | xs => round_nd 4 (fdiv (fsum xs) (of_int (Z.of_nat (length xs))))
             end))
           <$> ["anger"; "disgust"; "fear"; "joy"; "neutral"; "sadness"; "surprise"].
Proof.
  intros Hwell Hne. rewrite emotion_statistics_unfold by done.
  pose proof (emotion_collect_total articles
                (dict_of ((fun emotion => (emotion, [])) <$> Emotion.EMOTIONS)) [])
    as Htotal.
  rewrite Hwell in Htotal. destruct Htotal as [[t dominants] Hcollect].
  rewrite Hcollect. cbn [rbind]. eexists. split; [reflexivity|].
  cbn [Emotion.average_emotions].
  apply emotion_collect_spec in Hcollect as (_ & Hkeys & Hget).
  - assert (Hinit : dkeys (dict_of ((fun emotion => (emotion, ([] : list F)))
                                      <$> Emotion.EMOTIONS)) = Emotion.EMOTIONS) by done.
    rewrite Hinit in Hkeys.
    rewrite (dict_from_keys t (fun e => category_scores_of e articles)).
    + rewrite Hkeys, <- list_fmap_compose. apply list_fmap_ext. intros _ e _. simpl.
      unfold Emotion.average, mean. by destruct (category_scores_of e articles).
    + rewrite Hkeys. apply EMOTIONS_NoDup.
    + intros e He. rewrite Hkeys in He. rewrite Hget, decide_True by done.
      rewrite initial_totals_lookup, decide_True by done. done.
  - intros e He. rewrite initial_totals_lookup, decide_True by done. by eexists.
Qed.

(** X9: the dominant emotions in the statistics.  Each dominant
    emotion of a counted record has one entry in
    [dominant_emotion_counts], with the number of counted records it
    dominates; the entries come in descending order of count;
    [most_common_emotion] is one of the most frequent dominant emotions,
    and is [None] only when no record has a dominant emotion; the
    distribution gives each of them [round(count / n * 100, 2)] with [n]
    the number of records that have a dominant emotion. *)
Theorem emotion_statistics_dominant articles stats :
  set_order set_iter ->
  (forall xs, NoDup (set_iter xs)) ->
  Emotion.get_emotion_statistics set_iter articles = Ok (Some stats) ->
  let dominants := dominant_emotions_of articles in
  NoDup (dkeys (Emotion.dominant_emotion_counts stats))
  /\ (forall e, dget e (Emotion.dominant_emotion_counts stats)
        = if decide (e ∈ dominants) then Some (Z.of_nat (count e dominants)) else None)
  /\ descending (Emotion.dominant_emotion_counts stats)
  /\ match Emotion.most_common_emotion stats with
     | Some m => most_frequent m dominants
     | None => dominants = []
     end
  /\ (forall e, dget e (Emotion.emotion_distribution stats)
        = if decide (e ∈ dominants)
          then Some (round_nd 2 (fmul (fdiv (of_int (Z.of_nat (count e dominants)))
                                            (of_int (Z.of_nat (length dominants))))
                                      (of_int 100)))
          else None).
Proof.
  intros Hset Hnodup Hstats dominants.
  assert (Hne : articles <> []) by (intros ->; done).
  rewrite emotion_statistics_unfold in Hstats by done.
  destruct (Emotion.collect articles _ []) as [[t doms]|] eqn:Hcollect; [|done].
  apply emotion_collect_spec in Hcollect as (Hdoms & _ & _).
  2:{ intros e He. rewrite initial_totals_lookup, decide_True by done. by eexists. }
  change (doms = dominants) in Hdoms. subst doms.
  cbn [rbind] in Hstats. injection Hstats as <-.
  cbn [Emotion.dominant_emotion_counts Emotion.most_common_emotion
       Emotion.emotion_distribution].
  set (items := (fun emotion => (emotion, Z.of_nat (count emotion dominants)))
                  <$> set_iter dominants).
  assert (Hkeys : items.*1 = set_iter dominants).
  { unfold items. rewrite <- list_fmap_compose. apply list_fmap_id. }
  assert (Hitems_nd : NoDup items.*1) by (rewrite Hkeys; apply Hnodup).
  rewrite (dict_of_distinct items Hitems_nd).
  pose proof (sorted_desc_perm items) as Hperm.
  assert (Hperm1 : (sorted_desc items).*1 ≡ₚ items.*1) by (by apply fmap_Permutation).
  assert (Hsorted_nd : NoDup (sorted_desc items).*1)
    by (by apply (NoDup_Permutation_proper _ _ Hperm1)).
  rewrite (dict_of_distinct _ Hsorted_nd).
  assert (Hin : forall e n, (e, n) ∈ items <-> e ∈ dominants /\ n = Z.of_nat (count e dominants)).
  { intros e n. unfold items. rewrite list_elem_of_fmap. split.
    - intros [e' [[= -> ->] He']]. split; [by apply Hset|done].
    - intros [He ->]. exists e. split; [done|]. by apply Hset. }
  assert (Hget : forall d : dict Z, d ≡ₚ items -> NoDup (dkeys d) -> forall e,
            dget e d = if decide (e ∈ dominants)
                       then Some (Z.of_nat (count e dominants)) else None).
  { intros d Hd Hnd e. destruct (decide (e ∈ dominants)) as [He|He].
    - apply dget_Some_elem_of; [done|]. rewrite Hd. by apply Hin.
    - apply dget_None_keys. unfold dkeys. rewrite Hd, Hkeys.
      intros He'. apply He. exact (proj1 (Hset dominants e) He'). }
  split; [exact Hsorted_nd|].
  split; [apply Hget; [exact Hperm | exact Hsorted_nd]|].
  split; [apply sorted_desc_descending|].
  split.
  - pose proof (sorted_desc_descending items) as Hdesc.
    destruct (sorted_desc items) as [|[m n] rest] eqn:Hsorted.
    + apply Permutation_nil_l in Hperm.
      destruct dominants as [|e rest]; [done|].
      assert (He : (e, Z.of_nat (count e (e :: rest))) ∈ items)
        by (apply Hin; split; [by left|done]).
      rewrite <- Hperm in He. by apply elem_of_nil in He.
    + apply descending_cons in Hdesc as [Hhead _]. cbn [fst].
      assert (Hm : (m, n) ∈ items) by (rewrite <- Hperm; by left).
      apply Hin in Hm as [Hm ->]. split; [done|].
      intros e. destruct (decide (e ∈ dominants)) as [He|He].
      * assert (Hen : (e, Z.of_nat (count e dominants)) ∈ items) by (by apply Hin).
        rewrite <- Hperm in Hen. apply elem_of_cons in Hen as [[= -> _]|Hen]; [done|].
        specialize (Hhead _ Hen). simpl in Hhead. lia.
      * rewrite (count_not_elem_of e dominants He). lia.
  - intros e. destruct dominants as [|d0 rest] eqn:Hdom.
    + rewrite decide_False; [done|]. apply not_elem_of_nil.
    + rewrite <- Hdom in *.
      rewrite (dget_fmap_values
                 (fun n => Emotion.percent n (Z.of_nat (length dominants))) e items).
      rewrite (Hget items); [|done|exact Hitems_nd].
      by destruct (decide (e ∈ dominants)).
Qed.

End EmotionStatisticsMore.

(** ** When the statistics raise, and when they are empty *)

Section StatisticsResults.
Context {F : Type} `{PyFloat F}.
Variable set_iter : list string -> list string.

Lemma sentiment_collect_total (articles : list (annotated (dict (Sentiment.sentiment F)))) :
  if well_annotated Sentiment.KEY articles
  then Sentiment.collect articles = Ok (omap sentiment_overall articles)
  else Sentiment.collect articles = Raise AttributeError.
Proof.
  induction articles as [|article articles IH]; [done|].
  cbn [well_annotated forallb Sentiment.collect].
  change (omap sentiment_overall (article :: articles))
    with (match sentiment_overall article with
          | Some y => y :: omap sentiment_overall articles
          | None => omap sentiment_overall articles
          end).
  unfold Sentiment.get_overall, sentiment_overall.
  destruct (dget Sentiment.KEY article) as [[v|a]|]; [done|..]; cbn [rbind andb];
    fold (well_annotated Sentiment.KEY articles);
    destruct (well_annotated Sentiment.KEY articles); rewrite IH; done.
Qed.

(** X10: both statistics functions raise [AttributeError] exactly when
    some record holds a text or [null] under the analysis key.
    Otherwise [get_sentiment_statistics] returns the empty dictionary
    when no record has an overall entry, also for a non-empty list, and
    [get_emotion_statistics] returns it for the empty list only. *)
Theorem statistics_results
    (sentiment_articles : list (annotated (dict (Sentiment.sentiment F))))
    (emotion_articles : list (annotated (Emotion.analysis F))) :
  (if well_annotated Sentiment.KEY sentiment_articles
   then match omap sentiment_overall sentiment_articles with
        | [] => Sentiment.get_sentiment_statistics sentiment_articles = Ok None
        | _ => exists stats,
                 Sentiment.get_sentiment_statistics sentiment_articles = Ok (Some stats)
        end
   else Sentiment.get_sentiment_statistics sentiment_articles = Raise AttributeError)
  /\ (if well_annotated Emotion.KEY emotion_articles
      then match emotion_articles with
           | [] => Emotion.get_emotion_statistics set_iter emotion_articles = Ok None
           | _ => exists stats,
                    Emotion.get_emotion_statistics set_iter emotion_articles
                    = Ok (Some stats)
           end
      else Emotion.get_emotion_statistics set_iter emotion_articles
           = Raise AttributeError).
Proof.
  split.
  - rewrite sentiment_statistics_unfold.
    pose proof (sentiment_collect_total sentiment_articles) as Hcollect.
    destruct (well_annotated Sentiment.KEY sentiment_articles); rewrite Hcollect; [|done].
    destruct (omap sentiment_overall sentiment_articles); [done|]. by eexists.
  - destruct emotion_articles as [|a0 rest] eqn:Harticles; [done|].
    rewrite <- Harticles.
    assert (Hne : emotion_articles <> []) by (by rewrite Harticles).
    rewrite emotion_statistics_unfold by done.
    pose proof (emotion_collect_total emotion_articles
                  (dict_of ((fun emotion => (emotion, [])) <$> Emotion.EMOTIONS)) [])
      as Hcollect.
    destruct (well_annotated Emotion.KEY emotion_articles).
    + destruct Hcollect as [[t dominants] ->]. by eexists.
    + by rewrite Hcollect.
Qed.

End StatisticsResults.

(** ** The statistics of analyzed articles *)

Section Pipeline.
Context {F : Type} `{PyFloat F} {St : Type}.
Variable sentiment_model : string -> St -> option (string * F) * St.
Variable emotion_model : string -> St -> option (list (string * F)) * St.
Variable set_iter : list string -> list string.

Lemma sentiment_article_overall article fields st :
  dget Sentiment.KEY (Sentiment.analyze_article sentiment_model set_iter article fields st).1
    <> None
  /\ (forall v, dget Sentiment.KEY
                  (Sentiment.analyze_article sentiment_model set_iter article fields st).1
                <> Some (Orig v))
  /\ (is_Some (sentiment_overall
                 (Sentiment.analyze_article sentiment_model set_iter article fields st).1)
      <-> no_text article fields = false).
Proof.
  unfold sentiment_overall. rewrite sentiment_article_key.
  split; [done|]. split; [done|].
  destruct (no_text article fields) eqn:Hno.
  - rewrite sentiment_fields_no_text by done. simpl. split; [by intros [? ?]|done].
  - split; [done|]. intros _. rewrite sentiment_add_overall_some; [by eexists|].
    apply sentiment_fields_not_nil. by right.
Qed.

Lemma sentiment_output_well_annotated articles fields : forall st,
  well_annotated Sentiment.KEY
    (Sentiment.analyze_articles sentiment_model set_iter articles fields st).1 = true
  /\ length (omap sentiment_overall
               (Sentiment.analyze_articles sentiment_model set_iter articles fields st).1)
     = length (filter (fun article => no_text article fields = false) articles).
Proof.
  induction articles as [|article articles IH]; intros st; [done|].
  cbn [Sentiment.analyze_articles].
  pose proof (sentiment_article_overall article fields st) as (Hkey & Horig & Hoverall).
  destruct (Sentiment.analyze_article sentiment_model set_iter article fields st)
    as [out st'].
  destruct (IH st') as [Hwell Hlen].
  destruct (Sentiment.analyze_articles sentiment_model set_iter articles fields st')
    as [outs st''].
  cbn [fst] in *. split.
  - cbn [well_annotated forallb]. fold (well_annotated Sentiment.KEY outs).
    rewrite Hwell. destruct (dget Sentiment.KEY out) as [[v|a]|]; [|done..].
    by destruct (Horig v).
  - change (omap sentiment_overall (out :: outs))
      with (match sentiment_overall out with
            | Some y => y :: omap sentiment_overall outs
            | None => omap sentiment_overall outs
            end).
    rewrite filter_cons.
    destruct (decide (no_text article fields = false)) as [Hno|Hno].
    + apply Hoverall in Hno as [o ->]. simpl. by rewrite Hlen.
    + destruct (sentiment_overall out) as [o|] eqn:Ho; [|done].
      exfalso. apply Hno. apply Hoverall. by eexists.
Qed.

Lemma emotion_output_well_annotated articles fields : forall st,
  well_annotated Emotion.KEY (Emotion.analyze_articles emotion_model articles fields st).1
  = true.
Proof.
  induction articles as [|article articles IH]; intros st; [done|].
  cbn [Emotion.analyze_articles].
  pose proof (emotion_article_key emotion_model article fields st) as Hkey.
  destruct (Emotion.analyze_article emotion_model article fields st) as [out st'].
  specialize (IH st').
  destruct (Emotion.analyze_articles emotion_model articles fields st') as [outs st''].
  cbn [fst] in *. cbn [well_annotated forallb]. fold (well_annotated Emotion.KEY outs).
  by rewrite IH, Hkey.
Qed.

(** X11: the statistics functions do not raise on the output of
    [analyze_articles].  The sentiment statistics are the empty
    dictionary when no record has text in a requested field, and
    otherwise count as [total_analyzed] the records that have text in
    some requested field; the emotion statistics of a non-empty list
    count all the records. *)
Theorem statistics_of_analyzed (articles : list record) (fields : list string) (st : St) :
  (exists r,
      Sentiment.get_sentiment_statistics
        (Sentiment.analyze_articles sentiment_model set_iter articles fields st).1 = Ok r
      /\ match r with
         | None => forall article, article ∈ articles -> no_text article fields = true
         | Some stats =>
             Sentiment.total_analyzed stats
             = Z.of_nat (length (filter (fun article => no_text article fields = false)
                                   articles))
             /\ 0 < Sentiment.total_analyzed stats
         end)
  /\ (exists r,
      Emotion.get_emotion_statistics set_iter
        (Emotion.analyze_articles emotion_model articles fields st).1 = Ok r
      /\ match r with
         | None => articles = []
         | Some stats => Emotion.total_analyzed stats = Z.of_nat (length articles)
         end).
Proof.
  split.
  - destruct (sentiment_output_well_annotated articles fields st) as [Hwell Hlen].
    pose proof (sentiment_collect_total
                  (Sentiment.analyze_articles sentiment_model set_iter articles fields st).1)
      as Hcollect.
    rewrite Hwell in Hcollect. rewrite sentiment_statistics_unfold, Hcollect.
    destruct (omap sentiment_overall _) as [|o os] eqn:Homap.
    + exists None. split; [done|]. intros article Hin.
      destruct (no_text article fields) eqn:Hno; [done|].
      assert (Hf : article ∈ filter (fun article => no_text article fields = false) articles)
        by (by apply list_elem_of_filter).
      destruct (filter _ articles); [by apply elem_of_nil in Hf | done].
    + eexists (Some _). split; [reflexivity|]. cbn [Sentiment.total_analyzed].
      rewrite <- Hlen. simpl length. split; [done|lia].
  - pose proof (emotion_output_well_annotated articles fields st) as Hwell.
    pose proof (emotion_articles_length emotion_model articles fields st) as Hlen.
    pose proof (emotion_collect_total
                  (Emotion.analyze_articles emotion_model articles fields st).1
                  (dict_of ((fun emotion => (emotion, [])) <$> Emotion.EMOTIONS)) [])
      as Hcollect.
    rewrite Hwell in Hcollect. destruct Hcollect as [[t dominants] Hcollect].
    destruct (Emotion.analyze_articles emotion_model articles fields st).1 as [|o os] eqn:Hout.
    + exists None. split; [done|]. by destruct articles.
    + rewrite emotion_statistics_unfold, Hcollect by done.
      eexists (Some _). split; [reflexivity|]. cbn [Emotion.total_analyzed].
      by rewrite Hlen.
Qed.

End Pipeline.

Lemma exact_set_iter_NoDup xs : NoDup (Exact.set_iter xs).
Proof. apply NoDup_remove_dups. Qed.

(** The two analyzed records of the second scenario. *)
Lemma emotion_statistics_averages_witness :
  exists stats,
    Emotion.get_emotion_statistics Exact.set_iter
      (Emotion.analyze_articles Exact.scenario_model
         [[("title", VStr "A")]; [("title", VStr "B")]] Emotion.DEFAULT_FIELDS 0%nat).1
    = Ok (Some stats)
    /\ Emotion.average_emotions stats
       = (fun emotion =>
            (emotion,
             match category_scores_of emotion
                     (Emotion.analyze_articles Exact.scenario_model
                        [[("title", VStr "A")]; [("title", VStr "B")]]
                        Emotion.DEFAULT_FIELDS 0%nat).1 with
             | [] => of_int 0
             | xs => round_nd 4 (fdiv (fsum xs) (of_int (Z.of_nat (length xs))))
             end))
           <$> ["anger"; "disgust"; "fear"; "joy"; "neutral"; "sadness"; "surprise"].
Proof.
  apply (emotion_statistics_averages Exact.set_iter
           (Emotion.analyze_articles Exact.scenario_model
              [[("title", VStr "A")]; [("title", VStr "B")]] Emotion.DEFAULT_FIELDS 0%nat).1).
  - reflexivity.
  - discriminate.
Defined.

Lemma emotion_statistics_dominant_witness :
  exists stats,
    Emotion.get_emotion_statistics Exact.set_iter
      (Emotion.analyze_articles Exact.scenario_model
         [[("title", VStr "A")]; [("title", VStr "B")]; [("title", VStr "A")]]
         Emotion.DEFAULT_FIELDS 0%nat).1
    = Ok (Some stats)
    /\ descending (Emotion.dominant_emotion_counts stats)
    /\ match Emotion.most_common_emotion stats with
       | Some m =>
           most_frequent m
             (dominant_emotions_of
                (Emotion.analyze_articles Exact.scenario_model
                   [[("title", VStr "A")]; [("title", VStr "B")]; [("title", VStr "A")]]
                   Emotion.DEFAULT_FIELDS 0%nat).1)
       | None =>
           dominant_emotions_of
             (Emotion.analyze_articles Exact.scenario_model
                [[("title", VStr "A")]; [("title", VStr "B")]; [("title", VStr "A")]]
                Emotion.DEFAULT_FIELDS 0%nat).1 = []
       end.
Proof.
  eexists. split; [reflexivity|].
  match goal with
  | |- descending (Emotion.dominant_emotion_counts ?stats) /\ _ =>
      destruct (emotion_statistics_dominant Exact.set_iter
                  (Emotion.analyze_articles Exact.scenario_model
                     [[("title", VStr "A")]; [("title", VStr "B")]; [("title", VStr "A")]]
                     Emotion.DEFAULT_FIELDS 0%nat).1
                  stats exact_set_order exact_set_iter_NoDup eq_refl)
        as (_ & _ & Hdesc & Hmost & _)
  end.
  split; [exact Hdesc | exact Hmost].
Defined.

(** * Failures of the classifier *)

Lemma fmap_const_replicate {A B} (y : B) (xs : list A) :
  (fun _ => y) <$> xs = replicate (length xs) y.
Proof. induction xs as [|x xs IH]; [done|]. simpl. f_equal. exact IH. Qed.

Section BatchRun.
Context {F : Type} `{PyFloat F} {St : Type}.
Variable model_batch : list string -> St -> option (list (string * F)) * St.
Variable texts : list value.
Variable batch_size : Z.
Variable st : St.
Hypothesis batch_size_pos : 0 < batch_size.

Lemma analyze_chunks_run m : forall k0 results,
  Sentiment.analyze_chunks model_batch texts batch_size
    (chunk_offsets batch_size k0 m) results
    (chunk_state model_batch texts batch_size st k0)
  = (results ++ concat (chunk_results model_batch texts batch_size st <$> seq k0 m),
     chunk_state model_batch texts batch_size st (k0 + m)).
Proof.
  induction m as [|m IH]; intros k0 results.
  - simpl. by rewrite app_nil_r, Nat.add_0_r.
  - unfold chunk_offsets. cbn [seq fmap list_fmap Sentiment.analyze_chunks].
    fold (chunk_offsets batch_size (S k0) m).
    unfold Sentiment.analyze_chunk.
    rewrite (slice_offset texts batch_size batch_size_pos k0).
    change (take (Z.to_nat batch_size) (drop (k0 * Z.to_nat batch_size) texts))
      with (chunk texts batch_size k0).
    assert (Hstate : chunk_state model_batch texts batch_size st (S k0)
                     = (model_batch (Sentiment.clean <$> chunk texts batch_size k0)
                          (chunk_state model_batch texts batch_size st k0)).2) by done.
    assert (Hout : chunk_results model_batch texts batch_size st k0
                   = match (model_batch (Sentiment.clean <$> chunk texts batch_size k0)
                              (chunk_state model_batch texts batch_size st k0)).1 with
                     | None => (fun _ => Sentiment.ERROR) <$> chunk texts batch_size k0
                     | Some rs => (fun r => Sentiment.mk_sentiment r.1 (round_nd 4 r.2)) <$> rs
                     end).
    { unfold chunk_results, chunk_answer.
      destruct (model_batch _ _).1; [done|]. by rewrite fmap_const_replicate. }
    cbn [concat]. rewrite Hout.
    replace (k0 + S m)%nat with (S k0 + m)%nat by lia.
    destruct (model_batch (Sentiment.clean <$> chunk texts batch_size k0)
                (chunk_state model_batch texts batch_size st k0)) as [[rs|] st'];
      simpl in Hstate; rewrite <- Hstate, IH; cbn [fst]; by rewrite <- app_assoc.
Qed.

Lemma chunks_cover :
  concat (chunk texts batch_size <$> seq 0 (chunk_count (length texts) batch_size)) = texts.
Proof.
  unfold chunk_count. rewrite decide_True by done.
  destruct (chunk_count_bounds texts batch_size batch_size_pos) as [Hcover _].
  cbn zeta in Hcover.
  pose proof (chunks_concat id texts (Z.to_nat batch_size)
                (Z.to_nat ((Z.of_nat (length texts) + batch_size - 1) / batch_size)) 0%nat)
    as Hcat.
  rewrite list_fmap_id in Hcat. simpl in Hcat. rewrite drop_0 in Hcat.
  rewrite take_ge in Hcat by lia.
  etrans; [|exact Hcat]. f_equal. apply list_fmap_ext. intros _ k _.
  unfold chunk. by rewrite list_fmap_id.
Qed.

Lemma chunk_not_empty k :
  (k < chunk_count (length texts) batch_size)%nat -> chunk texts batch_size k <> [].
Proof.
  unfold chunk_count. rewrite decide_True by done. intros Hk.
  destruct (chunk_count_bounds texts batch_size batch_size_pos) as [_ Hstart].
  cbn zeta in Hstart.
  specialize (Hstart k Hk). intros Hnil.
  apply (f_equal length) in Hnil. unfold chunk in Hnil.
  rewrite length_take, length_drop in Hnil. simpl in Hnil. lia.
Qed.

End BatchRun.

Lemma analyze_batch_run {F} `{PyFloat F} {St}
    (model_batch : list string -> St -> option (list (string * F)) * St)
    (texts : list value) (batch_size : Z) (st : St) :
  Sentiment.analyze_batch model_batch texts batch_size st
  = if decide (batch_size = 0) then (Raise ValueError, st)
    else (Ok (concat (chunk_results model_batch texts batch_size st
                        <$> seq 0 (chunk_count (length texts) batch_size))),
          chunk_state model_batch texts batch_size st
            (chunk_count (length texts) batch_size)).
Proof.
  unfold Sentiment.analyze_batch, range0, chunk_count.
  destruct (decide (batch_size = 0)) as [->|Hnz]; [done|].
  destruct (decide (batch_size < 0)) as [Hneg|Hpos].
  - rewrite decide_False by lia. done.
  - rewrite decide_True by lia.
    set (m := Z.to_nat ((Z.of_nat (length texts) + batch_size - 1) / batch_size)).
    change ((fun k => Z.of_nat k * batch_size) <$> seq 0 m)
      with (chunk_offsets batch_size 0 m).
    pose proof (analyze_chunks_run model_batch texts batch_size st ltac:(lia) m 0%nat [])
      as Hrun.
    simpl in Hrun. by rewrite Hrun.
Qed.

(** The loops over the fields and over the records, state by state. *)
Section SentimentRun.
Context {F : Type} `{PyFloat F} {St : Type}.
Variable model : string -> St -> option (string * F) * St.
Variable set_iter : list string -> list string.
Implicit Types (article : record) (fields pre post : list string) (st : St)
  (d : dict (Sentiment.sentiment F)).

Lemma sentiment_fields_state article fields : forall d d' st,
  (Sentiment.analyze_fields model article fields d st).2
  = (Sentiment.analyze_fields model article fields d' st).2.
Proof.
  induction fields as [|f fields IH]; intros d d' st; [done|].
  simpl. unfold Sentiment.analyze_field.
  destruct (has_text (default (VStr "") (dget f article))); [|apply IH].
  destruct (Sentiment.analyze_text model _ st) as [r st']. apply IH.
Qed.

Lemma sentiment_fields_app article pre post : forall d st,
  Sentiment.analyze_fields model article (pre ++ post) d st
  = Sentiment.analyze_fields model article post
      (Sentiment.analyze_fields model article pre d st).1
      (Sentiment.analyze_fields model article pre d st).2.
Proof.
  induction pre as [|f pre IH]; intros d st; [done|].
  simpl. destruct (Sentiment.analyze_field model article f d st) as [d' st'].
  apply IH.
Qed.

Lemma sentiment_fields_other article field post : forall d st,
  field ∉ post ->
  dget field (Sentiment.analyze_fields model article post d st).1 = dget field d.
Proof.
  induction post as [|f post IH]; intros d st Hnin; [done|].
  apply not_elem_of_cons in Hnin as [Hne Hnin].
  simpl. unfold Sentiment.analyze_field.
  destruct (has_text (default (VStr "") (dget f article))); [|by apply IH].
  destruct (Sentiment.analyze_text model _ st) as [r st'].
  rewrite IH by done. by rewrite dget_dset_ne.
Qed.

Lemma sentiment_field_at article pre field post st :
  field ∉ post ->
  has_text (default (VStr "") (dget field article)) = true ->
  dget field (Sentiment.analyze_fields model article (pre ++ field :: post) [] st).1
  = Some (Sentiment.analyze_text model (default (VStr "") (dget field article))
            (Sentiment.analyze_fields model article pre [] st).2).1.
Proof.
  intros Hnin Htext. rewrite sentiment_fields_app.
  cbn [Sentiment.analyze_fields]. unfold Sentiment.analyze_field. rewrite Htext.
  destruct (Sentiment.analyze_text model _ _) as [r st'].
  rewrite sentiment_fields_other by done. by rewrite dget_dset_eq.
Qed.

Lemma sentiment_articles_at (articles : list record) fields : forall i article st,
  articles !! i = Some article ->
  (Sentiment.analyze_articles model set_iter articles fields st).1 !! i
  = Some (Sentiment.analyze_article model set_iter article fields
            (Sentiment.analyze_articles model set_iter (take i articles) fields st).2).1.
Proof.
  induction articles as [|a articles IH]; intros i article st Hi; [done|].
  cbn [Sentiment.analyze_articles].
  destruct i as [|i].
  - injection Hi as ->. simpl.
    destruct (Sentiment.analyze_article model set_iter article fields st) as [c st'].
    by destruct (Sentiment.analyze_articles model set_iter articles fields st').
  - cbn [take Sentiment.analyze_articles].
    destruct (Sentiment.analyze_article model set_iter a fields st) as [c st'].
    specialize (IH i article st' Hi).
    destruct (Sentiment.analyze_articles model set_iter articles fields st') as [cs st''].
    destruct (Sentiment.analyze_articles model set_iter (take i articles) fields st')
      as [cs' st3].
    exact IH.
Qed.

End SentimentRun.

Section EmotionRun.
Context {F : Type} `{PyFloat F} {St : Type}.
Variable model : string -> St -> option (list (string * F)) * St.
Implicit Types (article : record) (fields pre post : list string) (st : St)
  (d : dict (dict F)).

Lemma emotion_fields_state article fields : forall d d' st,
  (Emotion.analyze_fields model article fields d st).2
  = (Emotion.analyze_fields model article fields d' st).2.
Proof.
  induction fields as [|f fields IH]; intros d d' st; [done|].
  simpl. unfold Emotion.analyze_field.
  destruct (has_text (default (VStr "") (dget f article))); [|apply IH].
  destruct (Emotion.analyze_text model _ st) as [r st']. apply IH.
Qed.

Lemma emotion_fields_app article pre post : forall d st,
  Emotion.analyze_fields model article (pre ++ post) d st
  = Emotion.analyze_fields model article post
      (Emotion.analyze_fields model article pre d st).1
      (Emotion.analyze_fields model article pre d st).2.
Proof.
  induction pre as [|f pre IH]; intros d st; [done|].
  simpl. destruct (Emotion.analyze_field model article f d st) as [d' st'].
  apply IH.
Qed.

Lemma emotion_fields_other article field post : forall d st,
  field ∉ post ->
  dget field (Emotion.analyze_fields model article post d st).1 = dget field d.
Proof.
  induction post as [|f post IH]; intros d st Hnin; [done|].
  apply not_elem_of_cons in Hnin as [Hne Hnin].
  simpl. unfold Emotion.analyze_field.
  destruct (has_text (default (VStr "") (dget f article))); [|by apply IH].
  destruct (Emotion.analyze_text model _ st) as [r st'].
  rewrite IH by done. by rewrite dget_dset_ne.
Qed.

Lemma emotion_field_at article pre field post st :
  field ∉ post ->
  has_text (default (VStr "") (dget field article)) = true ->
  dget field (Emotion.analyze_fields model article (pre ++ field :: post) [] st).1
  = Some (Emotion.analyze_text model (default (VStr "") (dget field article))
            (Emotion.analyze_fields model article pre [] st).2).1.
Proof.
  intros Hnin Htext. rewrite emotion_fields_app.
  cbn [Emotion.analyze_fields]. unfold Emotion.analyze_field. rewrite Htext.
  destruct (Emotion.analyze_text model _ _) as [r st'].
  rewrite emotion_fields_other by done. by rewrite dget_dset_eq.
Qed.

Lemma emotion_articles_at (articles : list record) fields : forall i article st,
  articles !! i = Some article ->
  (Emotion.analyze_articles model articles fields st).1 !! i
  = Some (Emotion.analyze_article model article fields
            (Emotion.analyze_articles model (take i articles) fields st).2).1.
Proof.
  induction articles as [|a articles IH]; intros i article st Hi; [done|].
  cbn [Emotion.analyze_articles].
  destruct i as [|i].
  - injection Hi as ->. simpl.
    destruct (Emotion.analyze_article model article fields st) as [c st'].
    by destruct (Emotion.analyze_articles model articles fields st').
  - cbn [take Emotion.analyze_articles].
    destruct (Emotion.analyze_article model a fields st) as [c st'].
    specialize (IH i article st' Hi).
    destruct (Emotion.analyze_articles model articles fields st') as [cs st''].
    destruct (Emotion.analyze_articles model (take i articles) fields st')
      as [cs' st3].
    exact IH.
Qed.

End EmotionRun.

(** C6: when the classifier fails on a text, [analyze_text] returns the
    sentinel (ERROR with score 0.0; the seven categories at 0.0) and
    hands on the state the failed call left.  The loops go on: in
    [analyze_articles], every requested field with text has its entry in
    the sub-map of its record, and the entry is what [analyze_text]
    returns in the state left by the records and the fields before it,
    failed or not.  [analyze_batch] hands the chunks to the classifier
    one after the other, each in the state the call before left; its
    results are the contributions of the chunks put end to end, so a
    chunk on which the call fails contributes one ERROR sentinel for
    each of its texts, between the results of the chunks before it and
    of the chunks after it.  The chunks put end to end are the texts. *)
Theorem classifier_failure {F} `{PyFloat F} {St}
    (sentiment_model : string -> St -> option (string * F) * St)
    (emotion_model : string -> St -> option (list (string * F)) * St)
    (model_batch : list string -> St -> option (list (string * F)) * St)
    (set_iter : list string -> list string) :
  (forall s st,
      has_text (VStr s) = true ->
      (sentiment_model (PyStr.slice_to 512 s) st).1 = None ->
      Sentiment.analyze_text sentiment_model (VStr s) st
      = (Sentiment.mk_sentiment "ERROR" (of_int 0),
         (sentiment_model (PyStr.slice_to 512 s) st).2))
  /\ (forall s st,
      has_text (VStr s) = true ->
      (emotion_model (PyStr.slice_to 512 s) st).1 = None ->
      Emotion.analyze_text emotion_model (VStr s) st
      = ([("anger", of_int 0); ("disgust", of_int 0); ("fear", of_int 0);
          ("joy", of_int 0); ("neutral", of_int 0); ("sadness", of_int 0);
          ("surprise", of_int 0)],
         (emotion_model (PyStr.slice_to 512 s) st).2))
  /\ (forall articles fields st i article pre field post,
      articles !! i = Some article ->
      fields = pre ++ field :: post ->
      field ∉ post ->
      field <> "overall" ->
      has_text (default (VStr "") (dget field article)) = true ->
      (exists out sub,
          (Sentiment.analyze_articles sentiment_model set_iter articles fields st).1 !! i
            = Some out
          /\ dget Sentiment.KEY out = Some (Ann sub)
          /\ dget field sub
             = Some (Sentiment.analyze_text sentiment_model
                       (default (VStr "") (dget field article))
                       (Sentiment.analyze_fields sentiment_model article pre []
                          (Sentiment.analyze_articles sentiment_model set_iter
                             (take i articles) fields st).2).2).1)
      /\ (exists out sub,
          (Emotion.analyze_articles emotion_model articles fields st).1 !! i = Some out
          /\ dget Emotion.KEY out = Some (Ann sub)
          /\ dget field (Emotion.per_field sub)
             = Some (Emotion.analyze_text emotion_model
                       (default (VStr "") (dget field article))
                       (Emotion.analyze_fields emotion_model article pre []
                          (Emotion.analyze_articles emotion_model
                             (take i articles) fields st).2).2).1))
  /\ (forall texts batch_size st,
      Sentiment.analyze_batch model_batch texts batch_size st
      = if decide (batch_size = 0) then (Raise ValueError, st)
        else (Ok (concat (chunk_results model_batch texts batch_size st
                            <$> seq 0 (chunk_count (length texts) batch_size))),
              chunk_state model_batch texts batch_size st
                (chunk_count (length texts) batch_size)))
  /\ (forall texts batch_size,
      0 < batch_size ->
      concat (chunk texts batch_size <$> seq 0 (chunk_count (length texts) batch_size))
      = texts)
  /\ (forall texts batch_size st k,
      (k < chunk_count (length texts) batch_size)%nat ->
      chunk_answer model_batch texts batch_size st k = None ->
      chunk texts batch_size k <> []
      /\ (Sentiment.analyze_batch model_batch texts batch_size st).1
         = Ok (concat (chunk_results model_batch texts batch_size st <$> seq 0 k)
               ++ replicate (length (chunk texts batch_size k))
                    (Sentiment.mk_sentiment "ERROR" (of_int 0))
               ++ concat (chunk_results model_batch texts batch_size st
                            <$> seq (S k) (chunk_count (length texts) batch_size - S k)))).
Proof.
  split; [|split; [|split; [|split; [|split]]]].
  - intros s st Htext Hfail. unfold Sentiment.analyze_text.
    simpl in Htext. rewrite <- negb_andb, Htext. simpl.
    destruct (sentiment_model (PyStr.slice_to 512 s) st) as [[r|] st']; done.
  - intros s st Htext Hfail. unfold Emotion.analyze_text.
    simpl in Htext. rewrite <- negb_andb, Htext. simpl.
    destruct (emotion_model (PyStr.slice_to 512 s) st) as [[r|] st']; done.
  - intros articles fields st i article pre field post Hi -> Hnin Hne Htext. split.
    + eexists _, _. split; [by apply sentiment_articles_at|].
      split; [apply sentiment_article_key|].
      rewrite sentiment_add_overall_other by done.
      by apply sentiment_field_at.
    + pose proof (emotion_field_at emotion_model article pre field post
                    (Emotion.analyze_articles emotion_model (take i articles)
                       (pre ++ field :: post) st).2 Hnin Htext) as Hf.
      assert (Hd : (Emotion.analyze_fields emotion_model article (pre ++ field :: post) []
                      (Emotion.analyze_articles emotion_model (take i articles)
                         (pre ++ field :: post) st).2).1 <> []).
      { intros Hnil. by rewrite Hnil in Hf. }
      destruct (emotion_finish_some _ Hd) as [_ Hper].
      eexists _, _. split; [by apply emotion_articles_at|].
      split; [apply emotion_article_key|].
      rewrite Hper. by rewrite dget_ddel_ne.
  - intros texts batch_size st. apply analyze_batch_run.
  - intros texts batch_size Hpos. by apply chunks_cover.
  - intros texts batch_size st k Hk Hfail.
    assert (Hpos : 0 < batch_size).
    { unfold chunk_count in Hk. destruct (decide (0 < batch_size)); [done|lia]. }
    split; [by apply chunk_not_empty|].
    rewrite analyze_batch_run. rewrite decide_False by lia. cbn [fst]. f_equal.
    replace (chunk_count (length texts) batch_size)
      with (k + S (chunk_count (length texts) batch_size - S k))%nat at 1 by lia.
    rewrite seq_app, fmap_app, concat_app. f_equal.
    change (0 + k)%nat with k.
    cbn [seq fmap list_fmap concat]. f_equal.
    unfold chunk_results at 1. by rewrite Hfail.
Qed.

(** A sentiment classifier and a batch classifier that fail on their
    first call only, and an emotion classifier that fails on its second
    call only.  The title of the record gets the sentiment sentinel and
    its description is still analyzed, in the state the failed call
    left.  Of three texts in chunks of two, the first two get ERROR and
    the third is still handed to the classifier. *)
Lemma classifier_failure_witness :
  Sentiment.analyze_text (F:=Qc) (Flaky.sentiment_model 0) (VStr "War looms") 0%nat
  = (Sentiment.mk_sentiment "ERROR" (of_int 0), 1%nat)
  /\ ((exists out sub,
        (Sentiment.analyze_articles (F:=Qc) (Flaky.sentiment_model 0) Exact.set_iter
           [[("title", VStr "War looms"); ("description", VStr "Talks resume")]]
           Sentiment.DEFAULT_FIELDS 0%nat).1 !! 0%nat = Some out
        /\ dget Sentiment.KEY out = Some (Ann sub)
        /\ Sentiment.label <$> dget "description" sub = Some "POSITIVE")
      /\ (exists out sub,
        (Emotion.analyze_articles (F:=Qc) (Flaky.emotion_model 1)
           [[("title", VStr "War looms"); ("description", VStr "Talks resume")]]
           Emotion.DEFAULT_FIELDS 0%nat).1 !! 0%nat = Some out
        /\ dget Emotion.KEY out = Some (Ann sub)
        /\ dget "description" (Emotion.per_field sub)
           = Some [("anger", of_int 0); ("disgust", of_int 0); ("fear", of_int 0);
                   ("joy", of_int 0); ("neutral", of_int 0); ("sadness", of_int 0);
                   ("surprise", of_int 0)]))
  /\ (exists results,
        (Sentiment.analyze_batch (F:=Qc) (Flaky.model_batch 0)
           [VStr "a"; VStr "b"; VStr "c"] 2 0%nat).1 = Ok results
        /\ Sentiment.label <$> results = ["ERROR"; "ERROR"; "POSITIVE"]).
Proof.
  destruct (classifier_failure (F:=Qc) (Flaky.sentiment_model 0) (Flaky.emotion_model 1)
              (Flaky.model_batch 0) Exact.set_iter) as (Ha & _ & Hc & _ & _ & Hf).
  split; [|split].
  - apply (Ha "War looms" 0%nat); reflexivity.
  - destruct (Hc [[("title", VStr "War looms"); ("description", VStr "Talks resume")]]
                ["title"; "description"] 0%nat 0%nat
                [("title", VStr "War looms"); ("description", VStr "Talks resume")]
                ["title"] "description" [] eq_refl eq_refl (not_elem_of_nil _)
                ltac:(discriminate) eq_refl)
      as [(out & sub & Hout & Hkey & Hentry) (out' & sub' & Hout' & Hkey' & Hentry')].
    split.
    + exists out, sub. split; [exact Hout|]. split; [exact Hkey|].
      rewrite Hentry. reflexivity.
    + exists out', sub'. split; [exact Hout'|]. split; [exact Hkey'|].
      rewrite Hentry'. reflexivity.
  - destruct (Hf [VStr "a"; VStr "b"; VStr "c"] 2 0%nat 0%nat) as [_ Hres].
    + vm_compute. lia.
    + reflexivity.
    + eexists. split; [exact Hres|]. reflexivity.
Defined.

(** * Further properties: the ingestor *)

(** ** Dictionaries with keys of any type *)

Section MapFacts.
Context {K V : Type} `{EqDecision K}.
Implicit Types (k : K) (v : V) (d items : list (K * V)).

Lemma mget_mset k k' v d :
  mget k (mset k' v d) = if decide (k = k') then Some v else mget k d.
Proof.
  induction d as [|[k0 v0] d IH]; simpl.
  - destruct (decide (k = k')); done.
  - destruct (decide (k' = k0)) as [->|Hne]; simpl.
    + destruct (decide (k = k0)); done.
    + destruct (decide (k = k0)) as [->|Hne'].
      * by rewrite decide_False by done.
      * exact IH.
Qed.

Lemma mget_None_keys k d : mget k d = None <-> k ∉ d.*1.
Proof.
  induction d as [|[k0 v0] d IH]; simpl.
  - split; [intros _; apply not_elem_of_nil|done].
  - rewrite not_elem_of_cons. destruct (decide (k = k0)) as [->|Hne].
    + split; [done|]. by intros [? _].
    + rewrite IH. tauto.
Qed.

Lemma mget_Some_elem_of k v d : NoDup d.*1 -> (mget k d = Some v <-> (k, v) ∈ d).
Proof.
  induction d as [|[k0 v0] d IH]; simpl.
  - intros _. split; [done|]. by intros ?%elem_of_nil.
  - intros [Hnin Hnd]%NoDup_cons. rewrite elem_of_cons.
    destruct (decide (k = k0)) as [->|Hne].
    + split; [intros [= ->]; by left|].
      intros [[= ->]|Hin]; [done|]. exfalso. apply Hnin.
      apply list_elem_of_fmap. by exists (k0, v).
    + rewrite (IH Hnd). split; [by right|]. by intros [[= -> ->]|Hin].
Qed.

Lemma mset_keys k v d :
  (mset k v d).*1 = match mget k d with Some _ => d.*1 | None => d.*1 ++ [k] end.
Proof.
  induction d as [|[k0 v0] d IH]; [done|]. cbn [mset mget].
  destruct (decide (k = k0)) as [->|Hne]; [done|].
  rewrite !fmap_cons, IH. by destruct (mget k d).
Qed.

Lemma mset_NoDup k v d : NoDup d.*1 -> NoDup (mset k v d).*1.
Proof.
  intros Hnd. rewrite mset_keys. destruct (mget k d) eqn:Hget; [done|].
  apply NoDup_app. split; [done|]. split; [|apply NoDup_singleton].
  intros x Hx ->%list_elem_of_singleton. by apply mget_None_keys in Hget.
Qed.

Lemma mset_keys_elem_of k k' v d : k' ∈ (mset k v d).*1 <-> k' = k \/ k' ∈ d.*1.
Proof.
  rewrite mset_keys. destruct (mget k d) eqn:Hget.
  - split; [by right|]. intros [->|Hin]; [|done].
    destruct (decide (k ∈ d.*1)) as [|Hnin]; [done|].
    apply mget_None_keys in Hnin. congruence.
  - rewrite elem_of_app, list_elem_of_singleton. tauto.
Qed.

Lemma mset_fresh k v d : mget k d = None -> mset k v d = d ++ [(k, v)].
Proof.
  induction d as [|[k0 v0] d IH]; simpl; [done|].
  destruct (decide (k = k0)); [done|]. intros Hget. by rewrite IH.
Qed.

Lemma map_of_fold_app items : forall d,
  NoDup (d.*1 ++ items.*1) ->
  foldl (fun d kv => mset kv.1 kv.2 d) d items = d ++ items.
Proof.
  induction items as [|[k v] items IH]; intros d Hnd; simpl.
  - by rewrite app_nil_r.
  - rewrite fmap_cons in Hnd. cbn [fst] in Hnd.
    assert (Hk : mget k d = None).
    { apply mget_None_keys. apply NoDup_app in Hnd as (_ & Hdis & _).
      intros Hin. apply (Hdis k Hin). by left. }
    rewrite (mset_fresh k v d Hk), IH.
    + by rewrite <- app_assoc.
    + rewrite fmap_app, <- app_assoc. done.
Qed.

(** [dict(items)] for items with distinct keys is the dictionary that
    lists them. *)
Lemma map_of_distinct items : NoDup items.*1 -> map_of items = items.
Proof. intros Hnd. unfold map_of. by rewrite map_of_fold_app. Qed.

End MapFacts.

(** ** Counting with a dictionary *)

Section Counting.
Context {K : Type} `{EqDecision K}.
Implicit Types (k : K) (names : list K) (d : list (K * Z)).

(** [d[k] = d.get(k, 0) + 1] for each [k] of [names], in order. *)
Lemma counted_fold names : forall d,
  NoDup d.*1 ->
  let d' := foldl (fun d k => mset k (default 0 (mget k d) + 1) d) d names in
  NoDup d'.*1
  /\ (forall k, k ∈ d'.*1 <-> k ∈ d.*1 \/ k ∈ names)
  /\ (forall k, k ∈ d'.*1 ->
        mget k d' = Some (default 0 (mget k d)
                          + Z.of_nat (length (filter (fun x => x = k) names)))).
Proof.
  induction names as [|n names IH]; intros d Hnd; cbn zeta.
  - simpl. split; [done|]. split.
    + intros k. rewrite elem_of_nil. tauto.
    + intros k Hk. rewrite Z.add_0_r.
      destruct (mget k d) eqn:Hget; [done|]. by apply mget_None_keys in Hget.
  - cbn [foldl].
    destruct (IH (mset n (default 0 (mget n d) + 1) d) (mset_NoDup _ _ _ Hnd))
      as (Hnd' & Hkeys & Hget).
    split; [exact Hnd'|]. split.
    + intros k. rewrite Hkeys, mset_keys_elem_of, elem_of_cons. tauto.
    + intros k Hk. rewrite (Hget k Hk), mget_mset, filter_cons.
      destruct (decide (k = n)) as [->|Hne].
      * rewrite decide_True by done. simpl. f_equal. lia.
      * rewrite decide_False by done. done.
Qed.

End Counting.

(** ** The order of strings *)

Lemma ltb_leb a b : String.ltb a b = negb (String.leb b a).
Proof.
  unfold String.ltb, String.leb. rewrite (String.compare_antisym b a).
  by destruct (String.compare a b).
Qed.

Lemma ltb_irrefl a : String.ltb a a = false.
Proof.
  rewrite ltb_leb. apply negb_false_iff.
  apply Is_true_true. exact (reflexivity (R:=String.le) a).
Qed.

Lemma ltb_asym a b : String.ltb a b = true -> String.ltb b a = false.
Proof.
  rewrite !ltb_leb. intros Hab%negb_true_iff. apply negb_false_iff.
  destruct (String.leb_total a b) as [Hle|Hle]; [done|congruence].
Qed.

Lemma ltb_trans a b c :
  String.ltb a b = true -> String.ltb b c = true -> String.ltb a c = true.
Proof.
  rewrite !ltb_leb. intros Hab%negb_true_iff Hbc%negb_true_iff. apply negb_true_iff.
  destruct (String.leb c a) eqn:Hca; [|done].
  destruct (String.leb_total a b) as [Hle|Hle]; [|congruence].
  assert (Hcb : String.le c b).
  { transitivity a; apply Is_true_true; done. }
  apply Is_true_true in Hcb. congruence.
Qed.

(** ** Source names *)

Lemma source_name_spec (article : dict Ingestor.raw) :
  Ingestor.source_name article
  = if source_ok article then Return (name_of article)
    else Throw (Builtin AttributeError).
Proof.
  unfold Ingestor.source_name, source_ok, name_of, dget_default.
  destruct (dget "source" article) as [[| |d]|]; done.
Qed.

Lemma count_sources_spec (articles : list (dict Ingestor.raw)) : forall sources,
  Ingestor.count_sources articles sources
  = if forallb source_ok articles
    then Return (foldl (fun d k => mset k (default 0 (mget k d) + 1) d)
                   sources (name_of <$> articles))
    else Throw (Builtin AttributeError).
Proof.
  induction articles as [|a articles IH]; intros sources; [done|].
  cbn [Ingestor.count_sources forallb]. rewrite source_name_spec.
  destruct (source_ok a); [|done]. cbn [obind andb]. rewrite IH. done.
Qed.

(** ** The builtins [min] and [max] on dates *)

Section MinMax.
Import Ingestor.
Implicit Types (xs seen : list string) (b : string).

Lemma min_from_strings xs : forall b seen,
  (forall y, y ∈ seen -> String.ltb y b = false) ->
  exists m,
    min_from (RStr b) (RStr <$> xs) = Return (RStr m)
    /\ m ∈ b :: xs
    /\ forall y, y ∈ seen ++ b :: xs -> String.ltb y m = false.
Proof.
  induction xs as [|x xs IH]; intros b seen Hseen.
  - exists b. split; [done|]. split; [by left|].
    intros y [Hy|Hy]%elem_of_app; [by apply Hseen|].
    apply list_elem_of_singleton in Hy as ->. apply ltb_irrefl.
  - cbn [fmap list_fmap min_from raw_lt obind].
    change (list_fmap string raw RStr xs) with (RStr <$> xs).
    destruct (String.ltb x b) eqn:Hlt.
    + destruct (IH x (seen ++ [b])) as (m & Hm & Hin & Hleast).
      { intros y [Hy|Hy]%elem_of_app.
        - destruct (String.ltb y x) eqn:Hyx; [|done].
          rewrite <- (Hseen y Hy). symmetry. by apply (ltb_trans y x b).
        - apply list_elem_of_singleton in Hy as ->. by apply ltb_asym. }
      exists m. split; [exact Hm|]. split; [by right|].
      intros y Hy. apply Hleast. rewrite <- app_assoc. exact Hy.
    + destruct (IH b (seen ++ [x])) as (m & Hm & Hin & Hleast).
      { intros y [Hy|Hy]%elem_of_app; [by apply Hseen|].
        by apply list_elem_of_singleton in Hy as ->. }
      exists m. split; [exact Hm|]. split.
      * apply elem_of_cons in Hin as [->|Hin]; [by left|]. right. by right.
      * intros y Hy. apply Hleast.
        rewrite !elem_of_app, !elem_of_cons in *.
        rewrite elem_of_nil. tauto.
Qed.

Lemma max_from_strings xs : forall b seen,
  (forall y, y ∈ seen -> String.ltb b y = false) ->
  exists m,
    max_from (RStr b) (RStr <$> xs) = Return (RStr m)
    /\ m ∈ b :: xs
    /\ forall y, y ∈ seen ++ b :: xs -> String.ltb m y = false.
Proof.
  induction xs as [|x xs IH]; intros b seen Hseen.
  - exists b. split; [done|]. split; [by left|].
    intros y [Hy|Hy]%elem_of_app; [by apply Hseen|].
    apply list_elem_of_singleton in Hy as ->. apply ltb_irrefl.
  - cbn [fmap list_fmap max_from raw_lt obind].
    change (list_fmap string raw RStr xs) with (RStr <$> xs).
    destruct (String.ltb b x) eqn:Hlt.
    + destruct (IH x (seen ++ [b])) as (m & Hm & Hin & Hgreatest).
      { intros y [Hy|Hy]%elem_of_app.
        - destruct (String.ltb x y) eqn:Hxy; [|done].
          rewrite <- (Hseen y Hy). symmetry. by apply (ltb_trans b x y).
        - apply list_elem_of_singleton in Hy as ->. by apply ltb_asym. }
      exists m. split; [exact Hm|]. split; [by right|].
      intros y Hy. apply Hgreatest. rewrite <- app_assoc. exact Hy.
    + destruct (IH b (seen ++ [x])) as (m & Hm & Hin & Hgreatest).
      { intros y [Hy|Hy]%elem_of_app; [by apply Hseen|].
        by apply list_elem_of_singleton in Hy as ->. }
      exists m. split; [exact Hm|]. split.
      * apply elem_of_cons in Hin as [->|Hin]; [by left|]. right. by right.
      * intros y Hy. apply Hgreatest.
        rewrite !elem_of_app, !elem_of_cons in *.
        rewrite elem_of_nil. tauto.
Qed.

(** A value that is not a string makes the first comparison it is part
    of raise. *)
Lemma min_from_not_text (xs : list raw) : forall best,
  xs <> [] ->
  forallb is_text (best :: xs) = false ->
  min_from best xs = Throw TypeError.
Proof.
  induction xs as [|x xs IH]; intros best Hne Hbad; [done|].
  cbn [min_from]. destruct x as [|s|d]; destruct best as [|s0|d0]; try done.
  cbn [raw_lt obind]. cbn [forallb is_text andb] in Hbad.
  destruct xs as [|x' xs]; [done|].
  apply IH; [done|]. by destruct (String.ltb s s0).
Qed.

Lemma max_from_not_text (xs : list raw) : forall best,
  xs <> [] ->
  forallb is_text (best :: xs) = false ->
  max_from best xs = Throw TypeError.
Proof.
  induction xs as [|x xs IH]; intros best Hne Hbad; [done|].
  cbn [max_from]. destruct x as [|s|d]; destruct best as [|s0|d0]; try done.
  cbn [raw_lt obind]. cbn [forallb is_text andb] in Hbad.
  destruct xs as [|x' xs]; [done|].
  apply IH; [done|]. by destruct (String.ltb s0 s).
Qed.

(** A list of strings, as a list of values that are all strings. *)
Lemma all_text_strings (xs : list raw) :
  forallb is_text xs = true -> exists ss, xs = RStr <$> ss.
Proof.
  induction xs as [|x xs IH]; [by exists []|].
  cbn [forallb]. intros [Hx Hxs]%andb_prop.
  destruct (IH Hxs) as [ss ->]. destruct x as [|s|d]; try done.
  by exists (s :: ss).
Qed.

End MinMax.

(** ** [get_statistics] *)

Section Statistics.
Import Ingestor.
Implicit Types (articles : list (dict raw)) (s : summary).

Lemma get_statistics_unfold a articles :
  get_statistics (a :: articles)
  = obind (count_sources (a :: articles) []) (fun sources =>
    obind (py_min (published (a :: articles))) (fun earliest =>
    obind (py_max (published (a :: articles))) (fun latest =>
    Return (Summary {| total := Z.of_nat (length (a :: articles));
                       sources := Z.of_nat (length sources);
                       top_sources := map_of (take 5 (sorted_desc sources));
                       earliest := earliest;
                       latest := latest |})))).
Proof. done. Qed.

Lemma py_min_one (x : raw) : py_min [x] = Return x.
Proof. done. Qed.

Lemma py_max_one (x : raw) : py_max [x] = Return x.
Proof. done. Qed.

Lemma py_min_not_text (xs : list raw) :
  (2 <= length xs)%nat -> forallb is_text xs = false -> py_min xs = Throw TypeError.
Proof.
  destruct xs as [|x [|x' xs]]; cbn [length]; [lia|lia|]. intros _ Hbad.
  unfold py_min. by apply min_from_not_text.
Qed.

Lemma py_min_text (xs : list raw) :
  xs <> [] -> forallb is_text xs = true ->
  exists m, py_min xs = Return (RStr m) /\ RStr m ∈ xs
            /\ forall y, RStr y ∈ xs -> String.ltb y m = false.
Proof.
  intros Hne Htext. destruct (all_text_strings xs Htext) as [ss ->].
  destruct ss as [|b ss]; [done|].
  destruct (min_from_strings ss b []) as (m & Hm & Hin & Hleast).
  { intros y Hy. by apply elem_of_nil in Hy. }
  exists m. split; [exact Hm|]. split.
  - apply list_elem_of_fmap. by exists m.
  - intros y Hy. apply Hleast. simpl.
    apply list_elem_of_fmap in Hy as (y' & [= ->] & Hy). exact Hy.
Qed.

Lemma py_max_text (xs : list raw) :
  xs <> [] -> forallb is_text xs = true ->
  exists m, py_max xs = Return (RStr m) /\ RStr m ∈ xs
            /\ forall y, RStr y ∈ xs -> String.ltb m y = false.
Proof.
  intros Hne Htext. destruct (all_text_strings xs Htext) as [ss ->].
  destruct ss as [|b ss]; [done|].
  destruct (max_from_strings ss b []) as (m & Hm & Hin & Hgreatest).
  { intros y Hy. by apply elem_of_nil in Hy. }
  exists m. split; [exact Hm|]. split.
  - apply list_elem_of_fmap. by exists m.
  - intros y Hy. apply Hgreatest. simpl.
    apply list_elem_of_fmap in Hy as (y' & [= ->] & Hy). exact Hy.
Qed.

(** The result of [get_statistics], case by case. *)
Lemma get_statistics_cases articles :
  match articles with
  | [] => get_statistics articles = Return Nothing
  | _ =>
      if forallb source_ok articles then
        match published articles with
        | [] => get_statistics articles = Throw (Builtin ValueError)
        | [x] => exists s, get_statistics articles = Return (Summary s)
                           /\ earliest s = x /\ latest s = x
        | _ =>
            if forallb is_text (published articles)
            then exists s, get_statistics articles = Return (Summary s)
            else get_statistics articles = Throw TypeError
        end
      else get_statistics articles = Throw (Builtin AttributeError)
  end.
Proof.
  destruct articles as [|a articles]; [done|].
  rewrite get_statistics_unfold, count_sources_spec.
  destruct (forallb source_ok (a :: articles)); [|done]. cbn [obind].
  destruct (published (a :: articles)) as [|x [|x' xs]] eqn:Hpub; [done| |].
  - eexists. split; [done|]. done.
  - destruct (forallb is_text (x :: x' :: xs)) eqn:Htext.
    + destruct (py_min_text (x :: x' :: xs)) as (m & -> & _); [done|done|].
      destruct (py_max_text (x :: x' :: xs)) as (m' & -> & _); [done|done|].
      by eexists.
    + rewrite py_min_not_text; [done|simpl; lia|done].
Qed.

End Statistics.



Section Summary.
Import Ingestor.
Implicit Types (articles : list (dict raw)) (s : summary).

Lemma min_from_elem (xs : list raw) : forall best m,
  min_from best xs = Return m -> m ∈ best :: xs.
Proof.
  induction xs as [|x xs IH]; intros best m.
  - intros [= ->]. by left.
  - cbn [min_from]. destruct (raw_lt x best) as [b|e]; [|done]. cbn [obind].
    intros Hm%IH. rewrite !elem_of_cons in *.
    destruct b; tauto.
Qed.

Lemma max_from_elem (xs : list raw) : forall best m,
  max_from best xs = Return m -> m ∈ best :: xs.
Proof.
  induction xs as [|x xs IH]; intros best m.
  - intros [= ->]. by left.
  - cbn [max_from]. destruct (raw_lt best x) as [b|e]; [|done]. cbn [obind].
    intros Hm%IH. rewrite !elem_of_cons in *.
    destruct b; tauto.
Qed.

Lemma descending_take {K} (items : list (K * Z)) n :
  descending items -> descending (take n items).
Proof.
  intros Hdesc i j x y Hij Hx Hy.
  apply lookup_take_Some in Hx as [Hx _]. apply lookup_take_Some in Hy as [Hy _].
  by apply (Hdesc i j).
Qed.

(** The counts of the source names. *)
Lemma counted_sources articles :
  let names := name_of <$> articles in
  let counter := foldl (fun d k => mset k (default 0 (mget k d) + 1) d) [] names in
  NoDup counter.*1
  /\ length counter = length (remove_dups names)
  /\ (forall n c, (n, c) ∈ counter <->
        n ∈ names /\ c = Z.of_nat (length (filter (fun x => x = n) names))).
Proof.
  intros names counter.
  destruct (counted_fold names [] ltac:(apply NoDup_nil_2)) as (Hnd & Hkeys & Hget).
  fold counter in Hnd, Hkeys, Hget.
  split; [exact Hnd|]. split.
  - rewrite <- (length_fmap fst counter). apply Permutation_length.
    apply NoDup_Permutation; [done|apply NoDup_remove_dups|].
    intros n. rewrite Hkeys, elem_of_remove_dups, elem_of_nil. tauto.
  - intros n c. rewrite <- (mget_Some_elem_of n c counter Hnd). split.
    + intros Hc.
      assert (Hin : n ∈ counter.*1).
      { destruct (decide (n ∈ counter.*1)) as [|Hnin]; [done|].
        apply mget_None_keys in Hnin. congruence. }
      split.
      * apply Hkeys in Hin as [Hin|Hin]; [by apply elem_of_nil in Hin|done].
      * rewrite (Hget n Hin) in Hc. simpl in Hc. by injection Hc as <-.
    + intros [Hin ->]. rewrite Hget; [done|]. apply Hkeys. by right.
Qed.

End Summary.

(** X14: the entries that [get_statistics] returns.  The total is the
    number of articles and [sources] the number of distinct source
    names.  [top_sources] lists at most five source names, each once
    with the number of its articles, in descending order of that
    number; no name left out has more articles than a name listed.  The
    earliest and the latest date are publication dates of the articles,
    and no publication date is before the earliest or after the
    latest, in the order of strings. *)
Theorem get_statistics_summary (articles : list (dict Ingestor.raw))
    (s : Ingestor.summary) :
  Ingestor.get_statistics articles = Return (Ingestor.Summary s) ->
  let names := name_of <$> articles in
  let articles_of n := Z.of_nat (length (filter (fun x => x = n) names)) in
  Ingestor.total s = Z.of_nat (length articles)
  /\ Ingestor.sources s = Z.of_nat (length (remove_dups names))
  /\ NoDup (Ingestor.top_sources s).*1
  /\ length (Ingestor.top_sources s) = (5 `min` length (remove_dups names))%nat
  /\ descending (Ingestor.top_sources s)
  /\ (forall n c, (n, c) ∈ Ingestor.top_sources s -> n ∈ names /\ c = articles_of n)
  /\ (forall n n' c', n ∈ names -> n ∉ (Ingestor.top_sources s).*1 ->
        (n', c') ∈ Ingestor.top_sources s -> articles_of n <= c')
  /\ Ingestor.earliest s ∈ Ingestor.published articles
  /\ Ingestor.latest s ∈ Ingestor.published articles
  /\ (forall e l d,
        Ingestor.earliest s = Ingestor.RStr e ->
        Ingestor.latest s = Ingestor.RStr l ->
        Ingestor.RStr d ∈ Ingestor.published articles ->
        String.ltb d e = false /\ String.ltb l d = false).
Proof.
  intros Hs names articles_of.
  destruct articles as [|a articles]; [done|].
  rewrite get_statistics_unfold, count_sources_spec in Hs.
  destruct (forallb source_ok (a :: articles)); [|done]. cbn [obind] in Hs.
  destruct (counted_sources (a :: articles)) as (Hnd & Hlen & Hcount).
  fold names in Hnd, Hlen, Hcount, Hs.
  set (counter := foldl (fun d k => mset k (default 0 (mget k d) + 1) d) [] names) in *.
  destruct (Ingestor.py_min (Ingestor.published (a :: articles)))
    as [earliest|] eqn:Hmin; [|done].
  destruct (Ingestor.py_max (Ingestor.published (a :: articles)))
    as [latest|] eqn:Hmax; [|done].
  cbn [obind] in Hs. injection Hs as <-. cbn [Ingestor.total Ingestor.sources
    Ingestor.top_sources Ingestor.earliest Ingestor.latest].
  pose proof (sorted_desc_perm counter) as Hperm.
  pose proof (sorted_desc_descending counter) as Hdesc.
  assert (Hnd5 : NoDup (take 5 (sorted_desc counter)).*1).
  { rewrite fmap_take. eapply sublist_NoDup; [|apply sublist_take].
    by rewrite Hperm. }
  rewrite (map_of_distinct _ Hnd5).
  assert (Hin5 : forall n c, (n, c) ∈ take 5 (sorted_desc counter) -> (n, c) ∈ counter).
  { intros n c Hin. rewrite <- Hperm. by apply (subseteq_take 5). }
  split; [done|]. split; [by rewrite Hlen|]. split; [exact Hnd5|].
  split; [by rewrite length_take, (Permutation_length Hperm), Hlen|].
  split; [by apply descending_take|].
  split; [intros n c Hin; by apply Hcount, Hin5|].
  split.
  { intros n n' c' Hn Hnin Hin'.
    assert (Hc : (n, articles_of n) ∈ sorted_desc counter).
    { rewrite Hperm. by apply Hcount. }
    apply list_elem_of_lookup in Hc as [j Hj].
    apply elem_of_take in Hin' as (i & Hi & Hi5).
    assert (Hj5 : (5 <= j)%nat).
    { destruct (decide (5 <= j)%nat) as [|Hlt]; [done|]. exfalso. apply Hnin.
      apply list_elem_of_fmap. exists (n, articles_of n). split; [done|].
      apply elem_of_take. exists j. split; [done|lia]. }
    apply (Hdesc i j (n', c') (n, articles_of n)); [lia|done|done]. }
  assert (Hpub : Ingestor.published (a :: articles) <> []).
  { intros Hnil. by rewrite Hnil in Hmin. }
  split.
  { unfold Ingestor.py_min in Hmin.
    destruct (Ingestor.published (a :: articles)) as [|x xs]; [done|].
    by apply min_from_elem. }
  split.
  { unfold Ingestor.py_max in Hmax.
    destruct (Ingestor.published (a :: articles)) as [|x xs]; [done|].
    by apply max_from_elem. }
  intros e l d -> -> Hd.
  destruct (forallb is_text (Ingestor.published (a :: articles))) eqn:Htext.
  - destruct (py_min_text _ Hpub Htext) as (m & Hm & _ & Hleast).
    destruct (py_max_text _ Hpub Htext) as (m' & Hm' & _ & Hgreatest).
    rewrite Hm in Hmin. rewrite Hm' in Hmax.
    injection Hmin as ->. injection Hmax as ->.
    split; [by apply Hleast|by apply Hgreatest].
  - destruct (Ingestor.published (a :: articles)) as [|x [|x' xs]] eqn:Hp; [done| |].
    + apply list_elem_of_singleton in Hd as <-. by simpl in Htext.
    + rewrite py_min_not_text in Hmin; [done|simpl; lia|done].
Qed.

(** ** [clean_article] *)

Lemma forallb_elem_of {A} (f : A -> bool) (xs : list A) x :
  forallb f xs = true -> x ∈ xs -> f x = true.
Proof.
  induction xs as [|y xs IH]; [by intros _ ?%elem_of_nil|].
  cbn [forallb]. intros [Hy Hxs]%andb_prop [->|Hin]%elem_of_cons; [done|by apply IH].
Qed.

Section Cleaning.
Import Ingestor.
Variable isoformat : nat -> string.
Implicit Types (article : dict raw) (t : nat).

Lemma clean_article_ok article t :
  source_ok article = true ->
  exists c, clean_article isoformat article t = (Return c, S t) /\ source_ok c = false.
Proof.
  intros Hok. unfold clean_article. rewrite source_name_spec, Hok.
  eexists. split; [done|]. unfold source_ok. cbn. by destruct (name_of article).
Qed.

Lemma clean_article_bad article t :
  source_ok article = false ->
  clean_article isoformat article t = (Throw (Builtin AttributeError), t).
Proof. intros Hbad. unfold clean_article. by rewrite source_name_spec, Hbad. Qed.

(** X15: [clean_article] raises [AttributeError] exactly when the
    source of the article is present and not an object, and then the
    clock is not read.  Otherwise it reads the clock once and returns
    nine keys in a fixed order: the source name (["Unknown"] when the
    source or its name is missing), the time, and the seven copied
    fields, each with the value the article has for it, also when that
    is null, and with the default only when the key is missing.  The
    source of the result is not an object. *)
Theorem clean_article_fields article t :
  if source_ok article then
    exists c,
      clean_article isoformat article t = (Return c, S t)
      /\ dkeys c = ["title"; "description"; "content"; "url"; "source"; "author";
                    "published_at"; "fetched_at"; "url_to_image"]
      /\ dget "source" c = Some (of_value (name_of article))
      /\ dget "fetched_at" c = Some (RStr (isoformat t))
      /\ (forall key out dflt, (key, out, dflt) ∈ copied_fields ->
            dget out c = Some (match dget key article with
                               | Some v => v
                               | None => RStr dflt
                               end))
      /\ source_ok c = false
  else clean_article isoformat article t = (Throw (Builtin AttributeError), t).
Proof.
  unfold clean_article. rewrite source_name_spec.
  destruct (source_ok article); [|done].
  eexists. split; [done|]. split; [done|]. split; [done|]. split; [done|]. split.
  - intros key out dflt Hin. unfold copied_fields in Hin.
    repeat (apply elem_of_cons in Hin as [[= -> -> ->]|Hin];
            [unfold dget_default; by destruct (dget _ article)|]).
    by apply elem_of_nil in Hin.
  - unfold source_ok. cbn. by destruct (name_of article).
Qed.

Lemma clean_articles_ok (articles : list (dict raw)) : forall t,
  forallb source_ok articles = true ->
  exists cleaned,
    clean_articles isoformat articles t = (Return cleaned, (t + length articles)%nat)
    /\ length cleaned = length articles
    /\ forall i a, articles !! i = Some a ->
         exists c, cleaned !! i = Some c
                   /\ clean_article isoformat a (t + i) = (Return c, S (t + i)).
Proof.
  induction articles as [|a articles IH]; intros t Hok.
  - exists []. simpl. by rewrite Nat.add_0_r.
  - cbn [forallb] in Hok. apply andb_prop in Hok as [Ha Hok].
    destruct (clean_article_ok a t Ha) as (c & Hc & _).
    destruct (IH (S t) Hok) as (cleaned & Hcleaned & Hlen & Hlookup).
    exists (c :: cleaned). cbn [clean_articles]. rewrite Hc, Hcleaned.
    split; [f_equal; simpl; lia|]. split; [simpl; by rewrite Hlen|].
    intros [|i] a' Hi.
    + injection Hi as <-. exists c. by rewrite Nat.add_0_r.
    + destruct (Hlookup i a' Hi) as (c' & Hc' & Hclean). exists c'.
      split; [done|]. by replace (t + S i)%nat with (S t + i)%nat by lia.
Qed.

Lemma clean_articles_bad (articles : list (dict raw)) : forall t,
  forallb source_ok articles = false ->
  exists t', clean_articles isoformat articles t = (Throw (Builtin AttributeError), t').
Proof.
  induction articles as [|a articles IH]; intros t Hbad; [done|].
  cbn [forallb] in Hbad. cbn [clean_articles].
  destruct (source_ok a) eqn:Ha.
  - destruct (clean_article_ok a t Ha) as (c & -> & _).
    destruct (IH (S t) Hbad) as [t' ->]. by exists t'.
  - rewrite (clean_article_bad a t Ha). by exists t.
Qed.

(** X16: the cleaned articles are not raw articles.  When
    [clean_articles] returns, it has read the clock once per article
    and there is one cleaned article per article; cleaning a cleaned
    article again raises [AttributeError], and so does [get_statistics]
    on the cleaned articles, because the source is now a name. *)
Theorem cleaned_not_raw (articles cleaned : list (dict raw)) (t t' : nat) :
  clean_articles isoformat articles t = (Return cleaned, t') ->
  length cleaned = length articles
  /\ t' = (t + length articles)%nat
  /\ (forall c t2, c ∈ cleaned ->
        clean_article isoformat c t2 = (Throw (Builtin AttributeError), t2))
  /\ (cleaned <> [] -> get_statistics cleaned = Throw (Builtin AttributeError)).
Proof.
  intros Hclean.
  destruct (forallb source_ok articles) eqn:Hok.
  2: { destruct (clean_articles_bad articles t Hok) as [t2 Hbad]. congruence. }
  destruct (clean_articles_ok articles t Hok) as (cleaned' & Hcleaned & Hlen & Hlookup).
  rewrite Hcleaned in Hclean. injection Hclean as -> <-.
  assert (Hsrc : forall c, c ∈ cleaned -> source_ok c = false).
  { intros c [i Hi]%list_elem_of_lookup.
    destruct (lookup_lt_is_Some_2 articles i) as [a Ha].
    { rewrite <- Hlen. by apply lookup_lt_Some in Hi. }
    destruct (Hlookup i a Ha) as (c' & Hc' & Hclean).
    destruct (clean_article_ok a (t + i)
                (forallb_elem_of _ _ _ Hok (list_elem_of_lookup_2 _ _ _ Ha)))
      as (c2 & Hc2 & Hbad).
    congruence. }
  split; [done|]. split; [done|]. split.
  - intros c t2 Hc. by apply clean_article_bad, Hsrc.
  - intros Hne. pose proof (get_statistics_cases cleaned) as Hcases.
    destruct cleaned as [|c cleaned]; [done|].
    assert (Hc : source_ok c = false) by (apply Hsrc; by left).
    cbn [forallb] in Hcases. by rewrite Hc in Hcases.
Qed.

(** X17: a cleaned article is a record of texts and nulls when no
    copied field of the raw article holds an object: it has the nine
    keys, and each copied field holds the text of the raw article, null
    when the raw article has null there, and the default when the raw
    article has no such key. *)
Theorem cleaned_article_record article t (c : dict raw) (t' : nat) :
  clean_article isoformat article t = (Return c, t') ->
  flat_fields article = true ->
  exists r : record,
    c = of_record r
    /\ dkeys r = ["title"; "description"; "content"; "url"; "source"; "author";
                  "published_at"; "fetched_at"; "url_to_image"]
    /\ dget "source" r = Some (name_of article)
    /\ dget "fetched_at" r = Some (VStr (isoformat t))
    /\ forall key out dflt, (key, out, dflt) ∈ copied_fields ->
         dget out r = Some (match dget key article with
                            | Some (RStr s) => VStr s
                            | Some _ => VNone
                            | None => VStr dflt
                            end).
Proof.
  unfold clean_article. rewrite source_name_spec.
  destruct (source_ok article); [|done]. intros [= <- <-] Hflat.
  unfold flat_fields, copied_fields in Hflat. cbn [forallb fst] in Hflat.
  repeat (apply andb_prop in Hflat as [? Hflat]).
  assert (Hval : forall key dflt,
            match dget key article with Some (RObj _) => false | _ => true end = true ->
            dget_default key (RStr dflt) article
            = of_value (match dget key article with
                        | Some (RStr s) => VStr s
                        | Some _ => VNone
                        | None => VStr dflt
                        end)).
  { intros key dflt. unfold dget_default. by destruct (dget key article) as [[| |d]|]. }
  eexists [("title", _); ("description", _); ("content", _); ("url", _);
           ("source", name_of article); ("author", _); ("published_at", _);
           ("fetched_at", VStr (isoformat t)); ("url_to_image", _)].
  split.
  { unfold of_record. cbn [fmap list_fmap fst snd].
    repeat (rewrite Hval by done). reflexivity. }
  split; [done|]. split; [done|]. split; [done|].
  intros key out dflt Hin. unfold copied_fields in Hin.
  repeat (apply elem_of_cons in Hin as [[= -> -> ->]|Hin]; [done|]).
  by apply elem_of_nil in Hin.
Qed.

End Cleaning.

(** ** Files *)

Section Files.
Context {F : Type}.
Implicit Types (fs : string -> option (content F)) (articles : list (json F)).



End Files.

Section Saving.
Import Ingestor.
Context {F : Type}.
Variable isoformat : nat -> string.
Variable strftime : nat -> string.
Variable join : string -> string -> string.
Implicit Types (articles : list (dict raw)) (fs : string -> option (content F)).


End Saving.

(** ** The sample articles *)

Lemma get_statistics_summary_witness :
  exists s,
    Ingestor.get_statistics Feed.articles = Return (Ingestor.Summary s)
    /\ Ingestor.total s = 3
    /\ Ingestor.sources s = 2
    /\ Ingestor.top_sources s = [(VStr "BBC", 2); (VStr "Unknown", 1)]
    /\ descending (Ingestor.top_sources s)
    /\ Ingestor.earliest s ∈ Ingestor.published Feed.articles
    /\ Ingestor.latest s ∈ Ingestor.published Feed.articles.
Proof.
  eexists. split; [reflexivity|].
  destruct (get_statistics_summary Feed.articles _ eq_refl)
    as (Htotal & Hsources & _ & _ & Hdesc & _ & _ & Hearliest & Hlatest & _).
  split; [exact Htotal|]. split; [exact Hsources|]. split; [reflexivity|].
  split; [exact Hdesc|]. split; [exact Hearliest|exact Hlatest].
Defined.

Lemma cleaned_not_raw_witness :
  exists cleaned,
    Ingestor.clean_articles Feed.isoformat Feed.articles 0 = (Return cleaned, 3%nat)
    /\ length cleaned = 3%nat
    /\ (cleaned <> [] ->
        Ingestor.get_statistics cleaned = Throw (Builtin AttributeError)).
Proof.
  eexists. split; [reflexivity|].
  destruct (cleaned_not_raw Feed.isoformat Feed.articles _ 0 3 eq_refl)
    as (Hlen & _ & _ & Hstats).
  split; [exact Hlen|exact Hstats].
Defined.

Lemma cleaned_article_record_witness :
  exists c (r : record),
    Ingestor.clean_article Feed.isoformat
      [("source", Ingestor.RObj [("id", VNone); ("name", VStr "BBC")]);
       ("author", Ingestor.RNull);
       ("title", Ingestor.RStr "Talks resume")] 0 = (Return c, 1%nat)
    /\ c = of_record r
    /\ dget "source" r = Some (VStr "BBC")
    /\ dget "author" r = Some VNone
    /\ dget "title" r = Some (VStr "Talks resume")
    /\ dget "description" r = Some (VStr "").
Proof.
  eexists.
  destruct (cleaned_article_record Feed.isoformat
              [("source", Ingestor.RObj [("id", VNone); ("name", VStr "BBC")]);
               ("author", Ingestor.RNull);
               ("title", Ingestor.RStr "Talks resume")] 0 _ 1 eq_refl eq_refl)
    as (r & Hr & _ & Hsource & _ & Hcopied).
  exists r. split; [reflexivity|]. split; [exact Hr|]. split; [exact Hsource|].
  split; [apply (Hcopied "author" "author" "Unknown"); set_solver|].
  split; [apply (Hcopied "title" "title" ""); set_solver|].
  apply (Hcopied "description" "description" ""); set_solver.
Defined.
